(** * lottoCheck: match accumulation, standings and winner projection

    A shallow embedding of [lottery.py], [drawing.py], [future_winners.py]
    and [pdf_parser.py].  Python integers are [Z], text is [string] (bytes
    of the UTF-8 encoding, whose byte order agrees with Python's code point
    order), a [dict] keyed by names is a [gmap string _], a Python [set] of
    integers is a [gset Z].  The tracker object, the three data files, the
    terminal and the keyboard are gathered in one [World] record that every
    method threads through a small state-and-exception monad. *)

From Stdlib Require Import ZArith Ascii.
From stdpp Require Import base option list strings gmap sets sorting pretty.

Local Open Scope Z_scope.

(** ** The Python built-ins the program relies on

    Blanks and digits are those of ASCII: the lines typed and the names are
    taken to be ASCII text where [isspace] and [int] decide. *)

Module Py.

(** [sorted(l)] on a list of integers. *)
Definition sorted (l : list Z) : list Z := merge_sort Z.le l.

(** [set(l)] and [sorted(list(s))]. *)
Definition set (l : list Z) : gset Z := list_to_set l.
Definition sorted_set (s : gset Z) : list Z := sorted (elements s).

(** [len] of a list and of a set. *)
Definition len {A} (l : list A) : Z := Z.of_nat (length l).
Definition len_set (s : gset Z) : Z := Z.of_nat (size s).

(** [x in l] for a list of strings. *)
Definition mem_str (x : string) (l : list string) : bool := bool_decide (x ∈ l).

(** [str.isspace] on the ASCII range: TAB..CR, FS..US and the blank. *)
Definition isspace (c : ascii) : bool :=
  let n := Z.of_nat (nat_of_ascii c) in
  ((9 <=? n) && (n <=? 13)) || ((28 <=? n) && (n <=? 32)).

Fixpoint lstrip_chars (cs : list ascii) : list ascii :=
  match cs with
  | c :: cs' => if isspace c then lstrip_chars cs' else cs
  | [] => []
  end.

Definition rstrip_chars (cs : list ascii) : list ascii :=
  reverse (lstrip_chars (reverse cs)).

(** [s.rstrip()] and [s.strip()]. *)
Definition rstrip (s : string) : string :=
  String.string_of_list_ascii (rstrip_chars (String.list_ascii_of_string s)).
Definition strip (s : string) : string :=
  String.string_of_list_ascii (rstrip_chars (lstrip_chars (String.list_ascii_of_string s))).

(** [s.replace(',', ' ')]. *)
Definition replace_comma (s : string) : string :=
  String.string_of_list_ascii
    ((λ c, if Ascii.eqb c "," then " "%char else c) <$> String.list_ascii_of_string s).

(** [s.split()]: the maximal runs of non-blank characters. *)
Fixpoint split_chars (cur : list ascii) (cs : list ascii) : list (list ascii) :=
  match cs with
  | [] => if decide (cur = []) then [] else [reverse cur]
  | c :: cs' =>
      if isspace c
      then (if decide (cur = []) then split_chars [] cs'
            else reverse cur :: split_chars [] cs')
      else split_chars (c :: cur) cs'
  end.
Definition split (s : string) : list string :=
  String.string_of_list_ascii <$> split_chars [] (String.list_ascii_of_string s).

(** [int(tok)] on a token without blanks: an optional sign, then decimal
    digits that single underscores may separate.  [None] is ValueError. *)
Definition digit (c : ascii) : option Z :=
  let n := Z.of_nat (nat_of_ascii c) in
  if (48 <=? n) && (n <=? 57) then Some (n - 48) else None.

Fixpoint int_digits (acc : Z) (after_digit : bool) (cs : list ascii) : option Z :=
  match cs with
  | [] => if after_digit then Some acc else None
  | c :: cs' =>
      if Ascii.eqb c "_"
      then (if after_digit then int_digits acc false cs' else None)
      else match digit c with
           | Some d => int_digits (10 * acc + d) true cs'
           | None => None
           end
  end.

Definition int (tok : string) : option Z :=
  match String.list_ascii_of_string tok with
  | c :: cs =>
      if Ascii.eqb c "+" then int_digits 0 false cs
      else if Ascii.eqb c "-" then Z.opp <$> int_digits 0 false cs
      else int_digits 0 false (c :: cs)
  | [] => None
  end.

(** [f"{n:2d}"]: the decimal numeral, right-aligned in two columns. *)
Definition fmt_2d (n : Z) : string :=
  let s := pretty n in
  if (String.length s <? 2)%nat then " " +:+ s else s.

(** [name.startswith(prefix)]. *)
Definition startswith (name pre : string) : bool := String.prefix pre name.

(** termcolor's [colored(text, 'green')]: the text between the escape
    sequences [ESC[32m] and [ESC[0m], or the bare text when the library
    finds colours switched off. *)
Definition esc : string := String (ascii_of_nat 27) "".
Definition colored_green (enabled : bool) (text : string) : string :=
  if enabled then esc +:+ "[32m" +:+ text +:+ esc +:+ "[0m" else text.

(** [sub in s] on strings. *)
Fixpoint contains_chars (sub cs : list ascii) : bool :=
  bool_decide (sub `prefix_of` cs) ||
  match cs with
  | [] => false
  | _ :: cs' => contains_chars sub cs'
  end.
Definition contains (sub s : string) : bool :=
  contains_chars (String.list_ascii_of_string sub) (String.list_ascii_of_string s).

(** [s.split('\n')]: the text between the line feeds. *)
Fixpoint split_lines_chars (cur cs : list ascii) : list (list ascii) :=
  match cs with
  | [] => [reverse cur]
  | c :: cs' =>
      if Ascii.eqb c "010" then reverse cur :: split_lines_chars [] cs'
      else split_lines_chars (c :: cur) cs'
  end.
Definition split_lines (s : string) : list string :=
  String.string_of_list_ascii <$> split_lines_chars [] (String.list_ascii_of_string s).

(** [str(l)] for a list of integers. *)
Definition str_list (l : list Z) : string :=
  "[" +:+ String.concat ", " (pretty <$> l) +:+ "]".

End Py.

(** [colored_intense(text, 'green')], defined alike in lottery.py and
    drawing.py. *)
Definition colored_intense (enabled : bool) (text : string) : string :=
  Py.esc +:+ "[1m" +:+ Py.colored_green enabled text +:+ Py.esc +:+ "[0m".

(** ** Data model *)

(** One value of [progress['players']]. *)
Record entry := Entry {
  total_correct : Z;
  correct_numbers : list Z
}.

(** [self.progress]. *)
Record Progress := {
  players : gmap string entry;
  processed_draws : list string
}.

Definition empty_progress : Progress :=
  {| players := ∅; processed_draws := [] |}.

(** A row of data/lottery_participants.csv: [Name], [Number1..Number10]. *)
Record participant := {
  Name : string;
  Number : list Z
}.

(** A row of data/trekking.csv: [date], [number1..number6]. *)
Record draw := {
  date : string;
  number : list Z
}.

(** What data/lottery_progress.json holds, as far as the program tells the
    cases apart: no file; a file that cannot be opened or read (IOError); a
    file that is not JSON (JSONDecodeError); JSON whose top-level value is
    not an object; an object whose ['players'] and ['processed_draws'], when
    present, have the shape [save_progress] writes. *)
Inductive json_file :=
| Absent
| Unreadable
| NotJSON
| JSONOther
| JSONObject (saved_players : option (gmap string entry))
             (saved_draws : option (list string)).

(** The tuples appended to [results]:
    [(total_correct, new_correct, name, number_str)]. *)
Definition result : Type := Z * Z * string * string.

(** What the program prints: a constructor per kind of line, with the
    values the line is formatted from.  [FutureHeader] stands for the three
    lines that open a member's block in the analysis of future winners. *)
Inductive output :=
| Msg (text : string)
| Processing (count : Z)
| ResultsFor (draw_date : string)
| WinningNumbers (ns : list Z)
| Heading (title : string)
| Score (name number_str : string) (total : Z)
| ScoreNew (name number_str : string) (total new : Z)
| Winner (name : string)
| MissingInfo (missing_nums : list Z) (winner_count : Z)
| EnterDate (suggested_date : string)
| FutureHeader (name : string) (current : Z) (missing_nums : list Z)
| FutureWinners (names : list string)
| FutureNone.

(** A record of one call of [check_participants] that reached
    [update_progress].  The program never reads it: it is kept to state
    which folds an invocation performed. *)
Record fold := {
  fold_numbers : list Z;
  fold_date : string;
  fold_latest : bool;
  fold_results : list result
}.

(** What the program finds around it and never changes. *)
Record Env := {
  participants_csv : option (list participant);
  filter_family_env : option string;   (* FILTER_FAMILY of .env, if any *)
  colour : bool;                       (* termcolor emits escape codes *)
  writable : bool;                     (* the progress file can be opened for writing *)
  next_date : option string → option string;
      (* pandas: seven days after the given '%d-%b-%y' date, today's date
         for [None]; [None] when the date does not parse *)
  valid_date : string → bool           (* pandas accepts the '%d-%b-%y' date *)
}.

Record World := {
  env : Env;
  progress : Progress;                 (* self.progress *)
  progress_json : json_file;           (* data/lottery_progress.json *)
  trekking_csv : option (list draw);   (* data/trekking.csv *)
  stdin : list string;
  stdout : list output;
  folds : list fold
}.

Definition set_progress (p : Progress) (w : World) : World :=
  {| env := env w; progress := p; progress_json := progress_json w;
     trekking_csv := trekking_csv w; stdin := stdin w; stdout := stdout w;
     folds := folds w |}.
Definition set_progress_json (f : json_file) (w : World) : World :=
  {| env := env w; progress := progress w; progress_json := f;
     trekking_csv := trekking_csv w; stdin := stdin w; stdout := stdout w;
     folds := folds w |}.
Definition set_trekking_csv (t : option (list draw)) (w : World) : World :=
  {| env := env w; progress := progress w; progress_json := progress_json w;
     trekking_csv := t; stdin := stdin w; stdout := stdout w;
     folds := folds w |}.
Definition set_stdin (i : list string) (w : World) : World :=
  {| env := env w; progress := progress w; progress_json := progress_json w;
     trekking_csv := trekking_csv w; stdin := i; stdout := stdout w;
     folds := folds w |}.
Definition set_stdout (o : list output) (w : World) : World :=
  {| env := env w; progress := progress w; progress_json := progress_json w;
     trekking_csv := trekking_csv w; stdin := stdin w; stdout := o;
     folds := folds w |}.
Definition set_folds (f : list fold) (w : World) : World :=
  {| env := env w; progress := progress w; progress_json := progress_json w;
     trekking_csv := trekking_csv w; stdin := stdin w; stdout := stdout w;
     folds := f |}.

(** Writing data/lottery_participants.csv, which only the import of a PDF
    does. *)
Definition set_participants_csv (rows : option (list participant)) (w : World) : World :=
  {| env := {| participants_csv := rows;
               filter_family_env := filter_family_env (env w);
               colour := colour (env w);
               writable := writable (env w);
               next_date := next_date (env w);
               valid_date := valid_date (env w) |};
     progress := progress w; progress_json := progress_json w;
     trekking_csv := trekking_csv w; stdin := stdin w; stdout := stdout w;
     folds := folds w |}.

(** ** State and exceptions *)

Inductive exn :=
| EOFError | FileNotFoundError | IOError | JSONDecodeError | AttributeError
| KeyError | TypeError | ValueError.

Inductive outcome (A : Type) :=
| Ret (a : A)
| Raise (e : exn).
Arguments Ret {A} a.
Arguments Raise {A} e.

Definition M (A : Type) : Type := World → outcome A * World.

Definition ret {A} (a : A) : M A := λ w, (Ret a, w).
Definition raise {A} (e : exn) : M A := λ w, (Raise e, w).
Definition bind {A B} (c : M A) (k : A → M B) : M B :=
  λ w, match c w with
       | (Ret a, w') => k a w'
       | (Raise e, w') => (Raise e, w')
       end.

Notation "x ←← c ;; k" := (bind c (λ x, k))
  (at level 100, c at next level, right associativity).
Notation "c ;;; k" := (bind c (λ _, k))
  (at level 100, right associativity).

Definition get {A} (f : World → A) : M A := λ w, (Ret (f w), w).
Definition modify (f : World → World) : M () := λ w, (Ret (), f w).
Definition print (o : output) : M () :=
  modify (λ w, set_stdout (stdout w ++ [o]) w).

(** [for x in l: body x]. *)
Fixpoint for_each {A} (l : list A) (body : A → M ()) : M () :=
  match l with
  | [] => ret ()
  | x :: l' => body x ;;; for_each l' body
  end.

(** ** Ordering of the result tuples *)

Definition r_total (r : result) : Z := r.1.1.1.
Definition r_new (r : result) : Z := r.1.1.2.
Definition r_name (r : result) : string := r.1.2.
Definition r_str (r : result) : string := r.2.

(** Python's [a <= b] on two such tuples: the first component that differs
    decides. *)
Definition tuple_le (a b : result) : Prop :=
  r_total a < r_total b ∨
  (r_total a = r_total b ∧
   (r_new a < r_new b ∨
    (r_new a = r_new b ∧
     (strict String.le (r_name a) (r_name b) ∨
      (r_name a = r_name b ∧ String.le (r_str a) (r_str b)))))).

Global Instance tuple_le_dec : RelDecision tuple_le.
Proof. intros a b. unfold tuple_le, strict. apply _. Defined.

(** [results.sort(reverse=True)]: the stable sort into descending order.
    [tuple_le] is a total order in which only identical tuples are
    equivalent, so the descending arrangement of a list is unique (see
    [sort_reverse_unique]) and any sorting algorithm computes it. *)
Definition sort_reverse (results : list result) : list result :=
  merge_sort (flip tuple_le) results.

(** [sorted(names)] on strings. *)
Definition sorted_names (names : list string) : list string :=
  merge_sort String.le names.

(** ** The loop over the participants

    The body of [for idx, row in participants.iterrows()] is the same text
    in [LotteryManager.check_participants] and in drawing.py's
    [check_participants]. *)

(** [progress['players'].get(name, {}).get('correct_numbers', [])]. *)
Definition get_correct_numbers (ps : gmap string entry) (name : string) : list Z :=
  match ps !! name with
  | Some e => correct_numbers e
  | None => []
  end.

Definition number_piece (colour : bool)
    (truly_new_correct previous_correct correct_in_draw : gset Z) (n : Z) : string :=
  if decide (n ∈ truly_new_correct)
  then colored_intense colour (Py.fmt_2d n) +:+ " "
  else if decide (n ∈ previous_correct ∨ n ∈ correct_in_draw)
  then Py.colored_green colour (Py.fmt_2d n) +:+ " "
  else Py.fmt_2d n +:+ " ".

Definition number_string (colour : bool) (numbers : list Z)
    (truly_new_correct previous_correct correct_in_draw : gset Z) : string :=
  let number_str :=
    foldl (λ acc n, acc +:+ number_piece colour truly_new_correct
                              previous_correct correct_in_draw n) "[" numbers in
  Py.rstrip number_str +:+ "]".

(** One iteration: the tuple appended to [results] and the pair appended
    to [player_results]. *)
Definition check_row (colour : bool) (ps : gmap string entry)
    (winning_numbers : list Z) (is_latest_draw : bool) (row : participant)
    : result * (string * list Z) :=
  let name := Name row in
  let numbers := Py.sorted (Number row) in
  let previous_correct := Py.set (get_correct_numbers ps name) in
  let correct_in_draw := Py.set (filter (λ n, n ∈ winning_numbers) numbers) in
  let truly_new_correct :=
    if is_latest_draw then correct_in_draw ∖ previous_correct else ∅ in
  let number_str :=
    number_string colour numbers truly_new_correct previous_correct correct_in_draw in
  let total_correct := Py.len_set (previous_correct ∪ correct_in_draw) in
  let new_correct := if is_latest_draw then Py.len_set truly_new_correct else 0 in
  ((total_correct, new_correct, name, number_str),
   (name, filter (λ n, n ∈ winning_numbers) numbers)).

Definition check_rows (colour : bool) (ps : gmap string entry)
    (winning_numbers : list Z) (is_latest_draw : bool)
    (participants : list participant) : list (result * (string * list Z)) :=
  check_row colour ps winning_numbers is_latest_draw <$> participants.

(** ** Saving and updating the progress

    [save_progress] and [update_progress] have the same body in
    [LotteryManager] and in [LotteryTracker]. *)

Definition save_progress : M () :=
  λ w, if writable (env w)
       then (Ret (), set_progress_json
                       (JSONObject (Some (players (progress w)))
                                   (Some (processed_draws (progress w)))) w)
       else print (Msg "Error saving progress file") w.

(** One iteration of [for name, correct_numbers in player_results]. *)
Definition update_player (ps : gmap string entry) (r : string * list Z)
    : gmap string entry :=
  let name := r.1 in
  let ps := if decide (is_Some (ps !! name)) then ps
            else <[name := Entry 0 []]> ps in
  let current_correct := Py.set (get_correct_numbers ps name) in
  let new_correct := Py.set r.2 in
  let all_correct := current_correct ∪ new_correct in
  <[name := Entry (Py.len_set all_correct) (Py.sorted_set all_correct)]> ps.

Definition update_players (ps : gmap string entry)
    (player_results : list (string * list Z)) : gmap string entry :=
  foldl update_player ps player_results.

Definition update_draws (draws : list string) (draw_date : string) : list string :=
  if Py.mem_str draw_date draws then draws else draws ++ [draw_date].

Definition update_progress (player_results : list (string * list Z))
    (draw_date : string) : M () :=
  modify (λ w, set_progress
                 {| players := update_players (players (progress w)) player_results;
                    processed_draws :=
                      update_draws (processed_draws (progress w)) draw_date |} w) ;;;
  save_progress.

(** ** Reading a draw from the keyboard

    [parse_input] differs between the two files in its prompt only. *)

Definition in_range (n : Z) : bool := (1 <=? n) && (n <=? 45).

Inductive checked :=
| Quit                         (* empty line: [return None] *)
| Reject (complaint : string)  (* [return parse_input()] *)
| Accept (numbers : list Z).   (* [return sorted(numbers)] *)

(** [[int(n) for n in user_input.replace(',', ' ').split()]]; [None] when
    some [int] raises ValueError. *)
Definition parse_numbers (user_input : string) : option (list Z) :=
  mapM Py.int (Py.split (Py.replace_comma user_input)).

Definition check_numbers (numbers : list Z) : checked :=
  if negb (Py.len numbers =? 6) then Reject "Please enter exactly 6 numbers"
  else if negb (forallb in_range numbers) then Reject "Numbers must be between 1 and 45"
  else if negb (Py.len_set (Py.set numbers) =? 6) then Reject "Numbers must be unique"
  else Accept (Py.sorted numbers).

Definition check_line (line : string) : checked :=
  let user_input := Py.strip line in
  if decide (user_input = "") then Quit
  else match parse_numbers user_input with
       | Some numbers => check_numbers numbers
       | None => Reject "Please enter valid numbers"
       end.

(** The recursion of [parse_input] runs along the lines still to be read;
    when none is left, [input()] raises EOFError. *)
Fixpoint parse_input_from (prompt : list output) (lines : list string)
    (out : list output) : outcome (option (list Z)) * list string * list output :=
  match lines with
  | [] => (Raise EOFError, [], out ++ prompt)
  | line :: rest =>
      match check_line line with
      | Quit => (Ret None, rest, out ++ prompt)
      | Accept numbers => (Ret (Some numbers), rest, out ++ prompt)
      | Reject complaint =>
          parse_input_from prompt rest (out ++ prompt ++ [Msg complaint])
      end
  end.

Definition parse_input_with (prompt : list output) : M (option (list Z)) :=
  λ w, let '(r, rest, out) := parse_input_from prompt (stdin w) (stdout w) in
       (r, set_stdout out (set_stdin rest w)).

(** ** Printing the score lines *)

Definition print_score (r : result) : M () :=
  if 0 <? r_new r
  then print (ScoreNew (r_name r) (r_str r) (r_total r) (r_new r))
  else print (Score (r_name r) (r_str r) (r_total r)).

Definition print_winner (r : result) : M () :=
  if 10 <=? r_total r then print (Winner (r_name r)) else ret ().

(** The loop that prints the highest scorers, in both files, and the
    Brink family in drawing.py. *)
Definition show_scores (rs : list result) : M () :=
  for_each rs (λ r, print_score r ;;; print_winner r).

(** [print(c * 70)]. *)
Definition rule (c : string) : output :=
  Msg (foldr String.append "" (replicate 70 c)).

(** [print(c * 50)]. *)
Definition short_rule (c : string) : output :=
  Msg (foldr String.append "" (replicate 50 c)).

Definition print_banner (winning_numbers : list Z) (draw_date : string) : M () :=
  print (ResultsFor draw_date) ;;;
  print (rule "=") ;;;
  print (WinningNumbers (Py.sorted winning_numbers)) ;;;
  print (rule "-").

Definition log_fold (winning_numbers : list Z) (draw_date : string)
    (is_latest_draw : bool) (results : list result) : M () :=
  modify (λ w, set_folds (folds w ++ [{| fold_numbers := winning_numbers;
                                          fold_date := draw_date;
                                          fold_latest := is_latest_draw;
                                          fold_results := results |}]) w).

(** [enumerate(l)] and the truth value of a list. *)
Definition enumerate {A} (l : list A) : list (nat * A) :=
  zip (seq 0 (length l)) l.
Definition nonempty {A} (l : list A) : bool :=
  match l with [] => false | _ => true end.

(** [pd.read_csv('data/lottery_participants.csv')] without a prior test
    that the file exists. *)
Definition read_participants : M (list participant) :=
  λ w, match participants_csv (env w) with
       | Some rows => (Ret rows, w)
       | None => (Raise FileNotFoundError, w)
       end.

(** [read_trekking]: an absent ledger is created empty. *)
Definition read_trekking : M (list draw) :=
  λ w, match trekking_csv w with
       | Some rows => (Ret rows, w)
       | None => (Ret [], set_trekking_csv (Some []) w)
       end.

(** ** The projection of future winners

    The inner loop over the participants is the same text in
    [LotteryManager.get_missing_numbers_info],
    [LotteryManager.analyze_future_winners] and future_winners.py. *)

Definition missing_of (ps : gmap string entry) (name : string)
    (chosen : list Z) : gset Z :=
  let current_numbers := Py.set (get_correct_numbers ps name) in
  let chosen_numbers := Py.set chosen in
  chosen_numbers ∖ current_numbers.

(** The test [participant_total + len(matching_numbers) >= 10]. *)
Definition would_win (ps : gmap string entry) (missing_numbers : gset Z)
    (participant : participant) : bool :=
  let participant_correct := Py.set (get_correct_numbers ps (Name participant)) in
  let participant_total := Py.len_set participant_correct in
  let participant_numbers := Py.set (Number participant) in
  let matching_numbers := missing_numbers ∩ participant_numbers in
  10 <=? participant_total + Py.len_set matching_numbers.

(** The participants the loop does not [continue] over and that pass the
    test. *)
Definition winners_if_drawn (ps : gmap string entry) (name : string)
    (missing_numbers : gset Z) (participants_df : list participant)
    : list participant :=
  filter (λ p, Name p ≠ name ∧ would_win ps missing_numbers p) participants_df.

(** ** Regular expressions

    Python's [re] matches by backtracking: of the ways a pattern can
    match, it takes the first in the order in which greedy and lazy
    repetitions try their alternatives.  A pattern is embedded as a function
    of the text still to be read and of a continuation for the rest of the
    pattern, which answers [None] to make the pattern try its next
    alternative.  The classes are those of ASCII text. *)

Module Re.

Definition matcher (R : Type) : Type :=
  list ascii → (list ascii → option R) → option R.

(** [\d], [\s] and [.]. *)
Definition d (c : ascii) : bool := bool_decide (is_Some (Py.digit c)).
Definition s (c : ascii) : bool := Py.isspace c.
Definition dot (c : ascii) : bool := negb (Ascii.eqb c "010").

(** A character of the class [p]. *)
Definition chr {R} (p : ascii → bool) : matcher R :=
  λ cs k, match cs with
          | c :: cs' => if p c then k cs' else None
          | [] => None
          end.

(** The first of two alternatives that lets the rest match, and the
    greedy [a?]. *)
Definition or_else {R} (a b : option R) : option R :=
  match a with Some r => Some r | None => b end.
Definition opt {R} (a : matcher R) : matcher R :=
  λ cs k, or_else (a cs k) (k cs).

(** The greedy [p*] and [p+], the lazy [p*?] and [p+?]. *)
Fixpoint star {R} (p : ascii → bool) (cs : list ascii)
    (k : list ascii → option R) : option R :=
  match cs with
  | c :: cs' => if p c then or_else (star p cs' k) (k cs) else k cs
  | [] => k []
  end.
Definition plus {R} (p : ascii → bool) : matcher R :=
  λ cs k, chr p cs (λ cs', star p cs' k).

Fixpoint lazy_star {R} (p : ascii → bool) (cs : list ascii)
    (k : list ascii → option R) : option R :=
  or_else (k cs)
    match cs with
    | c :: cs' => if p c then lazy_star p cs' k else None
    | [] => None
    end.
Definition lazy_plus {R} (p : ascii → bool) : matcher R :=
  λ cs k, chr p cs (λ cs', lazy_star p cs' k).

(** [a{n}], and the greedy [a*] of a pattern that reads at least one
    character, so that the length of the text bounds the repetitions. *)
Fixpoint times {R} (n : nat) (a : matcher R) : matcher R :=
  λ cs k, match n with
          | O => k cs
          | S n' => a cs (λ cs', times n' a cs' k)
          end.
Fixpoint many_upto {R} (fuel : nat) (a : matcher R) : matcher R :=
  λ cs k, match fuel with
          | O => k cs
          | S fuel' => or_else (a cs (λ cs', many_upto fuel' a cs' k)) (k cs)
          end.
Definition many {R} (a : matcher R) : matcher R :=
  λ cs k, many_upto (length cs) a cs k.

(** The literal [text]. *)
Fixpoint lit {R} (text : list ascii) : matcher R :=
  λ cs k, match text with
          | [] => k cs
          | c :: text' => chr (Ascii.eqb c) cs (λ cs', lit text' cs' k)
          end.

(** [$] at the end of a text without line feeds. *)
Definition at_end (cs : list ascii) : option () :=
  if decide (cs = []) then Some () else None.

(** What a group captured: the text from [from] up to [to], a suffix of
    it. *)
Definition between (from to : list ascii) : string :=
  String.string_of_list_ascii (take (length from - length to) from).

(** [re.sub(pattern, '', text)] for a pattern that ends in [$]: the text
    before the leftmost place where the pattern matches. *)
Fixpoint cut (pattern : list ascii → option ()) (cs : list ascii) : list ascii :=
  match pattern cs with
  | Some _ => []
  | None => match cs with
            | c :: cs' => c :: cut pattern cs'
            | [] => []
            end
  end.

(** [re.findall(r'\d+', text)]: the maximal runs of digits. *)
Fixpoint findall_digits_chars (cur cs : list ascii) : list (list ascii) :=
  match cs with
  | [] => if decide (cur = []) then [] else [reverse cur]
  | c :: cs' =>
      if d c then findall_digits_chars (c :: cur) cs'
      else if decide (cur = []) then findall_digits_chars [] cs'
           else reverse cur :: findall_digits_chars [] cs'
  end.
Definition findall_digits (text : string) : list string :=
  String.string_of_list_ascii <$>
    findall_digits_chars [] (String.list_ascii_of_string text).

End Re.

(** ** pdf_parser.py

    [parse_pdf_lottery_data] is the same text in pdf_parser.py and in
    [LotteryManager]. *)

(** What is found at [pdf_path]: no file; a file that pdfplumber does not
    open, or a page of which has no text; the text of each page. *)
Inductive pdf_file :=
| NoPdf
| BadPdf
| Pdf (pages : list string).

Module PdfParser.

(** [re.match(r'^\d{1,3}\s+(.+?)\s+(\d+(?:\s+\d+){9,})', line)]: the two
    groups. *)
Definition match_row (line : string) : option (string * string) :=
  let number_more {R} : Re.matcher R :=
    λ cs k, Re.plus Re.s cs (λ cs', Re.plus Re.d cs' k) in
  Re.chr Re.d (String.list_ascii_of_string line) (λ c1,
  Re.opt (λ cs k, Re.chr Re.d cs (λ cs', Re.opt (Re.chr Re.d) cs' k)) c1 (λ c2,
  Re.plus Re.s c2 (λ group1,
  Re.lazy_plus Re.dot group1 (λ group1_end,
  Re.plus Re.s group1_end (λ group2,
  Re.plus Re.d group2 (λ c3,
  Re.times 9 number_more c3 (λ c4,
  Re.many number_more c4 (λ group2_end,
  Some (Re.between group1 group1_end, Re.between group2 group2_end))))))))).

(** [re.sub(r'\s+\d+\s*$', '', name)] and
    [re.sub(r'\s+X_GOED\s*$', '', name)]. *)
Definition sub_trailing_number (name : string) : string :=
  String.string_of_list_ascii
    (Re.cut (λ cs, Re.plus Re.s cs (λ c1, Re.plus Re.d c1 (λ c2,
                   Re.star Re.s c2 Re.at_end)))
            (String.list_ascii_of_string name)).
Definition sub_x_goed (name : string) : string :=
  String.string_of_list_ascii
    (Re.cut (λ cs, Re.plus Re.s cs (λ c1,
                   Re.lit (String.list_ascii_of_string "X_GOED") c1 (λ c2,
                   Re.star Re.s c2 Re.at_end)))
            (String.list_ascii_of_string name)).

(** The lines the loop [continue]s over: empty lines and headers. *)
Definition skipped (line : string) : bool :=
  bool_decide (Py.strip line = "") || Py.startswith line "DEELNEMER" ||
  Py.contains "TREKKING" line || Py.contains "BEDRAG" line ||
  Py.contains "POT" line || Py.contains "â‚¬" line ||
  Py.contains "DEELNEMERS:" line || Py.contains "INLEG" line.

(** The variables of the loop.  A participant is kept as the row of
    [Name] and [Number1..Number10] that it becomes in the CSV file. *)
Record import := {
  participants : list participant;
  last_name : option string;
  name_count : gmap string Z
}.

(** [participants[-1]['name'] = name]; [None] is IndexError. *)
Definition rename_last (ps : list participant) (name : string)
    : option (list participant) :=
  match reverse ps with
  | p :: before => Some (reverse before ++ [{| Name := name; Number := Number p |}])
  | [] => None
  end.

(** The body of [for line in lines]; [None] is an exception, which every
    caller catches.  [int] is taken not to fail on a run of digits. *)
Definition import_line (st : import) (line : string) : option import :=
  if skipped line then Some st
  else match match_row line with
       | Some (group1, group2) =>
           let numbers := take 10 (Re.findall_digits group2) in
           let name := sub_x_goed (sub_trailing_number group1) in
           if Py.len numbers =? 10
           then let count := default 0 (name_count st !! name) + 1 in
                let unique_name :=
                  if 1 <? count then name +:+ " (" +:+ pretty count +:+ ")" else name in
                numbers ← mapM Py.int numbers;
                Some {| participants :=
                          participants st ++
                          [{| Name := Py.strip unique_name; Number := numbers |}];
                        last_name := Some (Py.strip name);
                        name_count := <[name := count]> (name_count st) |}
           else Some st
       | None =>
           match last_name st with
           | Some last =>
               if decide (last = "") then Some st
               else let last := last +:+ " " +:+ Py.strip line in
                    renamed ← rename_last (participants st) last;
                    Some {| participants := renamed;
                            last_name := Some last;
                            name_count := name_count st |}
           | None => Some st
           end
       end.

Definition import_lines (st : import) (lines : list string) : option import :=
  foldl (λ st line, st ≫= λ st, import_line st line) (Some st) lines.

Definition parse_pdf_lottery_data (pages : list string) : option (list participant) :=
  participants <$>
    import_lines {| participants := []; last_name := None; name_count := ∅ |}
                 (mjoin (Py.split_lines <$> pages)).

(** The participants file is taken to be writable, and pandas to read back
    the table that is written. *)
Definition save_to_csv (participants : list participant) : M () :=
  modify (set_participants_csv (Some participants)).

Definition process_lottery_pdf (pdf : pdf_file) : M bool :=
  match pdf with
  | NoPdf | BadPdf => print (Msg "Error processing PDF") ;;; ret false
  | Pdf pages =>
      match parse_pdf_lottery_data pages with
      | None => print (Msg "Error processing PDF") ;;; ret false
      | Some participants =>
          save_to_csv participants ;;;
          print (Msg ("Successfully processed " +:+ pretty (Py.len participants) +:+
                      " participants")) ;;;
          print (Msg "Data saved to data/lottery_participants.csv") ;;;
          for_each (take 10 participants)
            (λ p, print (Msg (Name p +:+ ": " +:+ Py.str_list (Number p)))) ;;;
          ret true
      end
  end.

End PdfParser.

(** ** drawing.py *)

Module Drawing.

Definition load_progress : M () :=
  λ w, match progress_json w with
       | Absent =>
           (print (Msg "No existing progress file found. Starting fresh.") ;;;
            save_progress) w
       | Unreadable | NotJSON =>
           (print (Msg "Error loading progress file") ;;;
            print (Msg "Starting with fresh progress file")) w
       | JSONOther => raise AttributeError w
       | JSONObject saved_players saved_draws =>
           modify (set_progress
                     {| players := default ∅ saved_players ∪ players (progress w);
                        processed_draws := default [] saved_draws |}) w
       end.

(** [LotteryTracker()]. *)
Definition init : M () :=
  modify (set_progress empty_progress) ;;; load_progress.

Definition get_unprocessed_draws : M (list (list Z * string)) :=
  trekking ←← read_trekking ;;
  p ←← get progress ;;
  ret ((λ row, (Py.sorted (number row), date row))
         <$> filter (λ row, date row ∉ processed_draws p) trekking).

Definition parse_input : M (option (list Z)) :=
  parse_input_with
    [Msg ("Enter 6 numbers (comma or space separated), " +:+
          "or press Enter to show current standings:")].

Definition add_to_trekking (numbers : list Z) : M string :=
  trekking ←← read_trekking ;;
  e ←← get env ;;
  match next_date e (date <$> last trekking) with
  | None => raise ValueError
  | Some next =>
      modify (set_trekking_csv
                (Some (trekking ++ [{| date := next; number := take 6 numbers |}]))) ;;;
      ret next
  end.

Definition report (results : list result) : M () :=
  match results with
  | [] => print (Msg "No results to display")
  | top :: _ =>
      let highest_total := r_total top in
      let highest_scorers := filter (λ r, r_total r = highest_total) results in
      let brink_family :=
        filter (λ r, Py.startswith (r_name r) "Brink" = true) results in
      (if nonempty highest_scorers
       then print (Heading "Highest Scorers") ;;; print (rule "-") ;;;
            show_scores highest_scorers
       else ret ()) ;;;
      (if nonempty brink_family
       then print (Heading "Brink Family Results") ;;; print (rule "-") ;;;
            show_scores brink_family
       else ret ()) ;;;
      (if negb (nonempty highest_scorers) && negb (nonempty brink_family)
       then print (Msg "No results to display")
       else ret ())
  end.

Definition check_participants (winning_numbers : list Z) (draw_date : string)
    (is_latest_draw : bool) : M () :=
  participants ←← read_participants ;;
  print_banner winning_numbers draw_date ;;;
  w ←← get id ;;
  let rows := check_rows (colour (env w)) (players (progress w))
                winning_numbers is_latest_draw participants in
  let results := sort_reverse rows.*1 in
  let player_results := rows.*2 in
  report results ;;;
  log_fold winning_numbers draw_date is_latest_draw results ;;;
  update_progress player_results draw_date.

Definition process_all_unprocessed_draws : M bool :=
  unprocessed ←← get_unprocessed_draws ;;
  (if nonempty unprocessed
   then print (Processing (Py.len unprocessed)) ;;;
        for_each (enumerate unprocessed)
          (λ '(i, (numbers, draw_date)),
             let is_latest :=
               bool_decide (Z.of_nat i = Py.len unprocessed - 1) in
             check_participants numbers draw_date is_latest)
   else ret ()) ;;;
  ret (nonempty unprocessed).

Definition get_latest_results : M (option (list Z * string)) :=
  trekking ←← read_trekking ;;
  ret ((λ latest, (Py.sorted (number latest), date latest)) <$> last trekking).

Definition main : M () :=
  init ;;;
  found_unprocessed ←← process_all_unprocessed_draws ;;
  numbers ←← parse_input ;;
  match numbers with
  | Some numbers =>
      draw_date ←← add_to_trekking numbers ;;
      check_participants numbers draw_date true
  | None =>
      if negb found_unprocessed
      then latest ←← get_latest_results ;;
           match latest with
           | Some (numbers, draw_date) =>
               if nonempty numbers && negb (String.eqb draw_date "")
               then check_participants numbers draw_date true
               else print (Msg "No draws found in trekking.csv")
           | None => print (Msg "No draws found in trekking.csv")
           end
      else ret ()
  end.

End Drawing.

(** ** lottery.py *)

Module Lottery.

Definition load_progress : M () :=
  λ w, match progress_json w with
       | Absent =>
           print (Msg "No existing progress file found. Starting fresh.") w
       | Unreadable | NotJSON =>
           (print (Msg "Error loading progress file") ;;;
            print (Msg "Starting with fresh progress file")) w
       | JSONOther => raise AttributeError w
       | JSONObject saved_players saved_draws =>
           modify (set_progress
                     {| players := default ∅ saved_players ∪ players (progress w);
                        processed_draws := default [] saved_draws |}) w
       end.

(** [LotteryManager()]. *)
Definition init : M () :=
  modify (set_progress empty_progress) ;;; load_progress.

Definition parse_input : M (option (list Z)) :=
  parse_input_with
    [Msg "Enter 6 numbers (comma or space separated), or press Enter to quit:";
     Msg "Numbers: "].

(** The line read by [get_draw_date]; the recursion on a date that pandas
    refuses runs along the lines still to be read. *)
Fixpoint get_draw_date_from (valid : string → bool) (suggested_date : string)
    (lines : list string) (out : list output)
    : outcome string * list string * list output :=
  let prompt := [EnterDate suggested_date; Msg "Date (DD-MMM-YY): "] in
  match lines with
  | [] => (Raise EOFError, [], out ++ prompt)
  | line :: rest =>
      let date_input := Py.strip line in
      if decide (date_input = "") then (Ret suggested_date, rest, out ++ prompt)
      else if valid date_input then (Ret date_input, rest, out ++ prompt)
      else get_draw_date_from valid suggested_date rest
             (out ++ prompt ++
              [Msg "Invalid date format. Please use DD-MMM-YY (e.g., 04-Aug-25)"])
  end.

Definition get_draw_date : M string :=
  trekking ←← read_trekking ;;
  e ←← get env ;;
  match next_date e (date <$> last trekking) with
  | None => raise ValueError
  | Some suggested_date =>
      λ w, let '(r, rest, out) :=
             get_draw_date_from (valid_date e) suggested_date (stdin w) (stdout w) in
           (r, set_stdout out (set_stdin rest w))
  end.

Definition add_to_trekking (numbers : list Z) (draw_date : string) : M string :=
  trekking ←← read_trekking ;;
  modify (set_trekking_csv
            (Some (trekking ++ [{| date := draw_date; number := take 6 numbers |}]))) ;;;
  ret draw_date.

(** [get_filter_family], with Python's truth value of its result: [None]
    and the empty string switch the family view off. *)
Definition get_filter_family : M (option string) :=
  e ←← get env ;;
  ret (match filter_family_env e with
       | Some f => if String.eqb f "" then None else Some f
       | None => None
       end).

Definition get_missing_numbers_info (player_name : string)
    (winning_numbers : list Z) : M (option (list Z * Z)) :=
  λ w,
    let complain :=
      (print (Msg "Error analyzing missing numbers") ;;; ret None) w in
    match participants_csv (env w), progress_json w with
    | None, _ | _, Absent => (Ret None, w)
    | Some _, (Unreadable | NotJSON) => complain
    | Some participants_df, saved =>
        match filter (λ row, Name row = player_name) participants_df with
        | [] => (Ret None, w)
        | player_row :: _ =>
            match saved with
            | JSONObject (Some ps) _ =>
                let missing_numbers := missing_of ps player_name (Number player_row) in
                let potential_winners :=
                  Py.len (winners_if_drawn ps player_name missing_numbers
                            participants_df) in
                (Ret (Some (Py.sorted_set missing_numbers, potential_winners)), w)
            | _ => complain
            end
        end
    end.

Definition show_family_scores (winning_numbers : list Z) (rs : list result) : M () :=
  for_each rs
    (λ r, print_score r ;;;
          missing_info ←← get_missing_numbers_info (r_name r) winning_numbers ;;
          (match missing_info with
           | Some (missing_nums, winner_count) =>
               print (MissingInfo missing_nums winner_count)
           | None => ret ()
           end) ;;;
          print_winner r).

Definition report (winning_numbers : list Z) (results : list result) : M () :=
  match results with
  | [] => ret ()
  | top :: _ =>
      let highest_total := r_total top in
      filter_family ←← get_filter_family ;;
      let highest_scorers := filter (λ r, r_total r = highest_total) results in
      let filter_results :=
        match filter_family with
        | Some f => filter (λ r, Py.startswith (r_name r) f = true) results
        | None => []
        end in
      (if nonempty highest_scorers
       then print (Heading "Highest Scorers") ;;; print (rule "-") ;;;
            show_scores highest_scorers
       else ret ()) ;;;
      (if nonempty filter_results
       then print (Heading (default "" filter_family +:+ " Family Results")) ;;;
            print (rule "-") ;;;
            show_family_scores winning_numbers filter_results
       else ret ())
  end.

Definition check_participants (winning_numbers : list Z) (draw_date : string)
    (is_latest_draw : bool) : M () :=
  e ←← get env ;;
  match participants_csv e with
  | None =>
      print (Msg "No participants file found. Please start a new lottery run first.")
  | Some participants =>
      print_banner winning_numbers draw_date ;;;
      w ←← get id ;;
      let rows := check_rows (colour e) (players (progress w))
                    winning_numbers is_latest_draw participants in
      let results := sort_reverse rows.*1 in
      let player_results := rows.*2 in
      report winning_numbers results ;;;
      log_fold winning_numbers draw_date is_latest_draw results ;;;
      update_progress player_results draw_date
  end.

Definition show_current_standings : M () :=
  trekking ←← read_trekking ;;
  match last trekking with
  | Some latest =>
      check_participants (Py.sorted (number latest)) (date latest) true
  | None => print (Msg "No draws found. Please add a draw first.")
  end.

Definition run_interactive_mode : M () :=
  e ←← get env ;;
  match participants_csv e with
  | None =>
      print (Msg "No participants file found. Please start a new lottery run first.") ;;;
      print (Msg "Usage: python lottery.py <pdf_file>")
  | Some _ =>
      print (Msg "Current Lottery Standings") ;;;
      print (short_rule "=") ;;;
      show_current_standings ;;;
      print (short_rule "=") ;;;
      print (Msg "Add New Draw") ;;;
      print (short_rule "=") ;;;
      numbers ←← parse_input ;;
      match numbers with
      | None => print (Msg "Goodbye!")
      | Some numbers =>
          draw_date ←← get_draw_date ;;
          add_to_trekking numbers draw_date ;;;
          check_participants numbers draw_date true
      end
  end.

(** [main] without a PDF argument. *)
Definition main : M () := init ;;; run_interactive_mode.

(** [parse_pdf_lottery_data] has the text of pdf_parser.py's function. *)
Definition parse_pdf_lottery_data (pages : list string) : option (list participant) :=
  PdfParser.parse_pdf_lottery_data pages.

Definition save_participants_to_csv (participants : list participant) : M () :=
  modify (set_participants_csv (Some participants)).

Definition start_new_lottery (pdf_path : string) (pdf : pdf_file) : M bool :=
  match pdf with
  | NoPdf =>
      print (Msg ("Error: The file " +:+ pdf_path +:+ " does not exist.")) ;;;
      ret false
  | BadPdf => print (Msg "Error processing PDF") ;;; ret false
  | Pdf pages =>
      match parse_pdf_lottery_data pages with
      | None => print (Msg "Error processing PDF") ;;; ret false
      | Some participants =>
          save_participants_to_csv participants ;;;
          modify (set_progress empty_progress) ;;;
          save_progress ;;;
          modify (set_trekking_csv None) ;;;
          print (Msg ("Successfully processed " +:+ pretty (Py.len participants) +:+
                      " participants")) ;;;
          print (Msg "Data saved to data/lottery_participants.csv") ;;;
          print (Msg "First 10 participants:") ;;;
          for_each (take 10 participants)
            (λ p, print (Msg ("  " +:+ Name p +:+ ": " +:+ Py.str_list (Number p)))) ;;;
          ret true
      end
  end.

(** [LotteryManager.analyze_future_winners], which prints in the order of
    the table. *)
Definition analyze_future_winners (family_name : string) : M () :=
  λ w,
    match participants_csv (env w), progress_json w with
    | None, _ | _, Absent =>
        print (Msg "Missing required data files. Please ensure lottery data exists.") w
    | Some _, Unreadable => raise IOError w
    | Some _, NotJSON => raise JSONDecodeError w
    | Some participants_df, saved =>
        let family_members :=
          filter (λ row, Py.startswith (Name row) family_name = true) participants_df in
        if negb (nonempty family_members)
        then print (Msg ("No family members found starting with '" +:+
                         family_name +:+ "'")) w
        else
          (print (Msg ("Future Winners Analysis for " +:+ family_name +:+ " Family")) ;;;
           print (rule "=") ;;;
           for_each family_members
             (λ family_member,
                match saved with
                | JSONObject (Some ps) _ =>
                    let name := Name family_member in
                    let current_numbers := Py.set (get_correct_numbers ps name) in
                    let missing_numbers := missing_of ps name (Number family_member) in
                    let potential_winners : gset string :=
                      list_to_set
                        (Name <$> winners_if_drawn ps name missing_numbers
                                    participants_df) in
                    print (FutureHeader name (Py.len_set current_numbers)
                             (Py.sorted_set missing_numbers)) ;;;
                    print (rule "-") ;;;
                    if bool_decide (potential_winners ≠ ∅)
                    then print (FutureWinners (sorted_names (elements potential_winners)))
                    else print FutureNone
                | JSONObject None _ => raise KeyError
                | _ => raise TypeError
                end)) w
    end.

(** [main] with a PDF argument: the status the process exits with. *)
Definition main_pdf (pdf_path : string) (pdf : pdf_file) : M Z :=
  init ;;;
  started ←← start_new_lottery pdf_path pdf ;;
  if started then print (Msg "New lottery run started successfully!") ;;; ret 0
  else ret 1.

End Lottery.

(** ** future_winners.py *)

Module FutureWinners.

Definition title (language : string) : string :=
  if String.eqb language "nl" then "Toekomstige Winnaars Analyse"
  else "Future Winners Analysis".

(** One value of [member_results]. *)
Record member_result := {
  current_correct : Z;
  missing_numbers : list Z;
  potential_winners : list string
}.

(** The body of [for _, family_member in family_members.iterrows()]. *)
Definition analyze_member (participants_df : list participant)
    (ps : gmap string entry) (family_member : participant) : member_result :=
  let name := Name family_member in
  let missing := missing_of ps name (Number family_member) in
  let winners : gset string :=
    list_to_set (Name <$> winners_if_drawn ps name missing participants_df) in
  {| current_correct := Py.len_set (Py.set (get_correct_numbers ps name));
     missing_numbers := Py.sorted_set missing;
     potential_winners := sorted_names (elements winners) |}.

(** The dictionary [member_results] once the loop is over: a later member
    of the same name overwrites an earlier one. *)
Definition member_results (participants_df : list participant)
    (ps : gmap string entry) (family_members : list participant)
    : gmap string member_result :=
  foldl (λ m family_member,
           <[Name family_member := analyze_member participants_df ps family_member]> m)
        ∅ family_members.

Definition print_member (member_name : string) (r : member_result) : M () :=
  print (FutureHeader member_name (current_correct r) (missing_numbers r)) ;;;
  print (rule "-") ;;;
  (if nonempty (potential_winners r)
   then print (FutureWinners (potential_winners r))
   else print FutureNone) ;;;
  print (Msg "").

Definition analyze_future_winners (family_name language : string) : M () :=
  participants_df ←← read_participants ;;
  saved ←← get progress_json ;;
  let family_members :=
    filter (λ row, Py.startswith (Name row) family_name = true) participants_df in
  match saved with
  | Absent => raise FileNotFoundError
  | Unreadable => raise IOError
  | NotJSON => raise JSONDecodeError
  | JSONOther =>
      if nonempty family_members then raise TypeError
      else print (Msg (title language)) ;;; print (rule "=")
  | JSONObject None _ =>
      if nonempty family_members then raise KeyError
      else print (Msg (title language)) ;;; print (rule "=")
  | JSONObject (Some ps) _ =>
      let member_results := member_results participants_df ps family_members in
      print (Msg (title language)) ;;;
      print (rule "=") ;;;
      for_each (sorted_names (elements (dom member_results)))
        (λ member_name,
           match member_results !! member_name with
           | Some r => print_member member_name r
           | None => raise KeyError
           end)
  end.

End FutureWinners.

(** * Specification vocabulary *)

#[local] Set Warnings "-clear-no-such-hyp".

(** ** Printing *)

(** [c] returns, changes nothing but the terminal, and the winner lines it
    prints are those for the names in [S w]. *)
Definition prints {A} (c : M A) (S : World → string → Prop) : Prop :=
  ∀ w, ∃ a out, c w = (Ret a, set_stdout (stdout w ++ out) w) ∧
                ∀ n, Winner n ∈ out ↔ S w n.

(** Facts of the world that printing leaves alone. *)
Definition quiet (S : World → string → Prop) : Prop :=
  ∀ w out n, S (set_stdout (stdout w ++ out) w) n ↔ S w n.

(** Some tuple of [rs] carries the name [n] and a total of at least 10. *)
Definition wins (rs : list result) (n : string) : Prop :=
  ∃ r, r ∈ rs ∧ r_name r = n ∧ 10 ≤ r_total r.

(** The tuples drawing.py prints: the highest scorers, then the Brinks. *)
Definition shown_drawing (results : list result) : list result :=
  match results with
  | [] => []
  | top :: _ =>
      filter (λ r, r_total r = r_total top) results ++
      filter (λ r, Py.startswith (r_name r) "Brink" = true) results
  end.

(** The family prefix in force: [get_filter_family] read as a truth value. *)
Definition family (e : Env) : option string :=
  match filter_family_env e with
  | Some f => if String.eqb f "" then None else Some f
  | None => None
  end.

(** The tuples lottery.py prints: the highest scorers, then the family. *)
Definition shown_lottery (filter_family : option string) (results : list result)
    : list result :=
  match results with
  | [] => []
  | top :: _ =>
      filter (λ r, r_total r = r_total top) results ++
      match filter_family with
      | Some f => filter (λ r, Py.startswith (r_name r) f = true) results
      | None => []
      end
  end.

(** The names of the winner lines among printed output. *)
Definition winner_lines (out : list output) : list string :=
  omap (λ o, match o with Winner n => Some n | _ => None end) out.

(** What [load_progress] prints when it gives the file up. *)
Definition load_warning : list output :=
  [Msg "Error loading progress file"; Msg "Starting with fresh progress file"].

(** ** Folds *)

(** The pair a row contributes to [player_results]. *)
Definition player_result (winning_numbers : list Z) (row : participant)
    : string * list Z :=
  (Name row, filter (λ n, n ∈ winning_numbers) (Py.sorted (Number row))).

(** The progress [update_progress] leaves after a fold over [roster]. *)
Definition fold_progress (roster : list participant) (winning_numbers : list Z)
    (draw_date : string) (p : Progress) : Progress :=
  {| players := update_players (players p) (player_result winning_numbers <$> roster);
     processed_draws := update_draws (processed_draws p) draw_date |}.

(** The standings a fold over [roster] computes from the progress [p]. *)
Definition standings (colour : bool) (roster : list participant)
    (winning_numbers : list Z) (is_latest_draw : bool) (p : Progress) : list result :=
  sort_reverse (check_rows colour (players p) winning_numbers is_latest_draw roster).*1.

(** The worlds before and after a call of [check_participants] that folds
    a draw; [shown] selects the tuples that are printed. *)
Record folded_by (shown : list result → list result) (roster : list participant)
    (winning_numbers : list Z) (draw_date : string) (is_latest_draw : bool)
    (w w' : World) : Prop := {
  folded_env : env w' = env w;
  folded_progress :
    progress w' = fold_progress roster winning_numbers draw_date (progress w);
  folded_json :
    progress_json w' =
      if writable (env w)
      then JSONObject (Some (players (progress w'))) (Some (processed_draws (progress w')))
      else progress_json w;
  folded_trekking : trekking_csv w' = trekking_csv w;
  folded_stdin : stdin w' = stdin w;
  folded_folds :
    folds w' = folds w ++
      [{| fold_numbers := winning_numbers; fold_date := draw_date;
          fold_latest := is_latest_draw;
          fold_results := standings (colour (env w)) roster winning_numbers
                            is_latest_draw (progress w) |}];
  folded_stdout :
    ∃ out, stdout w' = stdout w ++ out ∧
           ∀ n, Winner n ∈ out ↔
                wins (shown (standings (colour (env w)) roster winning_numbers
                               is_latest_draw (progress w))) n
}.

(** A sequence of folds: each draw comes with its date and its flag. *)
Definition fold_all (check : list Z → string → bool → M ())
    (draws : list (list Z * string * bool)) : M () :=
  for_each draws (λ d, check d.1.1 d.1.2 d.2).

(** The rows of the ledger; an absent file has none. *)
Definition ledger (w : World) : list draw := default [] (trekking_csv w).

(** The draws of the ledger not yet in [processed_draws], as
    [get_unprocessed_draws] lists them: in ledger order, numbers sorted. *)
Definition unprocessed_draws (w : World) : list (list Z * string) :=
  (λ row, (Py.sorted (number row), date row))
    <$> filter (λ row, date row ∉ processed_draws (progress w)) (ledger w).

(** The progress after folding the draws [ds] in turn. *)
Definition progress_after (roster : list participant) (ds : list (list Z * string))
    (p : Progress) : Progress :=
  foldl (λ p nd, fold_progress roster nd.1 nd.2 p) p ds.

(** The folds of a pass over the backlog [ds], of which [k] are done
    already and [n] is the number in all. *)
Fixpoint backlog_folds (colour : bool) (roster : list participant) (n k : nat)
    (ds : list (list Z * string)) (p : Progress) : list fold :=
  match ds with
  | [] => []
  | nd :: ds' =>
      let latest := bool_decide (S k = n) in
      {| fold_numbers := nd.1; fold_date := nd.2; fold_latest := latest;
         fold_results := standings colour roster nd.1 latest p |}
      :: backlog_folds colour roster n (S k) ds' (fold_progress roster nd.1 nd.2 p)
  end.

(** Of a list of folds, the last and only the last is flagged latest. *)
Definition only_last_latest (fs : list fold) : Prop :=
  ∀ i f, fs !! i = Some f → fold_latest f = bool_decide (S i = length fs).

(** The reading of "ties keep the roster order": two tuples of the report
    with the same total and the same count of new numbers stand in the
    order in which their names are enumerated in the roster. *)
Definition roster_order_on_ties (roster : list participant) (results : list result)
    : Prop :=
  ∀ i j a b, (i < j)%nat → results !! i = Some a → results !! j = Some b →
    r_total a = r_total b → r_new a = r_new b →
    ∃ i' j', (i' < j')%nat ∧ (Name <$> roster) !! i' = Some (r_name a) ∧
             (Name <$> roster) !! j' = Some (r_name b).

(** ** Entries *)

(** The set of numbers an entry holds after one iteration of
    [update_progress]. *)
Definition merged (ps : gmap string entry) (r : string * list Z) : gset Z :=
  Py.set (get_correct_numbers ps r.1) ∪ Py.set r.2.

(** An entry as [update_progress] writes it: the sorted listing of a set
    and the size of that set. *)
Definition canonical (e : entry) : Prop :=
  correct_numbers e = Py.sorted_set (Py.set (correct_numbers e)) ∧
  total_correct e = Py.len_set (Py.set (correct_numbers e)).

(** The entry of [r]'s name is canonical and already holds [r]'s numbers. *)
Definition absorbed (ps : gmap string entry) (r : string * list Z) : Prop :=
  ∃ e, ps !! r.1 = Some e ∧ canonical e ∧ Py.set r.2 ⊆ Py.set (correct_numbers e).

(** Every entry's [total_correct] is the length of its [correct_numbers]. *)
Definition consistent (ps : gmap string entry) : Prop :=
  ∀ name e, ps !! name = Some e → total_correct e = Py.len (correct_numbers e).

(** The entry [e] of the participant [row]: within the chosen numbers,
    ascending without repetition, at most 10 counted. *)
Definition within (row : participant) (e : entry) : Prop :=
  (∀ n, n ∈ correct_numbers e → n ∈ Number row) ∧
  StronglySorted Z.lt (correct_numbers e) ∧
  total_correct e = Py.len (correct_numbers e) ∧
  total_correct e ≤ 10.

(** Every participant of [roster] with an entry has it [within] the row. *)
Definition kept (roster : list participant) (ps : gmap string entry) : Prop :=
  ∀ row e, row ∈ roster → ps !! Name row = Some e → within row e.

(** The roster the spec describes: names are unique and every row holds
    ten numbers. *)
Definition well_formed (roster : list participant) : Prop :=
  NoDup (Name <$> roster) ∧ Forall (λ row, length (Number row) = 10%nat) roster.

(** ** Draws and invocations *)

(** A draw as the spec wants it: six numbers, each in 1..45, no two alike. *)
Definition valid_draw (numbers : list Z) : Prop :=
  length numbers = 6%nat ∧ Forall (λ n, 1 ≤ n ≤ 45) numbers ∧ NoDup numbers.

(** Numbers that may be folded in an invocation started in [w0]: those of
    a row the ledger held at the start, or a valid draw. *)
Definition foldable (w0 : World) (numbers : list Z) : Prop :=
  (∃ row, row ∈ ledger w0 ∧ numbers = Py.sorted (number row)) ∨ valid_draw numbers.

(** In [w], reached from [w0], every row of the ledger was there at the
    start or holds a valid draw, and every fold was logged at the start or
    is of foldable numbers. *)
Definition sound (w0 w : World) : Prop :=
  (∀ row, row ∈ ledger w → row ∈ ledger w0 ∨ valid_draw (number row)) ∧
  (∀ f, f ∈ folds w → f ∈ folds w0 ∨ foldable w0 (fold_numbers f)).

(** [c] keeps [sound] however it ends, and what it returns satisfies [Q]. *)
Definition keeps {A} (w0 : World) (c : M A) (Q : A → Prop) : Prop :=
  ∀ w, sound w0 w → sound w0 (c w).2 ∧ ∀ a, (c w).1 = Ret a → Q a.

(** A computation that leaves the ledger's rows and the log of folds. *)
Definition untouched {A} (c : M A) : Prop :=
  ∀ w, ledger (c w).2 = ledger w ∧ folds (c w).2 = folds w.

(** ** Sample data *)

Definition sample_roster : list participant :=
  [ {| Name := "Alice"; Number := [1; 2; 3; 4; 5; 6; 7; 8; 9; 10] |};
    {| Name := "Bob"; Number := [11; 12; 13; 14; 15; 16; 17; 18; 19; 20] |};
    {| Name := "Brink A"; Number := [1; 12; 23; 34; 45; 6; 7; 8; 9; 10] |} ].

Definition sample_env : Env :=
  {| participants_csv := Some sample_roster;
     filter_family_env := Some "Brink";
     colour := false;
     writable := true;
     next_date := λ _, Some "22-Jan-25";
     valid_date := λ _, true |}.

(** A ledger of two draws, none of them folded yet, and one line typed. *)
Definition sample_world : World :=
  {| env := sample_env;
     progress := empty_progress;
     progress_json := Absent;
     trekking_csv := Some [ {| date := "08-Jan-25"; number := [1; 2; 3; 11; 12; 45] |};
                            {| date := "15-Jan-25"; number := [4; 5; 6; 13; 14; 44] |} ];
     stdin := ["7 8 9 10 15 16"];
     stdout := [];
     folds := [] |}.

(** The sample world once its two ledger draws are folded: a third draw of
    7, 8, 9, 10, 15, 16 then brings Alice to 10 and Brink A to 8. *)
Definition sample_world_after_two : World :=
  (fold_all Drawing.check_participants
     [([1; 2; 3; 11; 12; 45], "08-Jan-25", false);
      ([4; 5; 6; 13; 14; 44], "15-Jan-25", true)] sample_world).2.

(** The sample world with a progress file that holds valid JSON of another
    shape, say the text [[]]. *)
Definition wrong_shape_world : World := set_progress_json JSONOther sample_world.

(** The sample world with a progress file that is not JSON. *)
Definition not_json_world : World := set_progress_json NotJSON sample_world.

(** The roster and the progress of the spec's example: P holds 1..10 and
    has matched 1, 2, 3; Q holds 4..8 and 20..24 and has seven numbers
    stored, 20..24 and two more. *)
Definition example_P : participant :=
  {| Name := "P"; Number := [1; 2; 3; 4; 5; 6; 7; 8; 9; 10] |}.
Definition example_Q : participant :=
  {| Name := "Q"; Number := [4; 5; 6; 7; 8; 20; 21; 22; 23; 24] |}.
Definition example_players : gmap string entry :=
  <["P" := Entry 3 [1; 2; 3]]>
    (<["Q" := Entry 7 [20; 21; 22; 23; 24; 30; 31]]> ∅).

(** A world holding that roster and, in its progress file, that progress. *)
Definition example_world : World :=
  {| env := {| participants_csv := Some [example_P; example_Q];
               filter_family_env := None; colour := false; writable := true;
               next_date := λ _, None; valid_date := λ _, false |};
     progress := empty_progress;
     progress_json := JSONObject (Some example_players) None;
     trekking_csv := None; stdin := []; stdout := []; folds := [] |}.

(** ** Whole runs *)

(** What a start of either program loads from the progress file. *)
Definition stored (f : json_file) : option Progress :=
  match f with
  | Absent | Unreadable | NotJSON => Some empty_progress
  | JSONOther => None
  | JSONObject saved_players saved_draws =>
      Some {| players := default ∅ saved_players;
              processed_draws := default [] saved_draws |}
  end.

(** The world a fold leaves, the terminal and the log of folds apart: the
    progress updated and, where the file can be written, saved. *)
Definition fold_world (roster : list participant) (winning_numbers : list Z)
    (draw_date : string) (w : World) : World :=
  let p := fold_progress roster winning_numbers draw_date (progress w) in
  set_progress_json
    (if writable (env w)
     then JSONObject (Some (players p)) (Some (processed_draws p))
     else progress_json w)
    (set_progress p w).

(** A property of the world that no step of a run destroys: it does not
    depend on the terminal, the keyboard or the log of folds, and creating
    the ledger, appending a row to it and folding a draw keep it. *)
Record invariant (I : World → Prop) : Prop := {
  inv_stdout : ∀ w o, I w → I (set_stdout o w);
  inv_stdin : ∀ w i, I w → I (set_stdin i w);
  inv_folds : ∀ w f, I w → I (set_folds f w);
  inv_create : ∀ w, I w → trekking_csv w = None → I (set_trekking_csv (Some []) w);
  inv_append : ∀ w row, I w → I (set_trekking_csv (Some (ledger w ++ [row])) w);
  inv_fold : ∀ w roster winning_numbers draw_date,
    I w → participants_csv (env w) = Some roster →
    I (fold_world roster winning_numbers draw_date w)
}.

(** [c] keeps [I], however it ends. *)
Definition preserves {A} (I : World → Prop) (c : M A) : Prop :=
  ∀ w, I w → I (c w).2.

(** The numbers [player_results] holds for [name], as a set. *)
Definition gathered (rs : list (string * list Z)) (name : string) : gset Z :=
  ⋃ ((λ r, Py.set r.2) <$> filter (λ r, r.1 = name) rs).

(** The names of a table, as a set. *)
Definition names_of (roster : list participant) : gset string :=
  list_to_set (Name <$> roster).

(** A line [parse_input] complains about. *)
Definition rejected (line : string) : Prop :=
  ∃ complaint, check_line line = Reject complaint.

(** ** Output *)

(** [c] returns, changes nothing but the terminal, and every line it
    prints satisfies [P]. *)
Definition emits {A} (c : M A) (P : output → Prop) : Prop :=
  ∀ w, ∃ a out, c w = (Ret a, set_stdout (stdout w ++ out) w) ∧ Forall P out.

(** A line of a block of scores. *)
Definition score_line (o : output) : Prop :=
  match o with
  | Score _ _ _ | ScoreNew _ _ _ _ | Winner _ => True
  | _ => False
  end.

(** The names at the head of the blocks of an analysis of future
    winners. *)
Definition future_headers (out : list output) : list string :=
  omap (λ o, match o with FutureHeader n _ _ => Some n | _ => None end) out.

(** The block [LotteryManager.analyze_future_winners] prints for a family
    member, from the values future_winners.py computes for the member. *)
Definition member_block (participants_df : list participant) (ps : gmap string entry)
    (family_member : participant) : list output :=
  let r := FutureWinners.analyze_member participants_df ps family_member in
  [FutureHeader (Name family_member) (FutureWinners.current_correct r)
     (FutureWinners.missing_numbers r);
   rule "-";
   if nonempty (FutureWinners.potential_winners r)
   then FutureWinners (FutureWinners.potential_winners r)
   else FutureNone].

(** ** The import *)

(** What the loop of [parse_pdf_lottery_data] keeps after [n] lines: ten
    numbers in every row, a row to rename whenever a name is remembered,
    and at most a row per line. *)
Definition importing (n : nat) (st : PdfParser.import) : Prop :=
  Forall (λ p, length (Number p) = 10%nat) (PdfParser.participants st) ∧
  (is_Some (PdfParser.last_name st) → PdfParser.participants st ≠ []) ∧
  (length (PdfParser.participants st) ≤ n)%nat.

(** ** More sample data *)

(** The sample world with a progress file that cannot be written. *)
Definition unwritable_world : World :=
  {| env := {| participants_csv := Some sample_roster;
               filter_family_env := Some "Brink"; colour := false; writable := false;
               next_date := λ _, Some "22-Jan-25"; valid_date := λ _, true |};
     progress := empty_progress; progress_json := Absent;
     trekking_csv := trekking_csv sample_world;
     stdin := []; stdout := []; folds := [] |}.

(** The sample world without a participants file. *)
Definition no_roster_world : World := set_participants_csv None sample_world.

(** The sample world with a participants file that has no row. *)
Definition empty_table_world : World := set_participants_csv (Some []) sample_world.

(** The sample world where a line of five numbers, an empty line and a
    date are typed. *)
Definition typed_world : World :=
  set_stdin ["1 2 3 4 5"; ""; "29-Jan-25"] sample_world.

(** Two pages of a list of participants. *)
Definition sample_pdf : list string :=
  ["DEELNEMERS: 3
1 Alice 1 2 3 4 5 6 7 8 9 10
2 Bob 11 12 13 14 15 16 17 18 19 20 X_GOED
van Dam
3 Bob 21 22 23 24 25 26 27 28 29 30";
   "INLEG 5 euro
4 Brink A 1 12 23 34 45 6 7 8 9 10 11

5 Carol 1 2 3"].

(** The sample world where only lines that [parse_input] refuses are
    typed. *)
Definition rejecting_world : World := set_stdin ["1 2 3 4 5"; "x"] sample_world.

(** The line [print_score] prints for a tuple. *)
Definition score_of (r : result) : output :=
  if 0 <? r_new r then ScoreNew (r_name r) (r_str r) (r_total r) (r_new r)
  else Score (r_name r) (r_str r) (r_total r).

(** A page as pdfplumber gives it for a list on which the name of two
    participants wraps onto a second line, and the table the import makes
    of it: the continuation line replaces the name of the row before it, so
    both rows are called Bob van Dam. *)
Definition namesake_pdf : list string :=
  ["DEELNEMER NUMMERS
1 Bob van 1 2 3 4 5 6 7 8 9 10
Dam
2 Bob van 3 4 5 6 7 8 9 10 11 12
Dam
3 Carol 1 2 3 4 5 6 7 8 9 12"].

Definition namesake_roster : list participant :=
  [ {| Name := "Bob van Dam"; Number := [1; 2; 3; 4; 5; 6; 7; 8; 9; 10] |};
    {| Name := "Bob van Dam"; Number := [3; 4; 5; 6; 7; 8; 9; 10; 11; 12] |};
    {| Name := "Carol"; Number := [1; 2; 3; 4; 5; 6; 7; 8; 9; 12] |} ].

(** A new lottery over that table: no progress file, no ledger. *)
Definition namesake_world : World :=
  {| env := {| participants_csv := Some namesake_roster;
               filter_family_env := Some "Brink";
               colour := false;
               writable := true;
               next_date := λ _, Some "22-Jan-25";
               valid_date := λ _, true |};
     progress := empty_progress;
     progress_json := Absent;
     trekking_csv := None;
     stdin := [];
     stdout := [];
     folds := [] |}.

(** Two draws that between them hold Carol's ten numbers. *)
Definition namesake_draws : list (list Z * string * bool) :=
  [([1; 2; 3; 4; 5; 6], "08-Jan-25", false);
   ([7; 8; 9; 10; 11; 12], "15-Jan-25", true)].

(** * Lemmas *)

(** ** Sorting and sets *)

Lemma sorted_perm l : Py.sorted l ≡ₚ l.
Proof. apply merge_sort_Permutation. Qed.

Lemma sorted_ascending l : StronglySorted Z.le (Py.sorted l).
Proof. apply StronglySorted_merge_sort; apply _. Qed.

Lemma elem_of_sorted n l : n ∈ Py.sorted l ↔ n ∈ l.
Proof. by rewrite sorted_perm. Qed.

Lemma elem_of_sorted_set n (X : gset Z) : n ∈ Py.sorted_set X ↔ n ∈ X.
Proof. unfold Py.sorted_set. rewrite elem_of_sorted. apply elem_of_elements. Qed.

Lemma set_sorted_set (X : gset Z) : Py.set (Py.sorted_set X) = X.
Proof.
  apply set_eq. intros n. unfold Py.set.
  rewrite elem_of_list_to_set. apply elem_of_sorted_set.
Qed.

Lemma length_sorted_set (X : gset Z) : length (Py.sorted_set X) = size X.
Proof. unfold Py.sorted_set. by rewrite sorted_perm. Qed.

Lemma NoDup_sorted_set (X : gset Z) : NoDup (Py.sorted_set X).
Proof. unfold Py.sorted_set. rewrite sorted_perm. apply NoDup_elements. Qed.

Lemma sorted_NoDup_lt l : StronglySorted Z.le l → NoDup l → StronglySorted Z.lt l.
Proof.
  induction 1 as [|x l Hl IH Hx]; intros Hnd; constructor.
  - apply IH. by inversion Hnd.
  - apply NoDup_cons in Hnd as [Hin _].
    rewrite Forall_forall in Hx |- *. intros y Hy.
    specialize (Hx y Hy). assert (x ≠ y) by (intros ->; done). lia.
Qed.

Lemma sorted_set_increasing (X : gset Z) : StronglySorted Z.lt (Py.sorted_set X).
Proof.
  apply sorted_NoDup_lt; [apply sorted_ascending | apply NoDup_sorted_set].
Qed.


(** ** Computations that only print *)

Lemma set_stdout_nil w : set_stdout (stdout w ++ []) w = w.
Proof. destruct w. unfold set_stdout. simpl. by rewrite app_nil_r. Qed.

Lemma set_stdout_app w o1 o2 :
  set_stdout (stdout (set_stdout (stdout w ++ o1) w) ++ o2)
             (set_stdout (stdout w ++ o1) w)
  = set_stdout (stdout w ++ (o1 ++ o2)) w.
Proof. unfold set_stdout. simpl. by rewrite app_assoc. Qed.

Lemma prints_ret {A} (a : A) : prints (ret a) (λ _ _, False).
Proof.
  intros w. exists a, []. split; [by rewrite set_stdout_nil|].
  intros n. by rewrite elem_of_nil.
Qed.

Lemma prints_print o : prints (print o) (λ _ n, o = Winner n).
Proof.
  intros w. exists (), [o]. split; [done|].
  intros n. rewrite list_elem_of_singleton. naive_solver.
Qed.

Lemma prints_bind {A B} (c : M A) (k : A → M B) S1 S2 :
  prints c S1 → (∀ a, prints (k a) S2) → quiet S2 →
  prints (bind c k) (λ w n, S1 w n ∨ S2 w n).
Proof.
  intros Hc Hk Hq w. destruct (Hc w) as (a & o1 & E1 & H1).
  destruct (Hk a (set_stdout (stdout w ++ o1) w)) as (b & o2 & E2 & H2).
  exists b, (o1 ++ o2). unfold bind. rewrite E1, E2, set_stdout_app.
  split; [done|]. intros n. rewrite elem_of_app, H1, H2. by rewrite (Hq w o1 n).
Qed.

Lemma prints_weaken {A} (c : M A) S S' :
  prints c S → (∀ w n, S w n ↔ S' w n) → prints c S'.
Proof.
  intros Hc HS w. destruct (Hc w) as (a & o & E & H).
  exists a, o. split; [done|]. intros n. by rewrite H, HS.
Qed.

Lemma prints_for_each {A} (l : list A) (body : A → M ()) S :
  (∀ x, prints (body x) (S x)) → (∀ x, quiet (S x)) →
  prints (for_each l body) (λ w n, ∃ x, x ∈ l ∧ S x w n).
Proof.
  intros Hb Hq. induction l as [|x l IH]; simpl.
  - eapply prints_weaken; [apply prints_ret|].
    intros w n. split; [done|]. intros (x & Hx & _). by apply elem_of_nil in Hx.
  - eapply prints_weaken.
    + apply prints_bind; [apply Hb| intros _; apply IH |].
      intros w out n. split; intros (y & Hy & HS); exists y; (split; [done|]);
        by apply (Hq y w out n).
    + intros w n. simpl. split.
      * intros [H | (y & Hy & H)]; [exists x | exists y]; split; auto;
          [apply list_elem_of_here | by apply list_elem_of_further].
      * intros (y & Hy & H). apply elem_of_cons in Hy as [-> | Hy]; [by left|].
        right. by exists y.
Qed.

Lemma prints_msg text : prints (print (Msg text)) (λ _ _, False).
Proof.
  eapply prints_weaken; [apply prints_print|]. intros w n. split; [done|tauto].
Qed.

Lemma prints_score r : prints (print_score r) (λ _ _, False).
Proof.
  unfold print_score. destruct (0 <? r_new r);
    (eapply prints_weaken; [apply prints_print|]); intros w n; split; done.
Qed.

Lemma prints_winner r :
  prints (print_winner r) (λ _ n, r_name r = n ∧ 10 ≤ r_total r).
Proof.
  unfold print_winner. destruct (Z.leb_spec 10 (r_total r)).
  - eapply prints_weaken; [apply prints_print|]. intros w n. naive_solver.
  - eapply prints_weaken; [apply prints_ret|]. intros w n. split; [done|]. lia.
Qed.

Lemma quiet_const (S : string → Prop) : quiet (λ _, S).
Proof. by intros w out n. Qed.

Lemma prints_seq {A B} (c : M A) (k : M B) (S1 S2 : string → Prop) :
  prints c (λ _, S1) → prints k (λ _, S2) →
  prints (bind c (λ _, k)) (λ _ n, S1 n ∨ S2 n).
Proof. intros Hc Hk. apply (prints_bind c (λ _, k)); [done..|apply quiet_const]. Qed.

Lemma prints_show_scores rs : prints (show_scores rs) (λ _, wins rs).
Proof.
  unfold show_scores. eapply prints_weaken.
  - apply (prints_for_each rs _ (λ r _ n, r_name r = n ∧ 10 ≤ r_total r)).
    + intros r. eapply prints_weaken.
      * apply prints_seq; [apply prints_score | apply prints_winner].
      * intros w n. simpl. tauto.
    + intros r. apply quiet_const.
  - intros w n. unfold wins. naive_solver.
Qed.

Lemma wins_nil n : wins [] n ↔ False.
Proof. unfold wins. split; [|done]. intros (r & Hr & _). by apply elem_of_nil in Hr. Qed.

Lemma wins_app rs1 rs2 n : wins (rs1 ++ rs2) n ↔ wins rs1 n ∨ wins rs2 n.
Proof. unfold wins. setoid_rewrite elem_of_app. naive_solver. Qed.

Lemma prints_section title rs :
  prints (if nonempty rs
          then print (Heading title) ;;; print (rule "-") ;;; show_scores rs
          else ret ()) (λ _, wins rs).
Proof.
  destruct rs as [|r rs]; cbn [nonempty].
  - eapply prints_weaken; [apply prints_ret|]. intros w n. by rewrite wins_nil.
  - eapply prints_weaken.
    + apply prints_seq; [apply prints_print|].
      apply prints_seq; [apply prints_msg | apply prints_show_scores].
    + intros w n. simpl. split; [|tauto]. intros [?|[?|?]]; done.
Qed.

Lemma prints_drawing_report results :
  prints (Drawing.report results) (λ _, wins (shown_drawing results)).
Proof.
  unfold Drawing.report, shown_drawing. destruct results as [|top rest].
  - eapply prints_weaken; [apply prints_print|]. intros w n.
    rewrite wins_nil. naive_solver.
  - eapply prints_weaken.
    + apply prints_seq; [apply prints_section|].
      apply prints_seq; [apply prints_section|].
      instantiate (1 := λ _, False).
      match goal with |- prints (if ?b then _ else _) _ => destruct b end;
        [apply prints_msg | apply prints_ret].
    + intros w n. simpl. rewrite wins_app. tauto.
Qed.

(** ** What one fold does to the progress *)

Lemma check_rows_snd colour ps winning_numbers is_latest_draw participants :
  (check_rows colour ps winning_numbers is_latest_draw participants).*2
  = player_result winning_numbers <$> participants.
Proof.
  unfold check_rows. rewrite <- list_fmap_compose. by apply list_fmap_ext.
Qed.

Lemma prints_banner winning_numbers draw_date :
  prints (print_banner winning_numbers draw_date) (λ _ _, False).
Proof.
  unfold print_banner. eapply prints_weaken.
  - apply prints_seq; [apply prints_print|].
    apply prints_seq; [apply prints_msg|].
    apply prints_seq; [apply prints_print| apply prints_msg].
  - intros w n. simpl. split; [|done]. intros [?|[?|[?|?]]]; done.
Qed.

Lemma update_progress_run player_results draw_date w :
  ∃ out, update_progress player_results draw_date w =
    (Ret (),
     let p := {| players := update_players (players (progress w)) player_results;
                 processed_draws := update_draws (processed_draws (progress w)) draw_date |} in
     set_stdout (stdout w ++ out)
       (set_progress_json
          (if writable (env w)
           then JSONObject (Some (players p)) (Some (processed_draws p))
           else progress_json w)
          (set_progress p w)))
    ∧ ∀ n, Winner n ∉ out.
Proof.
  unfold update_progress, bind, modify, save_progress. simpl.
  destruct (writable (env w)).
  - exists []. split; [|intros n; apply not_elem_of_nil].
    unfold set_stdout, set_progress_json, set_progress. simpl. by rewrite app_nil_r.
  - exists [Msg "Error saving progress file"]. split; [done|].
    intros n Hn. apply list_elem_of_singleton in Hn. done.
Qed.

(** The steps both [check_participants] share once the roster is read:
    the banner, the report (whose winner lines [report_prints] describes),
    the log and [update_progress]. *)
Ltac run_fold report_prints :=
  let o1 := fresh "o" in let H1 := fresh "H" in
  let o2 := fresh "o" in let H2 := fresh "H" in
  let o3 := fresh "o" in let H3 := fresh "H" in
  let results := fresh "results" in
  match goal with
  | |- ∃ w', (print_banner ?wn ?d ;;; _) ?w = _ ∧ _ =>
      unfold bind at 1;
      destruct (prints_banner wn d w) as ([] & o1 & -> & H1);
      unfold bind at 1; unfold get at 1; simpl;
      rewrite check_rows_snd;
      set (results := sort_reverse _);
      unfold bind at 1;
      destruct (report_prints results (set_stdout (stdout w ++ o1) w))
        as ([] & o2 & -> & H2);
      rewrite set_stdout_app;
      unfold bind at 1; unfold log_fold, modify;
      match goal with |- context [update_progress ?pr ?d' ?w0] =>
        destruct (update_progress_run pr d' w0) as (o3 & -> & H3) end;
      eexists; split; [done|]; simpl;
      split; simpl; try done; try (by destruct (writable (env w)));
      exists ((o1 ++ o2) ++ o3); split; [by rewrite !app_assoc|];
      let n := fresh "n" in
      intros n; rewrite !elem_of_app, H1, H2; specialize (H3 n);
      unfold standings; fold results; simpl; tauto
  end.

Lemma drawing_check_participants_folds roster winning_numbers draw_date is_latest_draw w :
  participants_csv (env w) = Some roster →
  ∃ w', Drawing.check_participants winning_numbers draw_date is_latest_draw w = (Ret (), w')
        ∧ folded_by shown_drawing roster winning_numbers draw_date is_latest_draw w w'.
Proof.
  intros Hroster. unfold Drawing.check_participants.
  unfold bind at 1. unfold read_participants. rewrite Hroster.
  run_fold prints_drawing_report.
Qed.

Lemma prints_missing_numbers_info player_name winning_numbers :
  prints (Lottery.get_missing_numbers_info player_name winning_numbers) (λ _ _, False).
Proof.
  intros w. unfold Lottery.get_missing_numbers_info.
  assert (Hc : ∃ a out,
    (print (Msg "Error analyzing missing numbers") ;;; ret (@None (list Z * Z))) w
      = (Ret a, set_stdout (stdout w ++ out) w) ∧ ∀ n, Winner n ∈ out ↔ False).
  { exists None, [Msg "Error analyzing missing numbers"]. split; [done|].
    intros n. rewrite list_elem_of_singleton. split; [done|tauto]. }
  assert (Hq : ∀ a : option (list Z * Z), ∃ a' out,
    (Ret a, w) = (Ret a', set_stdout (stdout w ++ out) w) ∧ ∀ n, Winner n ∈ out ↔ False).
  { intros a. exists a, []. rewrite set_stdout_nil. split; [done|].
    intros n. by rewrite elem_of_nil. }
  destruct (participants_csv (env w)) as [participants_df|]; [|apply Hq].
  destruct (progress_json w) as [| | | |[ps|] sd]; try apply Hq; try apply Hc;
    destruct (filter _ participants_df); try apply Hq; apply Hc.
Qed.

Lemma prints_show_family_scores winning_numbers rs :
  prints (Lottery.show_family_scores winning_numbers rs) (λ _, wins rs).
Proof.
  unfold Lottery.show_family_scores. eapply prints_weaken.
  - apply (prints_for_each rs _ (λ r _ n, r_name r = n ∧ 10 ≤ r_total r)).
    + intros r. eapply prints_weaken.
      * apply prints_seq; [apply prints_score|].
        apply (prints_bind _ _ (λ _ _, False)
                 (λ _ n, False ∨ r_name r = n ∧ 10 ≤ r_total r));
          [apply prints_missing_numbers_info| |apply quiet_const].
        intros info. apply prints_seq; [|apply prints_winner].
        destruct info as [[missing_nums winner_count]|]; [|apply prints_ret].
        eapply prints_weaken; [apply prints_print|]. intros w n. split; [done|tauto].
      * intros w n. simpl. tauto.
    + intros r. apply quiet_const.
  - intros w n. unfold wins. naive_solver.
Qed.

Lemma prints_family_section title winning_numbers rs :
  prints (if nonempty rs
          then print (Heading title) ;;; print (rule "-") ;;;
               Lottery.show_family_scores winning_numbers rs
          else ret ()) (λ _, wins rs).
Proof.
  destruct rs as [|r rs]; cbn [nonempty].
  - eapply prints_weaken; [apply prints_ret|]. intros w n. by rewrite wins_nil.
  - eapply prints_weaken.
    + apply prints_seq; [apply prints_print|].
      apply prints_seq; [apply prints_msg | apply prints_show_family_scores].
    + intros w n. simpl. split; [|tauto]. intros [?|[?|?]]; done.
Qed.

Lemma prints_lottery_report winning_numbers results :
  prints (Lottery.report winning_numbers results)
         (λ w, wins (shown_lottery (family (env w)) results)).
Proof.
  unfold Lottery.report, shown_lottery. destruct results as [|top rest].
  - eapply prints_weaken; [apply prints_ret|]. intros w n. by rewrite wins_nil.
  - intros w. unfold bind at 1. unfold Lottery.get_filter_family, bind, get, ret.
    fold (family (env w)). generalize (family (env w)). intros ff.
    revert w. change (prints ?c (λ _, ?S)) with (prints c (λ _, S)).
    eapply prints_weaken.
    + apply prints_seq; [apply prints_section|].
      instantiate (1 := wins (match ff with
                               | Some f => filter (λ r, Py.startswith (r_name r) f = true)
                                                  (top :: rest)
                               | None => [] end)).
      destruct ff as [f|]; [apply prints_family_section|]. cbn [nonempty].
      eapply prints_weaken; [apply prints_ret|]. intros w n. by rewrite wins_nil.
    + intros w n. simpl. by rewrite wins_app.
Qed.

Lemma lottery_check_participants_folds roster winning_numbers draw_date is_latest_draw w :
  participants_csv (env w) = Some roster →
  ∃ w', Lottery.check_participants winning_numbers draw_date is_latest_draw w = (Ret (), w')
        ∧ folded_by (shown_lottery (family (env w))) roster winning_numbers draw_date
            is_latest_draw w w'.
Proof.
  intros Hroster. unfold Lottery.check_participants.
  unfold bind at 1. unfold get at 1. rewrite Hroster.
  run_fold (prints_lottery_report winning_numbers).
Qed.

Lemma lottery_check_participants_absent winning_numbers draw_date is_latest_draw w :
  participants_csv (env w) = None →
  Lottery.check_participants winning_numbers draw_date is_latest_draw w
  = (Ret (), set_stdout
               (stdout w ++
                [Msg "No participants file found. Please start a new lottery run first."])
               w).
Proof.
  intros Hroster. unfold Lottery.check_participants, bind, get. by rewrite Hroster.
Qed.

(** ** [update_player] *)

Lemma get_correct_numbers_default (ps : gmap string entry) name :
  get_correct_numbers
    (if decide (is_Some (ps !! name)) then ps else <[name := Entry 0 []]> ps) name
  = get_correct_numbers ps name.
Proof.
  unfold get_correct_numbers. destruct (decide (is_Some (ps !! name))) as [|Hn]; [done|].
  rewrite lookup_insert_eq. destruct (ps !! name) eqn:E; [|done].
  exfalso. apply Hn. by eexists.
Qed.

Lemma update_player_lookup (ps : gmap string entry) r name :
  update_player ps r !! name =
    if decide (r.1 = name)
    then Some (Entry (Py.len_set (merged ps r)) (Py.sorted_set (merged ps r)))
    else ps !! name.
Proof.
  unfold update_player, merged. rewrite get_correct_numbers_default.
  rewrite lookup_insert. destruct (decide (r.1 = name)) as [->|Hne]; [done|].
  destruct (decide (is_Some (ps !! r.1))); [done|]. by rewrite lookup_insert_ne.
Qed.

Lemma update_player_correct_numbers (ps : gmap string entry) r name :
  get_correct_numbers (update_player ps r) name =
    if decide (r.1 = name) then Py.sorted_set (merged ps r)
    else get_correct_numbers ps name.
Proof.
  unfold get_correct_numbers at 1. rewrite update_player_lookup.
  by destruct (decide (r.1 = name)).
Qed.

(** ** Folding the same draw again *)

Lemma canonical_written (X : gset Z) :
  canonical (Entry (Py.len_set X) (Py.sorted_set X)).
Proof. unfold canonical. simpl. by rewrite set_sorted_set. Qed.

Lemma update_player_absorbs ps r : absorbed (update_player ps r) r.
Proof.
  eexists. rewrite update_player_lookup, decide_True by done.
  split; [done|]. split; [apply canonical_written|].
  simpl. rewrite set_sorted_set. unfold merged. set_solver.
Qed.

Lemma absorbed_update_player ps r r' :
  absorbed ps r → absorbed (update_player ps r') r.
Proof.
  intros (e & He & Hc & Hs). unfold absorbed.
  rewrite update_player_lookup. destruct (decide (r'.1 = r.1)) as [Heq|Hne].
  - eexists. split; [done|]. split; [apply canonical_written|].
    simpl. rewrite set_sorted_set. unfold merged, get_correct_numbers.
    rewrite Heq, He. set_solver.
  - by exists e.
Qed.

Lemma update_player_absorbed ps r : absorbed ps r → update_player ps r = ps.
Proof.
  intros (e & He & [Hc Ht] & Hs). apply map_eq. intros name.
  rewrite update_player_lookup. destruct (decide (r.1 = name)) as [<-|]; [|done].
  rewrite He. f_equal.
  assert (merged ps r = Py.set (correct_numbers e)) as ->.
  { unfold merged, get_correct_numbers. rewrite He. set_solver. }
  destruct e as [t c]. simpl in *. by rewrite <- Hc, <- Ht.
Qed.

Lemma absorbed_update_players rs ps r :
  absorbed ps r → absorbed (update_players ps rs) r.
Proof.
  revert ps. induction rs as [|r' rs IH]; intros ps H; [done|].
  apply IH. by apply absorbed_update_player.
Qed.

Lemma update_players_absorbs rs ps : Forall (absorbed (update_players ps rs)) rs.
Proof.
  revert ps. induction rs as [|r rs IH]; intros ps; constructor.
  - apply (absorbed_update_players rs (update_player ps r)), update_player_absorbs.
  - apply IH.
Qed.

Lemma update_players_absorbed rs ps :
  Forall (absorbed ps) rs → update_players ps rs = ps.
Proof.
  induction 1 as [|r rs Hr _ IH]; [done|].
  unfold update_players in *. simpl. by rewrite update_player_absorbed.
Qed.

Lemma update_players_twice rs ps :
  update_players (update_players ps rs) rs = update_players ps rs.
Proof. apply update_players_absorbed, update_players_absorbs. Qed.

Lemma update_draws_elem draws draw_date : draw_date ∈ update_draws draws draw_date.
Proof.
  unfold update_draws, Py.mem_str. case_bool_decide; [done|].
  apply elem_of_app. right. apply list_elem_of_here.
Qed.

Lemma update_draws_twice draws draw_date :
  update_draws (update_draws draws draw_date) draw_date = update_draws draws draw_date.
Proof.
  unfold update_draws at 1. unfold Py.mem_str.
  rewrite bool_decide_eq_true_2; [done|apply update_draws_elem].
Qed.

Lemma fold_progress_twice roster winning_numbers draw_date p :
  fold_progress roster winning_numbers draw_date
    (fold_progress roster winning_numbers draw_date p)
  = fold_progress roster winning_numbers draw_date p.
Proof.
  unfold fold_progress. simpl. by rewrite update_players_twice, update_draws_twice.
Qed.

(** ** Entries only grow *)

Lemma update_player_grows ps r name n :
  n ∈ get_correct_numbers ps name → n ∈ get_correct_numbers (update_player ps r) name.
Proof.
  intros Hn. rewrite update_player_correct_numbers.
  destruct (decide (r.1 = name)) as [Heq|]; [|done].
  apply elem_of_sorted_set. unfold merged, Py.set. rewrite Heq. set_solver.
Qed.

Lemma update_players_grows rs ps name n :
  n ∈ get_correct_numbers ps name → n ∈ get_correct_numbers (update_players ps rs) name.
Proof.
  revert ps. induction rs as [|r rs IH]; intros ps Hn; [done|].
  apply IH. by apply update_player_grows.
Qed.

Lemma set_size_mono (l k : list Z) :
  (∀ n, n ∈ l → n ∈ k) → Py.len_set (Py.set l) ≤ Py.len_set (Py.set k).
Proof.
  intros H. unfold Py.len_set, Py.set. apply inj_le, subseteq_size. set_solver.
Qed.

(** ** Stored totals *)

Lemma update_player_consistent ps r : consistent ps → consistent (update_player ps r).
Proof.
  intros H name e. rewrite update_player_lookup.
  destruct (decide (r.1 = name)); [|apply H].
  intros [= <-]. simpl. unfold Py.len, Py.len_set. by rewrite length_sorted_set.
Qed.

Lemma update_players_consistent rs ps : consistent ps → consistent (update_players ps rs).
Proof.
  revert ps. induction rs as [|r rs IH]; intros ps H; [done|].
  apply IH. by apply update_player_consistent.
Qed.

Lemma update_players_written rs ps name :
  name ∈ rs.*1 →
  ∃ e, update_players ps rs !! name = Some e ∧
       total_correct e = Py.len (correct_numbers e).
Proof.
  revert ps. induction rs as [|r rs IH] using rev_ind; intros ps Hn.
  { by apply elem_of_nil in Hn. }
  unfold update_players. rewrite foldl_app. simpl. fold (update_players ps rs).
  rewrite update_player_lookup. destruct (decide (r.1 = name)) as [|Hne].
  - eexists. split; [done|]. simpl. unfold Py.len, Py.len_set.
    by rewrite length_sorted_set.
  - apply IH. rewrite fmap_app, elem_of_app in Hn. destruct Hn as [|Hn]; [done|].
    apply list_elem_of_singleton in Hn. by subst.
Qed.

Lemma consistent_empty : consistent ∅.
Proof. intros name e. by rewrite lookup_empty. Qed.

(** ** Entries stay within the chosen numbers *)

Lemma unique_name (roster : list participant) row row' :
  NoDup (Name <$> roster) → row ∈ roster → row' ∈ roster →
  Name row = Name row' → row = row'.
Proof.
  induction roster as [|x roster IH]; intros Hnd Hr Hr' Hn.
  { by apply elem_of_nil in Hr. }
  rewrite fmap_cons in Hnd. apply NoDup_cons in Hnd as [Hx Hnd].
  apply elem_of_cons in Hr as [->|Hr]; apply elem_of_cons in Hr' as [->|Hr'].
  - done.
  - exfalso. apply Hx. rewrite Hn. by apply list_elem_of_fmap_2.
  - exfalso. apply Hx. rewrite <- Hn. by apply list_elem_of_fmap_2.
  - by apply IH.
Qed.

Lemma size_set_le (l : list Z) (X : gset Z) :
  (∀ n, n ∈ X → n ∈ l) → (size X ≤ length l)%nat.
Proof.
  intros H. unfold size, set_size. simpl. apply submseteq_length, NoDup_submseteq.
  - apply NoDup_elements.
  - intros n Hn. apply H. by apply elem_of_elements.
Qed.

Lemma elem_of_merged ps r n :
  n ∈ merged ps r ↔ n ∈ get_correct_numbers ps r.1 ∨ n ∈ r.2.
Proof. unfold merged, Py.set. set_solver. Qed.

Lemma elem_of_player_result winning_numbers row n :
  n ∈ (player_result winning_numbers row).2 ↔ n ∈ Number row ∧ n ∈ winning_numbers.
Proof.
  unfold player_result. simpl. rewrite list_elem_of_filter, elem_of_sorted. tauto.
Qed.

Lemma update_player_kept roster ps winning_numbers row :
  well_formed roster → row ∈ roster → kept roster ps →
  kept roster (update_player ps (player_result winning_numbers row)).
Proof.
  intros [Hnd Hlen] Hrow Hk row' e Hrow'. rewrite update_player_lookup.
  destruct (decide ((player_result winning_numbers row).1 = Name row')) as [Heq|];
    [|by apply Hk].
  assert (row' = row) as -> by (symmetry; by eapply unique_name).
  intros [= <-]. clear Heq Hrow'.
  assert (Hin : ∀ n, n ∈ merged ps (player_result winning_numbers row) → n ∈ Number row).
  { intros n [Hn|Hn]%elem_of_merged.
    - unfold get_correct_numbers in Hn. simpl in Hn.
      destruct (ps !! Name row) as [e|] eqn:E; [|by apply elem_of_nil in Hn].
      by apply (Hk row e Hrow E).
    - by apply elem_of_player_result in Hn as [? _]. }
  unfold within. simpl. split_and!.
  - intros n Hn. by apply Hin, elem_of_sorted_set.
  - apply sorted_set_increasing.
  - unfold Py.len, Py.len_set. by rewrite length_sorted_set.
  - rewrite Forall_forall in Hlen. specialize (Hlen row Hrow).
    unfold Py.len_set. pose proof (size_set_le (Number row) _ Hin). lia.
Qed.

Lemma update_players_kept roster ps winning_numbers rows :
  well_formed roster → rows ⊆ roster → kept roster ps →
  kept roster (update_players ps (player_result winning_numbers <$> rows)).
Proof.
  intros Hwf. revert ps. induction rows as [|row rows IH]; intros ps Hsub Hk; [done|].
  rewrite fmap_cons. apply IH; [set_solver|].
  apply update_player_kept; [done|set_solver|done].
Qed.

Lemma fold_progress_kept roster winning_numbers draw_date p :
  well_formed roster → kept roster (players p) →
  kept roster (players (fold_progress roster winning_numbers draw_date p)).
Proof. intros. by apply update_players_kept. Qed.

Lemma kept_empty roster : kept roster ∅.
Proof. intros row e _. by rewrite lookup_empty. Qed.

(** ** Sequences of folds *)

Lemma for_each_invariant {A} (I : World → Prop) (body : A → M ()) l w :
  (∀ x w, I w → ∃ w', body x w = (Ret (), w') ∧ I w') →
  I w → ∃ w', for_each l body w = (Ret (), w') ∧ I w'.
Proof.
  intros Hb. revert w. induction l as [|x l IH]; intros w Hw; simpl.
  - by exists w.
  - unfold bind. destruct (Hb x w Hw) as (w1 & -> & H1). by apply IH.
Qed.

Lemma lottery_check_participants_progress winning_numbers draw_date is_latest_draw w :
  ∃ w', Lottery.check_participants winning_numbers draw_date is_latest_draw w = (Ret (), w') ∧
        env w' = env w ∧
        progress w' = match participants_csv (env w) with
                      | Some roster =>
                          fold_progress roster winning_numbers draw_date (progress w)
                      | None => progress w
                      end.
Proof.
  destruct (participants_csv (env w)) as [roster|] eqn:Hr.
  - destruct (lottery_check_participants_folds roster winning_numbers draw_date
                is_latest_draw w Hr) as (w' & E & F).
    exists w'. split_and!; [done|apply F|apply F].
  - eexists. split; [by apply lottery_check_participants_absent|done].
Qed.

Lemma drawing_check_participants_progress winning_numbers draw_date is_latest_draw w :
  let w' := (Drawing.check_participants winning_numbers draw_date is_latest_draw w).2 in
  env w' = env w ∧
  progress w' = match participants_csv (env w) with
                | Some roster =>
                    fold_progress roster winning_numbers draw_date (progress w)
                | None => progress w
                end.
Proof.
  destruct (participants_csv (env w)) as [roster|] eqn:Hr.
  - destruct (drawing_check_participants_folds roster winning_numbers draw_date
                is_latest_draw w Hr) as (w' & E & F).
    simpl. rewrite E. simpl. split; apply F.
  - unfold Drawing.check_participants, bind, read_participants. by rewrite Hr.
Qed.

Lemma fold_progress_grows roster winning_numbers draw_date p name n :
  n ∈ get_correct_numbers (players p) name →
  n ∈ get_correct_numbers (players (fold_progress roster winning_numbers draw_date p)) name.
Proof. apply update_players_grows. Qed.

Lemma fold_progress_consistent roster winning_numbers draw_date p :
  consistent (players p) →
  consistent (players (fold_progress roster winning_numbers draw_date p)).
Proof. apply update_players_consistent. Qed.

(** ** The order of the tuples *)

Lemma string_trichotomy (s1 s2 : string) :
  strict String.le s1 s2 ∨ s1 = s2 ∨ strict String.le s2 s1.
Proof.
  destruct (decide (s1 = s2)) as [|Hne]; [by right; left|].
  destruct (total String.le s1 s2) as [H|H].
  - left. by apply strict_spec_alt.
  - right; right. by apply strict_spec_alt.
Qed.

Lemma string_lt_le (s1 s2 : string) : strict String.le s1 s2 → String.le s1 s2.
Proof. by intros [? _]. Qed.

#[export] Instance tuple_le_total : Total tuple_le.
Proof.
  intros [[[t1 n1] s1] x1] [[[t2 n2] s2] x2]. unfold tuple_le, r_total, r_new, r_name, r_str.
  simpl. destruct (Z.lt_trichotomy t1 t2) as [?|[->|?]]; [tauto| |tauto].
  destruct (Z.lt_trichotomy n1 n2) as [?|[->|?]]; [tauto| |tauto].
  destruct (string_trichotomy s1 s2) as [?|[->|?]]; [tauto| |tauto].
  destruct (total String.le x1 x2); tauto.
Qed.

#[export] Instance tuple_le_trans : Transitive tuple_le.
Proof.
  intros [[[t1 n1] s1] x1] [[[t2 n2] s2] x2] [[[t3 n3] s3] x3].
  unfold tuple_le, r_total, r_new, r_name, r_str. simpl.
  intros [?|[-> [?|[-> [H12|[-> H12]]]]]] [?|[<- [?|[<- [H23|[<- H23]]]]]];
    try (left; lia); right; (split; [done|]);
    try (left; lia); right; (split; [done|]).
  - left. by trans s2.
  - by left.
  - by left.
  - right. split; [done|]. by trans x2.
Qed.

#[export] Instance tuple_le_antisym : AntiSymm (=) tuple_le.
Proof.
  intros [[[t1 n1] s1] x1] [[[t2 n2] s2] x2].
  unfold tuple_le, r_total, r_new, r_name, r_str. simpl.
  intros [?|[-> [?|[-> [H12|[-> H12]]]]]] [?|[? [?|[? [H21|[? H21]]]]]];
    try lia; try done.
  - destruct H12 as [? H12]. by destruct H21.
  - destruct H12 as [_ []]. subst. done.
  - destruct H21 as [_ []]. done.
  - f_equal. by apply (anti_symm String.le).
Qed.

#[export] Instance tuple_ge_total : Total (flip tuple_le).
Proof. intros a b. unfold flip. destruct (total tuple_le a b); tauto. Qed.

#[export] Instance tuple_ge_trans : Transitive (flip tuple_le).
Proof. intros a b c. unfold flip. intros. by trans b. Qed.

#[export] Instance tuple_ge_antisym : AntiSymm (=) (flip tuple_le).
Proof. intros a b. unfold flip. intros. by apply (anti_symm tuple_le). Qed.

Lemma sort_reverse_perm results : sort_reverse results ≡ₚ results.
Proof. apply merge_sort_Permutation. Qed.

Lemma sort_reverse_descending results :
  StronglySorted (flip tuple_le) (sort_reverse results).
Proof. apply StronglySorted_merge_sort; apply _. Qed.

(** The descending arrangement of a list of tuples is unique, so
    [sort_reverse] is the list a stable sort leaves. *)
Lemma sort_reverse_unique results other :
  other ≡ₚ results → StronglySorted (flip tuple_le) other →
  other = sort_reverse results.
Proof.
  intros Hp Hs. apply (StronglySorted_unique (flip tuple_le)); [done| |].
  - apply sort_reverse_descending.
  - by rewrite sort_reverse_perm.
Qed.

Lemma strongly_sorted_lookup {A} (R : relation A) (l : list A) i j a b :
  StronglySorted R l → (i < j)%nat → l !! i = Some a → l !! j = Some b → R a b.
Proof.
  intros Hs. revert i j. induction Hs as [|x l Hs IH Hx]; intros i j Hij Hi Hj.
  { by rewrite lookup_nil in Hi. }
  destruct j as [|j]; [lia|]. simpl in Hj. destruct i as [|i].
  - simpl in Hi. injection Hi as ->. rewrite Forall_forall in Hx.
    apply Hx. by eapply list_elem_of_lookup_2.
  - simpl in Hi. apply (IH i j); [lia|done..].
Qed.

(** ** Validation of the typed draw *)

Lemma size_set_NoDup (l : list Z) : size (Py.set l) = length l → NoDup l.
Proof.
  unfold Py.set. induction l as [|x l IH]; intros H; [constructor|].
  simpl in H. destruct (decide (x ∈ l)) as [Hin|Hin].
  - exfalso. assert ({[x]} ∪ list_to_set l = (list_to_set l : gset Z)) as E by set_solver.
    rewrite E in H. assert (Hle : (size (list_to_set l : gset Z) ≤ length l)%nat).
    { apply size_set_le. set_solver. }
    simpl in H. lia.
  - constructor; [done|]. apply IH.
    rewrite size_union, size_singleton in H by set_solver. simpl in H. lia.
Qed.

Lemma NoDup_size_set (l : list Z) : NoDup l → size (Py.set l) = length l.
Proof. apply size_list_to_set. Qed.

Lemma forallb_in_range numbers :
  forallb in_range numbers = true ↔ Forall (λ n, 1 ≤ n ≤ 45) numbers.
Proof.
  rewrite forallb_forall, Forall_forall. unfold in_range.
  split; intros H n Hn.
  - apply list_elem_of_In in Hn. specialize (H n Hn). lia.
  - apply list_elem_of_In in Hn. specialize (H n Hn). lia.
Qed.

Lemma check_numbers_valid numbers :
  valid_draw numbers → check_numbers numbers = Accept (Py.sorted numbers).
Proof.
  intros (Hlen & Hrange & Hnd). unfold check_numbers, Py.len, Py.len_set.
  rewrite Hlen. simpl. apply forallb_in_range in Hrange. rewrite Hrange. simpl.
  by rewrite NoDup_size_set, Hlen.
Qed.

Lemma check_numbers_accepts numbers accepted :
  check_numbers numbers = Accept accepted →
  valid_draw numbers ∧ accepted = Py.sorted numbers.
Proof.
  unfold check_numbers, Py.len, Py.len_set.
  destruct (Z.eqb_spec (Z.of_nat (length numbers)) 6) as [Hlen|]; [|done]. simpl.
  destruct (forallb in_range numbers) eqn:Hrange; [|done]. simpl.
  destruct (Z.eqb_spec (Z.of_nat (size (Py.set numbers))) 6) as [Hsize|]; [|done]. simpl.
  intros [= <-]. split; [|done]. split_and!.
  - lia.
  - by apply forallb_in_range.
  - apply size_set_NoDup. lia.
Qed.

Lemma check_numbers_invalid numbers :
  ¬ valid_draw numbers → ∃ complaint, check_numbers numbers = Reject complaint.
Proof.
  intros Hinv. destruct (check_numbers numbers) as [|complaint|accepted] eqn:E.
  - unfold check_numbers in E. repeat case_match; discriminate.
  - by exists complaint.
  - by apply check_numbers_accepts in E as [? _].
Qed.

Lemma valid_draw_sorted numbers : valid_draw numbers → valid_draw (Py.sorted numbers).
Proof.
  intros (Hlen & Hrange & Hnd). unfold valid_draw. by rewrite !sorted_perm.
Qed.

Lemma check_line_accepts line accepted :
  check_line line = Accept accepted →
  ∃ numbers, parse_numbers (Py.strip line) = Some numbers ∧ valid_draw numbers ∧
             accepted = Py.sorted numbers.
Proof.
  unfold check_line. destruct (decide (Py.strip line = "")); [done|].
  destruct (parse_numbers (Py.strip line)) as [numbers|]; [|done].
  intros H. exists numbers. split; [done|]. by apply check_numbers_accepts.
Qed.

Lemma parse_input_from_accepts prompt lines out accepted rest out' :
  parse_input_from prompt lines out = (Ret (Some accepted), rest, out') →
  valid_draw accepted ∧ StronglySorted Z.le accepted.
Proof.
  revert out. induction lines as [|line lines IH]; intros out; simpl; [done|].
  destruct (check_line line) as [|complaint|numbers] eqn:E.
  - done.
  - apply IH.
  - intros [= <- <- <-]. apply check_line_accepts in E as (ns & _ & Hv & ->).
    split; [by apply valid_draw_sorted | apply sorted_ascending].
Qed.

(** ** What an invocation appends and folds *)

Lemma keeps_ret {A} w0 (a : A) (Q : A → Prop) : Q a → keeps w0 (ret a) Q.
Proof. intros Ha w Hw. split; [done|]. by intros a' [= <-]. Qed.

Lemma keeps_raise {A} w0 e (Q : A → Prop) : keeps w0 (raise e) Q.
Proof. intros w Hw. split; [done|]. done. Qed.

Lemma keeps_bind {A B} w0 (c : M A) (k : A → M B) (Q : A → Prop) (Q' : B → Prop) :
  keeps w0 c Q → (∀ a, Q a → keeps w0 (k a) Q') → keeps w0 (bind c k) Q'.
Proof.
  intros Hc Hk w Hw. destruct (Hc w Hw) as [Hs Hq]. unfold bind.
  destruct (c w) as [[a|e] w1]; simpl in *.
  - by apply (Hk a); [apply Hq|].
  - split; [done|]. done.
Qed.

(** [k] after a computation that keeps [sound] by the lemma [H]. *)
Tactic Notation "keeps_seq" open_constr(H) := eapply keeps_bind; [apply H|].

Lemma keeps_untouched {A} w0 (c : M A) : untouched c → keeps w0 c (λ _, True).
Proof.
  intros Hc w [Hl Hf]. destruct (Hc w) as [El Ef]. split; [|done].
  split; [by rewrite El | by rewrite Ef].
Qed.

Lemma untouched_prints {A} (c : M A) S : prints c S → untouched c.
Proof. intros Hc w. by destruct (Hc w) as (a & out & -> & _). Qed.

Lemma untouched_bind {A B} (c : M A) (k : A → M B) :
  untouched c → (∀ a, untouched (k a)) → untouched (bind c k).
Proof.
  intros Hc Hk w. unfold bind. destruct (Hc w) as [El Ef].
  destruct (c w) as [[a|e] w1]; simpl in *; [|done].
  destruct (Hk a w1) as [El' Ef']. split; congruence.
Qed.

Lemma untouched_save_progress : untouched save_progress.
Proof. intros w. unfold save_progress. by destruct (writable (env w)). Qed.

Lemma untouched_drawing_init : untouched Drawing.init.
Proof.
  apply untouched_bind; [done|]. intros _ w. unfold Drawing.load_progress.
  destruct (progress_json w); try done.
  apply (untouched_bind (print _) (λ _, save_progress));
    [by eapply untouched_prints, prints_print | intros _; apply untouched_save_progress].
Qed.

Lemma untouched_lottery_init : untouched Lottery.init.
Proof.
  apply untouched_bind; [done|]. intros _ w. unfold Lottery.load_progress.
  by destruct (progress_json w).
Qed.

Lemma untouched_parse_input_with prompt : untouched (parse_input_with prompt).
Proof.
  intros w. unfold parse_input_with.
  by destruct (parse_input_from prompt (stdin w) (stdout w)) as [[r rest] out].
Qed.

Lemma keeps_parse_input_with w0 prompt :
  keeps w0 (parse_input_with prompt) (λ r, ∀ numbers, r = Some numbers → valid_draw numbers).
Proof.
  intros w Hw. split; [by apply (keeps_untouched w0 _ (untouched_parse_input_with prompt))|].
  unfold parse_input_with.
  destruct (parse_input_from prompt (stdin w) (stdout w)) as [[r rest] out] eqn:E.
  simpl. intros a -> numbers ->. by apply parse_input_from_accepts in E as [? _].
Qed.

Lemma keeps_read_trekking w0 :
  keeps w0 read_trekking
        (λ rows, ∀ row, row ∈ rows → row ∈ ledger w0 ∨ valid_draw (number row)).
Proof.
  intros w [Hl Hf]. unfold read_trekking. unfold ledger in Hl.
  destruct (trekking_csv w) as [rows|] eqn:E; simpl in *.
  - split; [split; [|done]|].
    + unfold ledger. by rewrite E.
    + by intros a [= <-].
  - split; [split; [|done]|].
    + unfold ledger. simpl. intros row Hrow. by apply elem_of_nil in Hrow.
    + intros a [= <-] row Hrow. by apply elem_of_nil in Hrow.
Qed.

Lemma drawing_check_participants_trace winning_numbers draw_date is_latest_draw w :
  let w' := (Drawing.check_participants winning_numbers draw_date is_latest_draw w).2 in
  trekking_csv w' = trekking_csv w ∧
  (folds w' = folds w ∨
   ∃ f, folds w' = folds w ++ [f] ∧ fold_numbers f = winning_numbers).
Proof.
  destruct (participants_csv (env w)) as [roster|] eqn:Hr.
  - destruct (drawing_check_participants_folds roster winning_numbers draw_date
                is_latest_draw w Hr) as (w' & E & F).
    simpl. rewrite E. simpl. split; [apply F|]. right. eexists. split; [apply F|done].
  - unfold Drawing.check_participants, bind, read_participants. rewrite Hr. simpl. tauto.
Qed.

Lemma lottery_check_participants_trace winning_numbers draw_date is_latest_draw w :
  let w' := (Lottery.check_participants winning_numbers draw_date is_latest_draw w).2 in
  trekking_csv w' = trekking_csv w ∧
  (folds w' = folds w ∨
   ∃ f, folds w' = folds w ++ [f] ∧ fold_numbers f = winning_numbers).
Proof.
  destruct (participants_csv (env w)) as [roster|] eqn:Hr.
  - destruct (lottery_check_participants_folds roster winning_numbers draw_date
                is_latest_draw w Hr) as (w' & E & F).
    simpl. rewrite E. simpl. split; [apply F|]. right. eexists. split; [apply F|done].
  - rewrite lottery_check_participants_absent by done. simpl. tauto.
Qed.

Lemma keeps_check (check : list Z → string → bool → M ()) w0 numbers draw_date latest :
  (∀ w, let w' := (check numbers draw_date latest w).2 in
        trekking_csv w' = trekking_csv w ∧
        (folds w' = folds w ∨ ∃ f, folds w' = folds w ++ [f] ∧ fold_numbers f = numbers)) →
  foldable w0 numbers → keeps w0 (check numbers draw_date latest) (λ _, True).
Proof.
  intros Hc Hn w [Hl Hf]. split; [|done]. destruct (Hc w) as [Et Ef]. split.
  - unfold ledger. by rewrite Et.
  - intros f. destruct Ef as [->|(f' & -> & Hf')]; [apply Hf|].
    rewrite elem_of_app, list_elem_of_singleton. intros [?| ->]; [by apply Hf|].
    right. by rewrite Hf'.
Qed.

Lemma keeps_for_each {A} w0 (l : list A) (body : A → M ()) :
  (∀ x, x ∈ l → keeps w0 (body x) (λ _, True)) →
  keeps w0 (for_each l body) (λ _, True).
Proof.
  induction l as [|x l IH]; intros Hb; simpl.
  - by apply keeps_ret.
  - eapply keeps_bind; [apply Hb, list_elem_of_here|]. intros _ _.
    apply IH. intros y Hy. by apply Hb, list_elem_of_further.
Qed.

Lemma foldable_row w0 (row : draw) :
  row ∈ ledger w0 ∨ valid_draw (number row) → foldable w0 (Py.sorted (number row)).
Proof.
  intros [H|H]; [left; by exists row | right; by apply valid_draw_sorted].
Qed.

Lemma keeps_append w0 rows row (Q : () → Prop) :
  (∀ r, r ∈ rows → r ∈ ledger w0 ∨ valid_draw (number r)) →
  valid_draw (number row) → Q () →
  keeps w0 (modify (set_trekking_csv (Some (rows ++ [row])))) Q.
Proof.
  intros Hrows Hrow HQ w [Hl Hf]. split; [|by intros [] _]. split; [|done].
  unfold ledger. simpl. intros r [Hr|Hr%list_elem_of_singleton]%elem_of_app.
  - by apply Hrows.
  - subst. by right.
Qed.

Lemma take_valid_draw numbers : valid_draw numbers → take 6 numbers = numbers.
Proof. intros [Hlen _]. apply take_ge. lia. Qed.

Lemma keeps_get {A} w0 (f : World → A) : keeps w0 (get f) (λ _, True).
Proof. by apply keeps_untouched. Qed.

Lemma keeps_print w0 o : keeps w0 (print o) (λ _, True).
Proof. by apply keeps_untouched. Qed.

Lemma keeps_get_unprocessed_draws w0 :
  keeps w0 Drawing.get_unprocessed_draws
        (λ unprocessed, ∀ nd, nd ∈ unprocessed → foldable w0 nd.1).
Proof.
  unfold Drawing.get_unprocessed_draws.
  keeps_seq keeps_read_trekking. intros trekking Ht. simpl in Ht.
  keeps_seq keeps_get. intros p _.
  apply keeps_ret. intros nd (row & -> & Hrow)%list_elem_of_fmap.
  apply list_elem_of_filter in Hrow as [_ Hrow]. simpl. by apply foldable_row, Ht.
Qed.

Lemma elem_of_enumerate {A} (l : list A) i x : (i, x) ∈ enumerate l → x ∈ l.
Proof. unfold enumerate. apply elem_of_zip_r. Qed.

Lemma keeps_process_all_unprocessed_draws w0 :
  keeps w0 Drawing.process_all_unprocessed_draws (λ _, True).
Proof.
  unfold Drawing.process_all_unprocessed_draws.
  keeps_seq keeps_get_unprocessed_draws.
  intros unprocessed Hu. simpl in Hu.
  eapply (keeps_bind _ _ _ (λ _, True)); [|intros; by apply keeps_ret].
  destruct (nonempty unprocessed); [|by apply keeps_ret].
  keeps_seq keeps_print. intros _ _.
  apply keeps_for_each. intros [i [numbers draw_date]] Hin.
  apply (keeps_check Drawing.check_participants).
  - intros w. apply drawing_check_participants_trace.
  - apply (Hu (numbers, draw_date)). by eapply elem_of_enumerate.
Qed.

Lemma keeps_drawing_add_to_trekking w0 numbers :
  valid_draw numbers → keeps w0 (Drawing.add_to_trekking numbers) (λ _, True).
Proof.
  intros Hv. unfold Drawing.add_to_trekking.
  keeps_seq keeps_read_trekking. intros trekking Ht. simpl in Ht.
  keeps_seq keeps_get. intros e _.
  destruct (next_date e _) as [next|]; [|apply keeps_raise].
  eapply keeps_bind; [|intros; by apply keeps_ret].
  apply (keeps_append _ _ _ (λ _, True)); [done| |done].
  simpl. by rewrite take_valid_draw.
Qed.

Lemma keeps_get_latest_results w0 :
  keeps w0 Drawing.get_latest_results
        (λ latest, ∀ nd, latest = Some nd → foldable w0 nd.1).
Proof.
  unfold Drawing.get_latest_results.
  keeps_seq keeps_read_trekking. intros trekking Ht. simpl in Ht.
  apply keeps_ret. intros nd Hnd.
  destruct (last trekking) as [latest|] eqn:E; [|done].
  injection Hnd as <-. simpl. apply foldable_row, Ht.
  apply last_Some in E as [l' ->]. apply elem_of_app. right. apply list_elem_of_here.
Qed.

Lemma keeps_drawing_main w0 : keeps w0 Drawing.main (λ _, True).
Proof.
  unfold Drawing.main.
  eapply keeps_bind; [apply keeps_untouched, untouched_drawing_init|]. intros _ _.
  keeps_seq keeps_process_all_unprocessed_draws.
  intros found_unprocessed _.
  keeps_seq keeps_parse_input_with. intros numbers Hn. simpl in Hn.
  destruct numbers as [numbers|].
  - specialize (Hn numbers eq_refl).
    eapply keeps_bind; [by apply keeps_drawing_add_to_trekking|]. intros draw_date _.
    apply (keeps_check Drawing.check_participants).
    + intros w. apply drawing_check_participants_trace.
    + by right.
  - destruct found_unprocessed; simpl; [by apply keeps_ret|].
    keeps_seq keeps_get_latest_results. intros latest Hl. simpl in Hl.
    destruct latest as [[numbers draw_date]|]; [|apply keeps_print].
    destruct (nonempty numbers && negb (String.eqb draw_date "")); [|apply keeps_print].
    apply (keeps_check Drawing.check_participants).
    + intros w. apply drawing_check_participants_trace.
    + by apply (Hl (numbers, draw_date)).
Qed.

Lemma keeps_get_draw_date w0 : keeps w0 Lottery.get_draw_date (λ _, True).
Proof.
  unfold Lottery.get_draw_date.
  keeps_seq keeps_read_trekking. intros trekking _.
  keeps_seq keeps_get. intros e _.
  destruct (next_date e _) as [suggested_date|]; [|apply keeps_raise].
  apply keeps_untouched. intros w.
  by destruct (Lottery.get_draw_date_from _ _ _ _) as [[r rest] out'].
Qed.

Lemma keeps_lottery_add_to_trekking w0 numbers draw_date :
  valid_draw numbers → keeps w0 (Lottery.add_to_trekking numbers draw_date) (λ _, True).
Proof.
  intros Hv. unfold Lottery.add_to_trekking.
  keeps_seq keeps_read_trekking. intros trekking Ht. simpl in Ht.
  eapply keeps_bind; [|intros; by apply keeps_ret].
  apply (keeps_append _ _ _ (λ _, True)); [done| |done].
  simpl. by rewrite take_valid_draw.
Qed.

Lemma keeps_show_current_standings w0 :
  keeps w0 Lottery.show_current_standings (λ _, True).
Proof.
  unfold Lottery.show_current_standings.
  keeps_seq keeps_read_trekking. intros trekking Ht. simpl in Ht.
  destruct (last trekking) as [latest|] eqn:E; [|apply keeps_print].
  apply (keeps_check Lottery.check_participants).
  - intros w. apply lottery_check_participants_trace.
  - apply foldable_row, Ht.
    apply last_Some in E as [l' ->]. apply elem_of_app. right. apply list_elem_of_here.
Qed.

Lemma keeps_run_interactive_mode w0 : keeps w0 Lottery.run_interactive_mode (λ _, True).
Proof.
  unfold Lottery.run_interactive_mode.
  keeps_seq keeps_get. intros e _.
  destruct (participants_csv e).
  - do 2 (keeps_seq keeps_print; intros _ _).
    keeps_seq keeps_show_current_standings. intros _ _.
    do 3 (keeps_seq keeps_print; intros _ _).
    keeps_seq keeps_parse_input_with. intros numbers Hn. simpl in Hn.
    destruct numbers as [numbers|]; [|apply keeps_print].
    specialize (Hn numbers eq_refl).
    keeps_seq keeps_get_draw_date. intros draw_date _.
    eapply keeps_bind; [by apply keeps_lottery_add_to_trekking|]. intros _ _.
    apply (keeps_check Lottery.check_participants).
    + intros w. apply lottery_check_participants_trace.
    + by right.
  - keeps_seq keeps_print. intros _ _. apply keeps_print.
Qed.

Lemma keeps_lottery_main w0 : keeps w0 Lottery.main (λ _, True).
Proof.
  unfold Lottery.main.
  eapply keeps_bind; [apply keeps_untouched, untouched_lottery_init|]. intros _ _.
  apply keeps_run_interactive_mode.
Qed.

Lemma sound_refl w : sound w w.
Proof. split; intros; by left. Qed.

(** ** The pass over the backlog *)

Lemma get_unprocessed_draws_run w :
  ∃ w1, Drawing.get_unprocessed_draws w = (Ret (unprocessed_draws w), w1) ∧
        env w1 = env w ∧ progress w1 = progress w ∧ folds w1 = folds w ∧
        stdout w1 = stdout w.
Proof.
  unfold Drawing.get_unprocessed_draws, bind, read_trekking, get, ret,
    unprocessed_draws, ledger.
  destruct (trekking_csv w) as [rows|]; eexists; (split; [done|]); done.
Qed.

Lemma backlog_run with_colour roster n k ds w :
  participants_csv (env w) = Some roster → with_colour = colour (env w) →
  n = (k + length ds)%nat →
  ∃ w', for_each (zip (seq k (length ds)) ds)
          (λ '(i, (numbers, draw_date)),
             Drawing.check_participants numbers draw_date
               (bool_decide (Z.of_nat i = Z.of_nat n - 1))) w = (Ret (), w') ∧
        env w' = env w ∧
        progress w' = progress_after roster ds (progress w) ∧
        folds w' = folds w ++ backlog_folds with_colour roster n k ds (progress w).
Proof.
  intros Hr Hc Hn. revert k w Hr Hc Hn.
  induction ds as [|[numbers draw_date] ds IH]; intros k w Hr Hc Hn; simpl.
  - exists w. by rewrite app_nil_r.
  - unfold bind.
    destruct (drawing_check_participants_folds roster numbers draw_date
                (bool_decide (Z.of_nat k = Z.of_nat n - 1)) w Hr) as (w1 & -> & F).
    destruct F as [Fe Fp _ _ _ Ff _].
    destruct (IH (S k) w1) as (w' & -> & He & Hp & Hf).
    { by rewrite Fe. } { by rewrite Fe. } { simpl in Hn. lia. }
    exists w'. split; [done|]. split; [congruence|]. split.
    + by rewrite Hp, Fp.
    + rewrite Hf, Ff, Fp, <- app_assoc, <- Hc. simpl.
      assert (bool_decide (Z.of_nat k = Z.of_nat n - 1) = bool_decide (S k = n)) as ->;
        [|done].
      apply bool_decide_ext. lia.
Qed.

Lemma backlog_folds_length colour roster n k ds p :
  length (backlog_folds colour roster n k ds p) = length ds.
Proof.
  revert k p. induction ds as [|nd ds IH]; intros k p; simpl; [done|]. by rewrite IH.
Qed.

Lemma backlog_folds_lookup colour roster n k ds p i nd :
  ds !! i = Some nd →
  backlog_folds colour roster n k ds p !! i
  = Some {| fold_numbers := nd.1; fold_date := nd.2;
            fold_latest := bool_decide (S (k + i) = n);
            fold_results := standings colour roster nd.1 (bool_decide (S (k + i) = n))
                              (progress_after roster (take i ds) p) |}.
Proof.
  revert k p i. induction ds as [|nd' ds IH]; intros k p i Hi; [done|].
  destruct i as [|i]; simpl in *.
  - injection Hi as ->. by rewrite Nat.add_0_r.
  - rewrite (IH (S k) _ i Hi). by replace (S k + i)%nat with (k + S i)%nat by lia.
Qed.

(** The count of new numbers in a tuple of the standings. *)
Lemma standings_new_count colour roster winning_numbers is_latest_draw p r :
  r ∈ standings colour roster winning_numbers is_latest_draw p →
  ∃ row, row ∈ roster ∧ r_name r = Name row ∧
         r_new r =
           if is_latest_draw
           then Py.len_set (Py.set (player_result winning_numbers row).2 ∖
                            Py.set (get_correct_numbers (players p) (Name row)))
           else 0.
Proof.
  unfold standings. rewrite sort_reverse_perm. unfold check_rows.
  rewrite <- list_fmap_compose.
  intros (row & -> & Hrow)%list_elem_of_fmap. exists row. split; [done|].
  split; [done|]. simpl. unfold r_new. simpl. by destruct is_latest_draw.
Qed.

(** ** The projection *)

Lemma elem_of_missing_of ps name chosen n :
  n ∈ missing_of ps name chosen ↔ n ∈ chosen ∧ n ∉ get_correct_numbers ps name.
Proof. unfold missing_of, Py.set. set_solver. Qed.

Lemma would_win_spec ps missing_numbers row :
  would_win ps missing_numbers row ↔
  10 ≤ Py.len_set (Py.set (get_correct_numbers ps (Name row))) +
       Py.len_set (missing_numbers ∩ Py.set (Number row)).
Proof. unfold would_win. rewrite Is_true_true. apply Z.leb_le. Qed.

Lemma elem_of_sorted_names n names : n ∈ sorted_names names ↔ n ∈ names.
Proof. unfold sorted_names. by rewrite merge_sort_Permutation. Qed.

Lemma member_results_lookup participants_df ps family_members (P : participant) :
  NoDup (Name <$> family_members) → P ∈ family_members →
  FutureWinners.member_results participants_df ps family_members !! Name P
  = Some (FutureWinners.analyze_member participants_df ps P).
Proof.
  unfold FutureWinners.member_results.
  induction family_members as [|x members IH] using rev_ind; intros Hnd Hin.
  { by apply elem_of_nil in Hin. }
  rewrite foldl_app. simpl. rewrite lookup_insert.
  destruct (decide (Name x = Name P)) as [Heq|Hne].
  - f_equal. f_equal. eapply unique_name; [done| |done..].
    apply elem_of_app. right. apply list_elem_of_here.
  - apply IH.
    + rewrite fmap_app in Hnd. by apply NoDup_app in Hnd as [? _].
    + apply elem_of_app in Hin as [?|Hin]; [done|].
      apply list_elem_of_singleton in Hin. by subst.
Qed.

(** ** Totals in the standings *)

Lemma standings_total colour roster winning_numbers is_latest_draw p r :
  r ∈ standings colour roster winning_numbers is_latest_draw p →
  ∃ row, row ∈ roster ∧ r_name r = Name row ∧
         r_total r = Py.len_set (merged (players p) (player_result winning_numbers row)).
Proof.
  unfold standings. rewrite sort_reverse_perm. unfold check_rows.
  rewrite <- list_fmap_compose.
  intros (row & -> & Hrow)%list_elem_of_fmap. by exists row.
Qed.

Lemma standings_total_le_10 colour roster winning_numbers is_latest_draw p r :
  well_formed roster → kept roster (players p) →
  r ∈ standings colour roster winning_numbers is_latest_draw p → r_total r ≤ 10.
Proof.
  intros [Hnd Hlen] Hk (row & Hrow & _ & ->)%standings_total.
  rewrite Forall_forall in Hlen. specialize (Hlen row Hrow).
  assert (Hle : (size (merged (players p) (player_result winning_numbers row))
                 ≤ length (Number row))%nat).
  { apply size_set_le. intros n [Hn|Hn]%elem_of_merged.
    - unfold get_correct_numbers in Hn. simpl in Hn.
      destruct (players p !! Name row) as [e|] eqn:E; [|by apply elem_of_nil in Hn].
      by apply (Hk row e Hrow E).
    - by apply elem_of_player_result in Hn as [? _]. }
  unfold Py.len_set. lia.
Qed.

Lemma tuple_le_total_le a b : tuple_le a b → r_total a ≤ r_total b.
Proof. unfold tuple_le. lia. Qed.

(** No tuple of a descending list has a greater total than the first. *)
Lemma head_is_highest top rest r :
  StronglySorted (flip tuple_le) (top :: rest) → r ∈ top :: rest →
  r_total r ≤ r_total top.
Proof.
  intros Hs Hr. apply StronglySorted_cons in Hs as [Hall _].
  apply elem_of_cons in Hr as [->|Hr]; [lia|].
  rewrite Forall_forall in Hall. by apply tuple_le_total_le, Hall.
Qed.

(** Over a well-formed roster a participant with 10 or more is among the
    highest scorers, and so among the tuples shown. *)
Lemma ten_is_shown colour roster winning_numbers is_latest_draw p filter_family r :
  well_formed roster → kept roster (players p) →
  let results := standings colour roster winning_numbers is_latest_draw p in
  r ∈ results → 10 ≤ r_total r →
  r ∈ shown_drawing results ∧ r ∈ shown_lottery filter_family results.
Proof.
  intros Hwf Hk results Hr H10.
  assert (Hs : StronglySorted (flip tuple_le) results) by apply sort_reverse_descending.
  assert (Hle : ∀ r', r' ∈ results → r_total r' ≤ 10).
  { intros r' Hr'. by eapply standings_total_le_10. }
  unfold shown_drawing, shown_lottery. destruct results as [|top rest] eqn:E.
  { by apply elem_of_nil in Hr. }
  assert (r_total r = r_total top).
  { pose proof (head_is_highest top rest r Hs Hr).
    pose proof (Hle top (list_elem_of_here _ _)). lia. }
  split; apply elem_of_app; left; by apply list_elem_of_filter.
Qed.

(** * Lemmas on whole runs, on the output and on the import *)

Lemma progress_eta p : {| players := players p; processed_draws := processed_draws p |} = p.
Proof. by destruct p. Qed.

Lemma set_progress_same w : set_progress (progress w) w = w.
Proof. by destruct w. Qed.

Lemma lottery_init_stored w p :
  stored (progress_json w) = Some p →
  (Lottery.init w).1 = Ret () ∧ progress (Lottery.init w).2 = p.
Proof.
  unfold Lottery.init, Lottery.load_progress, bind, modify, print, set_progress; simpl.
  destruct (progress_json w); simpl; intros [= <-]; try done.
  by rewrite (right_id_L ∅ (∪)).
Qed.

Lemma drawing_init_stored w p :
  stored (progress_json w) = Some p →
  (Drawing.init w).1 = Ret () ∧ progress (Drawing.init w).2 = p.
Proof.
  unfold Drawing.init, Drawing.load_progress, save_progress, bind, modify, print, set_progress; simpl.
  destruct (progress_json w); simpl; intros [= <-]; try done.
  - by destruct (writable (env w)).
  - by rewrite (right_id_L ∅ (∪)).
Qed.

Section Invariants.

Context (I : World → Prop) (HI : invariant I).

Lemma preserves_ret {A} (a : A) : preserves I (ret a).
Proof. by intros w. Qed.

Lemma preserves_raise {A} e : preserves I (@raise A e).
Proof. by intros w. Qed.

Lemma preserves_get {A} (f : World → A) : preserves I (get f).
Proof. by intros w. Qed.

Lemma preserves_bind {A B} (c : M A) (k : A → M B) :
  preserves I c → (∀ a, preserves I (k a)) → preserves I (bind c k).
Proof.
  intros Hc Hk w Hw. unfold bind. specialize (Hc w Hw).
  destruct (c w) as [[a|e] w1]; simpl in *; [by apply Hk|done].
Qed.

Lemma preserves_print o : preserves I (print o).
Proof. intros w Hw. by apply (inv_stdout I HI). Qed.

Lemma preserves_for_each {A} (l : list A) (body : A → M ()) :
  (∀ x, preserves I (body x)) → preserves I (for_each l body).
Proof.
  intros Hb. induction l as [|x l IH]; simpl; [apply preserves_ret|].
  apply preserves_bind; [apply Hb|done].
Qed.

Lemma preserves_prints {A} (c : M A) S : prints c S → preserves I c.
Proof.
  intros Hc w Hw. destruct (Hc w) as (a & out & -> & _). by apply (inv_stdout I HI).
Qed.

Lemma preserves_read_trekking : preserves I read_trekking.
Proof.
  intros w Hw. unfold read_trekking. destruct (trekking_csv w) eqn:E; simpl; [done|].
  by apply (inv_create I HI).
Qed.

Lemma preserves_parse_input_with prompt : preserves I (parse_input_with prompt).
Proof.
  intros w Hw. unfold parse_input_with.
  destruct (parse_input_from _ _ _) as [[r rest] out]. simpl.
  by apply (inv_stdout I HI), (inv_stdin I HI).
Qed.

Lemma folded_world shown roster winning_numbers draw_date is_latest_draw w w' :
  folded_by shown roster winning_numbers draw_date is_latest_draw w w' →
  ∃ out f, w' = set_stdout out (set_folds f (fold_world roster winning_numbers draw_date w)).
Proof.
  intros [He Hp Hj Ht Hi Hf (out & Ho & _)].
  exists (stdout w'), (folds w').
  destruct w'; simpl in *. unfold set_stdout, set_folds, fold_world; simpl.
  by rewrite He, Hj, Ht, Hi, Hp.
Qed.

Lemma preserves_folded shown roster winning_numbers draw_date is_latest_draw w w' :
  participants_csv (env w) = Some roster →
  folded_by shown roster winning_numbers draw_date is_latest_draw w w' →
  I w → I w'.
Proof.
  intros Hr (out & f & ->)%folded_world Hw.
  by apply (inv_stdout I HI), (inv_folds I HI), (inv_fold I HI).
Qed.

Lemma preserves_drawing_check_participants winning_numbers draw_date is_latest_draw :
  preserves I (Drawing.check_participants winning_numbers draw_date is_latest_draw).
Proof.
  intros w Hw. destruct (participants_csv (env w)) as [roster|] eqn:Hr.
  - destruct (drawing_check_participants_folds roster winning_numbers draw_date
                is_latest_draw w Hr) as (w' & -> & F).
    by eapply preserves_folded.
  - unfold Drawing.check_participants, bind, read_participants. by rewrite Hr.
Qed.

Lemma preserves_lottery_check_participants winning_numbers draw_date is_latest_draw :
  preserves I (Lottery.check_participants winning_numbers draw_date is_latest_draw).
Proof.
  intros w Hw. destruct (participants_csv (env w)) as [roster|] eqn:Hr.
  - destruct (lottery_check_participants_folds roster winning_numbers draw_date
                is_latest_draw w Hr) as (w' & -> & F).
    by eapply preserves_folded.
  - rewrite lottery_check_participants_absent by done. by apply (inv_stdout I HI).
Qed.

Lemma preserves_get_unprocessed_draws : preserves I Drawing.get_unprocessed_draws.
Proof.
  apply preserves_bind; [apply preserves_read_trekking|intros trekking].
  apply preserves_bind; [apply preserves_get|intros p]. apply preserves_ret.
Qed.

Lemma preserves_process_all_unprocessed_draws :
  preserves I Drawing.process_all_unprocessed_draws.
Proof.
  apply preserves_bind; [apply preserves_get_unprocessed_draws|intros unprocessed].
  apply preserves_bind; [|intros; apply preserves_ret].
  destruct (nonempty unprocessed); [|apply preserves_ret].
  apply preserves_bind; [apply preserves_print|intros _].
  apply preserves_for_each. intros [i [numbers draw_date]].
  apply preserves_drawing_check_participants.
Qed.

Lemma preserves_append {A} (row : list draw → draw) (k : M A) :
  preserves I k →
  preserves I (trekking ←← read_trekking ;;
               modify (set_trekking_csv (Some (trekking ++ [row trekking]))) ;;; k).
Proof.
  intros Hk w Hw. unfold bind at 1. unfold read_trekking.
  destruct (trekking_csv w) as [rows|] eqn:E.
  - unfold bind, modify. apply Hk.
    pose proof (inv_append I HI w (row rows) Hw) as H.
    unfold ledger in H. by rewrite E in H.
  - unfold bind, modify. apply Hk.
    pose proof (inv_append I HI _ (row []) (inv_create I HI w Hw E)) as H.
    by destruct w.
Qed.

Lemma preserves_drawing_add_to_trekking numbers :
  preserves I (Drawing.add_to_trekking numbers).
Proof.
  intros w Hw. unfold Drawing.add_to_trekking.
  unfold bind at 1. unfold read_trekking.
  destruct (trekking_csv w) as [rows|] eqn:E.
  - unfold bind at 1. unfold get. destruct (next_date _ _) as [next|]; [|done].
    unfold bind, modify, ret; simpl.
    pose proof (inv_append I HI w {| date := next; number := take 6 numbers |} Hw) as H.
    unfold ledger in H. by rewrite E in H.
  - unfold bind at 1. unfold get. simpl. destruct (next_date _ _) as [next|].
    + unfold bind, modify, ret; simpl.
      pose proof (inv_append I HI _ {| date := next; number := take 6 numbers |}
                    (inv_create I HI w Hw E)) as H.
      by destruct w.
    + by apply (inv_create I HI).
Qed.

Lemma preserves_lottery_add_to_trekking numbers draw_date :
  preserves I (Lottery.add_to_trekking numbers draw_date).
Proof.
  apply (preserves_append (λ _, {| date := draw_date; number := take 6 numbers |})).
  apply preserves_ret.
Qed.

Lemma preserves_get_latest_results : preserves I Drawing.get_latest_results.
Proof.
  apply preserves_bind; [apply preserves_read_trekking|intros; apply preserves_ret].
Qed.

Lemma preserves_get_draw_date : preserves I Lottery.get_draw_date.
Proof.
  apply preserves_bind; [apply preserves_read_trekking|intros trekking].
  apply preserves_bind; [apply preserves_get|intros e].
  destruct (next_date _ _) as [suggested_date|]; [|apply preserves_raise].
  intros w Hw. destruct (Lottery.get_draw_date_from _ _ _ _) as [[r rest] out]. simpl.
  by apply (inv_stdout I HI), (inv_stdin I HI).
Qed.

Lemma preserves_show_current_standings : preserves I Lottery.show_current_standings.
Proof.
  apply preserves_bind; [apply preserves_read_trekking|intros trekking].
  destruct (last trekking); [apply preserves_lottery_check_participants|apply preserves_print].
Qed.

Lemma preserves_run_interactive_mode : preserves I Lottery.run_interactive_mode.
Proof.
  apply preserves_bind; [apply preserves_get|intros e].
  destruct (participants_csv e).
  2: { apply preserves_bind; [apply preserves_print|intros; apply preserves_print]. }
  repeat (apply preserves_bind; [apply preserves_print|intros _]).
  apply preserves_bind; [apply preserves_show_current_standings|intros _].
  repeat (apply preserves_bind; [apply preserves_print|intros _]).
  apply preserves_bind; [apply preserves_parse_input_with|intros [numbers|]].
  2: apply preserves_print.
  apply preserves_bind; [apply preserves_get_draw_date|intros draw_date].
  apply preserves_bind; [apply preserves_lottery_add_to_trekking|intros _].
  apply preserves_lottery_check_participants.
Qed.

(** drawing.py's [main] after [LotteryTracker()]. *)
Lemma preserves_drawing_run :
  preserves I (found_unprocessed ←← Drawing.process_all_unprocessed_draws ;;
               numbers ←← Drawing.parse_input ;;
               match numbers with
               | Some numbers =>
                   draw_date ←← Drawing.add_to_trekking numbers ;;
                   Drawing.check_participants numbers draw_date true
               | None =>
                   if negb found_unprocessed
                   then latest ←← Drawing.get_latest_results ;;
                        match latest with
                        | Some (numbers, draw_date) =>
                            if nonempty numbers && negb (String.eqb draw_date "")
                            then Drawing.check_participants numbers draw_date true
                            else print (Msg "No draws found in trekking.csv")
                        | None => print (Msg "No draws found in trekking.csv")
                        end
                   else ret ()
               end).
Proof.
  apply preserves_bind; [apply preserves_process_all_unprocessed_draws|intros found].
  apply preserves_bind; [apply preserves_parse_input_with|intros [numbers|]].
  - apply preserves_bind; [apply preserves_drawing_add_to_trekking|intros draw_date].
    apply preserves_drawing_check_participants.
  - destruct (negb found); [|apply preserves_ret].
    apply preserves_bind; [apply preserves_get_latest_results|intros [[numbers d]|]].
    + destruct (_ && _); [apply preserves_drawing_check_participants|apply preserves_print].
    + apply preserves_print.
Qed.

(** An invariant that holds once the progress is loaded holds when the
    run is over. *)
Lemma lottery_main_invariant w :
  I (Lottery.init w).2 → I (Lottery.main w).2.
Proof.
  intros Hw. unfold Lottery.main. unfold bind at 1.
  destruct (Lottery.init w) as [[[]|e] w1]; simpl in *; [|done].
  by apply preserves_run_interactive_mode.
Qed.

Lemma drawing_main_invariant w :
  I (Drawing.init w).2 → I (Drawing.main w).2.
Proof.
  intros Hw. unfold Drawing.main. unfold bind at 1.
  destruct (Drawing.init w) as [[[]|e] w1]; simpl in *; [|done].
  by apply preserves_drawing_run.
Qed.

End Invariants.

Lemma gathered_nil name : gathered [] name = ∅.
Proof. done. Qed.

Lemma gathered_snoc rs r name :
  gathered (rs ++ [r]) name
  = gathered rs name ∪ (if decide (r.1 = name) then Py.set r.2 else ∅).
Proof.
  unfold gathered. rewrite filter_app, fmap_app, union_list_app_L.
  f_equal. rewrite filter_cons, filter_nil.
  destruct (decide (r.1 = name)); simpl; [|done]. by rewrite (right_id_L ∅ (∪)).
Qed.

Lemma elem_of_gathered rs name n :
  n ∈ gathered rs name ↔ ∃ r, r ∈ rs ∧ r.1 = name ∧ n ∈ r.2.
Proof.
  unfold gathered. rewrite elem_of_union_list. split.
  - intros (X & (r & -> & [Hn Hr]%list_elem_of_filter)%list_elem_of_fmap & Hin).
    exists r. split_and!; [done..|]. by apply elem_of_list_to_set in Hin.
  - intros (r & Hr & Hn & Hin). exists (Py.set r.2). split.
    + apply list_elem_of_fmap. exists r. split; [done|]. by apply list_elem_of_filter.
    + by apply elem_of_list_to_set.
Qed.

(** The entry [update_progress] leaves for a name: that of the set
    gathered for it, when [player_results] names it. *)
Lemma update_players_lookup rs ps name :
  update_players ps rs !! name =
    if decide (name ∈ rs.*1)
    then let all := Py.set (get_correct_numbers ps name) ∪ gathered rs name in
         Some (Entry (Py.len_set all) (Py.sorted_set all))
    else ps !! name.
Proof.
  unfold update_players. induction rs as [|r rs IH] using rev_ind.
  - destruct (decide _) as [H|]; [by apply elem_of_nil in H|done].
  - rewrite foldl_app. simpl. rewrite update_player_lookup.
    rewrite fmap_app, gathered_snoc. simpl.
    destruct (decide (r.1 = name)) as [Hr|Hr].
    + rewrite decide_True by (apply elem_of_app; right; subst; apply list_elem_of_here).
      simpl. unfold merged. rewrite Hr.
      assert (Py.set (get_correct_numbers (foldl update_player ps rs) name)
              = Py.set (get_correct_numbers ps name) ∪ gathered rs name) as ->.
      { unfold get_correct_numbers at 1. rewrite IH.
        destruct (decide (name ∈ rs.*1)) as [Hin|Hin]; simpl.
        - by rewrite set_sorted_set.
        - assert (gathered rs name = ∅) as ->.
          { apply set_eq. intros n. rewrite elem_of_gathered. split; [|set_solver].
            intros (r' & Hr' & Hn & _). destruct Hin. apply list_elem_of_fmap. by exists r'. }
          by rewrite (right_id_L ∅ (∪)). }
      by rewrite (assoc_L (∪)).
    + rewrite (right_id_L ∅ (∪)). rewrite IH.
      destruct (decide (name ∈ rs.*1)) as [Hin|Hin].
      * rewrite decide_True; [done|]. apply elem_of_app. by left.
      * rewrite decide_False; [done|]. rewrite elem_of_app.
        intros [?|Hin']; [done|]. apply list_elem_of_singleton in Hin'. done.
Qed.

Lemma update_players_correct_numbers rs ps name :
  Py.set (get_correct_numbers (update_players ps rs) name)
  = Py.set (get_correct_numbers ps name) ∪ gathered rs name.
Proof.
  unfold get_correct_numbers at 1. rewrite update_players_lookup.
  destruct (decide (name ∈ rs.*1)) as [Hin|Hin]; simpl.
  - by rewrite set_sorted_set.
  - assert (gathered rs name = ∅) as ->.
    { apply set_eq. intros n. rewrite elem_of_gathered. split; [|set_solver].
      intros (r' & Hr' & Hn & _). destruct Hin. apply list_elem_of_fmap. by exists r'. }
    by rewrite (right_id_L ∅ (∪)).
Qed.

Lemma player_results_names winning_numbers (roster : list participant) :
  (player_result winning_numbers <$> roster).*1 = Name <$> roster.
Proof. rewrite <- list_fmap_compose. done. Qed.

Lemma dom_update_players rs ps :
  dom (update_players ps rs) = dom ps ∪ list_to_set rs.*1.
Proof.
  apply set_eq. intros name. rewrite elem_of_dom, update_players_lookup.
  rewrite elem_of_union, elem_of_dom, elem_of_list_to_set.
  destruct (decide (name ∈ rs.*1)); simpl; [|tauto].
  split; [by right|]. intros _. by eexists.
Qed.

Lemma gathered_unique winning_numbers (roster : list participant) row :
  NoDup (Name <$> roster) → row ∈ roster →
  gathered (player_result winning_numbers <$> roster) (Name row)
  = Py.set (player_result winning_numbers row).2.
Proof.
  intros Hnd Hrow. apply set_eq. intros n. rewrite elem_of_gathered. split.
  - intros (r & (row' & -> & Hrow')%list_elem_of_fmap & Hname & Hn). simpl in Hname.
    rewrite (unique_name roster row row') by done. by apply elem_of_list_to_set.
  - intros Hn%elem_of_list_to_set. exists (player_result winning_numbers row).
    split_and!; [|done..]. apply list_elem_of_fmap. by exists row.
Qed.

Lemma fold_progress_stored roster winning_numbers draw_date p row n :
  NoDup (Name <$> roster) → row ∈ roster →
  n ∈ get_correct_numbers (players (fold_progress roster winning_numbers draw_date p))
        (Name row) ↔
  n ∈ get_correct_numbers (players p) (Name row) ∨ (n ∈ Number row ∧ n ∈ winning_numbers).
Proof.
  intros Hnd Hrow. simpl.
  rewrite <- (elem_of_list_to_set (C := gset Z)).
  change (list_to_set ?l) with (Py.set l).
  rewrite update_players_correct_numbers, gathered_unique by done.
  rewrite elem_of_union. unfold Py.set. rewrite !elem_of_list_to_set.
  by rewrite elem_of_player_result.
Qed.

Lemma fold_progress_commute roster1 roster2 winning1 date1 winning2 date2 p :
  Name <$> roster1 = Name <$> roster2 →
  players (fold_progress roster2 winning2 date2 (fold_progress roster1 winning1 date1 p))
  = players (fold_progress roster1 winning1 date1 (fold_progress roster2 winning2 date2 p)).
Proof.
  intros Hn. simpl. apply map_eq. intros name.
  rewrite !update_players_lookup, !player_results_names, Hn.
  destruct (decide (name ∈ Name <$> roster2)) as [Hin|Hin]; [|done].
  simpl. rewrite !update_players_correct_numbers.
  assert (∀ X Y Z : gset Z, X ∪ Y ∪ Z = X ∪ Z ∪ Y) as -> by set_solver. done.
Qed.

Lemma elem_of_standings colour roster winning_numbers is_latest_draw p r :
  r ∈ standings colour roster winning_numbers is_latest_draw p ↔
  ∃ row, row ∈ roster ∧
         r = (check_row colour (players p) winning_numbers is_latest_draw row).1.
Proof.
  unfold standings. rewrite sort_reverse_perm. unfold check_rows.
  rewrite <- list_fmap_compose, list_elem_of_fmap. naive_solver.
Qed.

Lemma invariant_ledger_prefix (rows : list draw) :
  invariant (λ w, rows `prefix_of` ledger w).
Proof.
  split; try done.
  - intros w Hw E. unfold ledger in *. by rewrite E in Hw.
  - intros w row Hw. unfold ledger at 1. simpl. by apply prefix_app_r.
Qed.

Lemma invariant_in_sync :
  invariant (λ w, writable (env w) = true ∧ stored (progress_json w) = Some (progress w)).
Proof.
  split; try done.
  intros w roster winning_numbers draw_date [Hw Hs] Hr. split; [done|].
  unfold fold_world. rewrite Hw. simpl. done.
Qed.

Lemma lottery_init_in_sync w :
  (Lottery.init w).1 = Ret () →
  env (Lottery.init w).2 = env w ∧
  stored (progress_json (Lottery.init w).2) = Some (progress (Lottery.init w).2).
Proof.
  unfold Lottery.init, Lottery.load_progress, bind, modify, print; simpl.
  destruct (progress_json w) eqn:E; simpl; rewrite ?E; try done.
  intros _. split; [done|]. simpl. by rewrite (right_id_L ∅ (∪)).
Qed.

Lemma drawing_init_in_sync w :
  writable (env w) = true → (Drawing.init w).1 = Ret () →
  env (Drawing.init w).2 = env w ∧
  stored (progress_json (Drawing.init w).2) = Some (progress (Drawing.init w).2).
Proof.
  intros Hw.
  unfold Drawing.init, Drawing.load_progress, save_progress, bind, modify, print; simpl.
  destruct (progress_json w) eqn:E; simpl; rewrite ?E, ?Hw; try done.
  intros _. split; [done|]. simpl. by rewrite (right_id_L ∅ (∪)).
Qed.

Lemma update_draws_prefix draws draw_date : draws `prefix_of` update_draws draws draw_date.
Proof.
  unfold update_draws. destruct (Py.mem_str _ _); [done|]. by apply prefix_app_r.
Qed.

Lemma update_draws_NoDup draws draw_date : NoDup draws → NoDup (update_draws draws draw_date).
Proof.
  intros Hnd. unfold update_draws, Py.mem_str. destruct (bool_decide _) eqn:E; [done|].
  apply bool_decide_eq_false in E. apply NoDup_app. split_and!; [done| |apply NoDup_singleton].
  intros x Hx ->%list_elem_of_singleton. done.
Qed.

Lemma invariant_log (log : list string) :
  invariant (λ w, log `prefix_of` processed_draws (progress w) ∧
                  NoDup (processed_draws (progress w))).
Proof.
  split; try done.
  intros w roster winning_numbers draw_date [Hp Hnd] Hr. simpl. split.
  - etrans; [done|]. apply update_draws_prefix.
  - by apply update_draws_NoDup.
Qed.

Lemma invariant_names (known : gset string) :
  invariant (λ w, dom (players (progress w)) ⊆
                  known ∪ names_of (default [] (participants_csv (env w)))).
Proof.
  split; try done.
  intros w roster winning_numbers draw_date Hd Hr. simpl.
  rewrite dom_update_players, player_results_names. rewrite Hr in *. simpl in *.
  unfold names_of in *. set_solver.
Qed.

Lemma invariant_env (e : Env) : invariant (λ w, env w = e).
Proof. by split. Qed.

Lemma lottery_main_env w : env (Lottery.main w).2 = env w.
Proof.
  apply (lottery_main_invariant _ (invariant_env (env w))).
  unfold Lottery.init, Lottery.load_progress, bind, modify, print; simpl.
  by destruct (progress_json w).
Qed.

Lemma drawing_main_env w : env (Drawing.main w).2 = env w.
Proof.
  apply (drawing_main_invariant _ (invariant_env (env w))).
  unfold Drawing.init, Drawing.load_progress, save_progress, bind, modify, print; simpl.
  destruct (progress_json w); try done. simpl. by destruct (writable (env w)).
Qed.

Lemma set_trekking_csv_same w rows :
  trekking_csv w = Some rows → set_trekking_csv (Some rows) w = w.
Proof. destruct w. simpl. by intros ->. Qed.

(** [get_unprocessed_draws] returns the backlog and leaves a ledger file. *)
Lemma get_unprocessed_draws_world w :
  Drawing.get_unprocessed_draws w
  = (Ret (unprocessed_draws w), set_trekking_csv (Some (ledger w)) w).
Proof.
  unfold Drawing.get_unprocessed_draws, bind, read_trekking, get, ret, unprocessed_draws, ledger.
  destruct (trekking_csv w) as [rows|] eqn:E; simpl; [|done].
  by rewrite set_trekking_csv_same.
Qed.

Lemma progress_after_log roster ds p :
  (∀ d, d ∈ processed_draws p → d ∈ processed_draws (progress_after roster ds p)) ∧
  (∀ nd, nd ∈ ds → nd.2 ∈ processed_draws (progress_after roster ds p)).
Proof.
  revert p. induction ds as [|nd ds IH]; intros p; simpl.
  - split; [done|]. by intros nd Hnd%elem_of_nil.
  - destruct (IH (fold_progress roster nd.1 nd.2 p)) as [IH1 IH2]. split.
    + intros d Hd. apply IH1. simpl.
      eapply elem_of_prefix; [done|]. apply update_draws_prefix.
    + intros nd' [->|Hin]%elem_of_cons; [|by apply IH2].
      apply IH1. simpl. apply update_draws_elem.
Qed.

(** The backlog pass of drawing.py, where the participants file exists. *)
Lemma process_all_unprocessed_draws_run roster w :
  participants_csv (env w) = Some roster →
  ∃ w', Drawing.process_all_unprocessed_draws w = (Ret (nonempty (unprocessed_draws w)), w') ∧
        env w' = env w ∧
        trekking_csv w' = Some (ledger w) ∧
        stdin w' = stdin w ∧
        progress w' = progress_after roster (unprocessed_draws w) (progress w) ∧
        (unprocessed_draws w = [] → w' = set_trekking_csv (Some (ledger w)) w).
Proof.
  intros Hr. unfold Drawing.process_all_unprocessed_draws. unfold bind at 1.
  rewrite get_unprocessed_draws_world.
  set (w1 := set_trekking_csv _ w).
  destruct (unprocessed_draws w) as [|nd ds'] eqn:Eds.
  { exists w1. by split_and!. }
  cbn [nonempty]. set (ds := nd :: ds').
  unfold bind at 1. unfold bind at 1. unfold print, modify.
  set (w2 := set_stdout _ w1). unfold enumerate.
  destruct (backlog_run (colour (env w2)) roster (0 + length ds)%nat 0 ds w2)
    as (w' & E & He & Hp & _); [done..|].
  assert (∃ w'', for_each (zip (seq 0 (length ds)) ds)
            (λ '(i, (numbers, draw_date)),
               Drawing.check_participants numbers draw_date
                 (bool_decide (Z.of_nat i = Py.len ds - 1))) w2 = (Ret (), w'') ∧
            (participants_csv (env w'') = Some roster ∧
             trekking_csv w'' = Some (ledger w) ∧ stdin w'' = stdin w))
    as (w'' & E' & _ & Ht & Hi).
  { apply (for_each_invariant
             (λ w0, participants_csv (env w0) = Some roster ∧
                    trekking_csv w0 = Some (ledger w) ∧ stdin w0 = stdin w)); [|done].
    intros [i [numbers draw_date]] w3 (Hr3 & Ht3 & Hi3).
    destruct (drawing_check_participants_folds roster numbers draw_date
                (bool_decide (Z.of_nat i = Py.len ds - 1)) w3 Hr3) as (w4 & -> & F).
    exists w4. split; [done|].
    by rewrite (folded_env _ _ _ _ _ _ _ F), (folded_trekking _ _ _ _ _ _ _ F),
               (folded_stdin _ _ _ _ _ _ _ F). }
  unfold Py.len in E'. change (0 + length ds)%nat with (length ds) in E.
  rewrite E in E'. injection E' as <-.
  exists w'. unfold Py.len. rewrite E. by split_and!.
Qed.

Lemma sorted_permutation (l k : list Z) : l ≡ₚ k → Py.sorted l = Py.sorted k.
Proof.
  intros Hp. apply (StronglySorted_unique Z.le); [apply sorted_ascending..|].
  by rewrite !sorted_perm.
Qed.

Lemma parse_input_from_exhausted prompt lines out :
  Forall rejected lines →
  ∃ out', parse_input_from prompt lines out = (Raise EOFError, [], out').
Proof.
  intros H. revert out. induction H as [|line lines [complaint Hc] _ IH]; intros out.
  - by eexists.
  - simpl. rewrite Hc. apply IH.
Qed.

Lemma parse_input_with_exhausted prompt w :
  Forall rejected (stdin w) → (parse_input_with prompt w).1 = Raise EOFError.
Proof.
  intros H. unfold parse_input_with.
  by destruct (parse_input_from_exhausted prompt (stdin w) (stdout w) H) as (out' & ->).
Qed.

Lemma lottery_init_returns w :
  (Lottery.init w).1 = Ret () →
  env (Lottery.init w).2 = env w ∧ stdin (Lottery.init w).2 = stdin w.
Proof.
  unfold Lottery.init, Lottery.load_progress, bind, modify, print; simpl.
  by destruct (progress_json w).
Qed.

Lemma drawing_init_returns w :
  (Drawing.init w).1 = Ret () →
  env (Drawing.init w).2 = env w ∧ stdin (Drawing.init w).2 = stdin w.
Proof.
  unfold Drawing.init, Drawing.load_progress, save_progress, bind, modify, print; simpl.
  destruct (progress_json w); try done. simpl. by destruct (writable (env w)).
Qed.

Lemma show_current_standings_returns roster w :
  participants_csv (env w) = Some roster →
  ∃ w', Lottery.show_current_standings w = (Ret (), w') ∧
        env w' = env w ∧ stdin w' = stdin w.
Proof.
  intros Hr. unfold Lottery.show_current_standings, bind, read_trekking.
  destruct (trekking_csv w) as [rows|]; simpl.
  - destruct (last rows) as [latest|].
    + destruct (lottery_check_participants_folds roster (Py.sorted (number latest))
                  (date latest) true w Hr) as (w' & -> & F).
      exists w'. split; [done|].
      by rewrite (folded_env _ _ _ _ _ _ _ F), (folded_stdin _ _ _ _ _ _ _ F).
    + by eexists.
  - by eexists.
Qed.

Lemma emits_ret {A} (a : A) P : emits (ret a) P.
Proof. intros w. exists a, []. by rewrite set_stdout_nil. Qed.

Lemma emits_print o (P : output → Prop) : P o → emits (print o) P.
Proof. intros Ho w. exists (), [o]. split; [done|]. by apply Forall_singleton. Qed.

Lemma emits_bind {A B} (c : M A) (k : A → M B) P :
  emits c P → (∀ a, emits (k a) P) → emits (bind c k) P.
Proof.
  intros Hc Hk w. unfold bind.
  destruct (Hc w) as (a & o1 & -> & H1).
  destruct (Hk a (set_stdout (stdout w ++ o1) w)) as (b & o2 & -> & H2).
  exists b, (o1 ++ o2). rewrite set_stdout_app. split; [done|]. by apply Forall_app.
Qed.

Lemma emits_for_each {A} (l : list A) (body : A → M ()) P :
  (∀ x, emits (body x) P) → emits (for_each l body) P.
Proof.
  intros Hb. induction l as [|x l IH]; simpl; [apply emits_ret|].
  apply emits_bind; [apply Hb|done].
Qed.

Lemma emits_show_scores rs (P : output → Prop) :
  (∀ o, score_line o → P o) → emits (show_scores rs) P.
Proof.
  intros HP. apply emits_for_each. intros r. apply emits_bind.
  - unfold print_score. destruct (0 <? r_new r); by apply emits_print, HP.
  - intros _. unfold print_winner.
    destruct (10 <=? r_total r); [by apply emits_print, HP|apply emits_ret].
Qed.

Lemma emits_drawing_report top rest (P : output → Prop) :
  (∀ o, score_line o → P o) → (∀ title, P (Heading title)) → P (rule "-") →
  emits (Drawing.report (top :: rest)) P.
Proof.
  intros Hs Hh Hr. unfold Drawing.report.
  rewrite (filter_cons_True _ top rest) by done. cbn [nonempty negb andb].
  apply emits_bind.
  { apply emits_bind; [by apply emits_print|intros _].
    apply emits_bind; [by apply emits_print|intros _]. by apply emits_show_scores. }
  intros _. apply emits_bind; [|intros _; apply emits_ret].
  destruct (nonempty _); [|apply emits_ret].
  apply emits_bind; [by apply emits_print|intros _].
  apply emits_bind; [by apply emits_print|intros _]. by apply emits_show_scores.
Qed.

Lemma standings_nil colour winning_numbers is_latest_draw p :
  standings colour [] winning_numbers is_latest_draw p = [].
Proof. done. Qed.

Lemma standings_cons colour row roster winning_numbers is_latest_draw p :
  ∃ top rest, standings colour (row :: roster) winning_numbers is_latest_draw p = top :: rest.
Proof.
  destruct (standings _ _ _ _ _) as [|top rest] eqn:E; [|by eexists _, _].
  assert (length (standings colour (row :: roster) winning_numbers is_latest_draw p)
          = length (row :: roster)) as Hl.
  { unfold standings. rewrite sort_reverse_perm. unfold check_rows.
    by rewrite !length_fmap. }
  by rewrite E in Hl.
Qed.

Lemma update_progress_saves player_results draw_date w :
  let p := {| players := update_players (players (progress w)) player_results;
              processed_draws := update_draws (processed_draws (progress w)) draw_date |} in
  update_progress player_results draw_date w
  = (Ret (),
     if writable (env w)
     then set_progress_json (JSONObject (Some (players p)) (Some (processed_draws p)))
            (set_progress p w)
     else set_stdout (stdout w ++ [Msg "Error saving progress file"]) (set_progress p w)).
Proof.
  unfold update_progress, bind, modify, save_progress, print, modify. simpl.
  by destruct (writable (env w)).
Qed.

Lemma lottery_init_reads_the_file w w' :
  progress_json w = progress_json w' →
  (Lottery.init w).1 = (Lottery.init w').1 ∧
  progress (Lottery.init w).2 = progress (Lottery.init w').2.
Proof.
  unfold Lottery.init, Lottery.load_progress, bind, modify, print; simpl.
  intros <-. by destruct (progress_json w).
Qed.

Lemma sorted_names_increasing (X : gset string) :
  StronglySorted (strict String.le) (sorted_names (elements X)).
Proof.
  unfold sorted_names.
  assert (StronglySorted String.le (merge_sort String.le (elements X))) as Hs.
  { apply StronglySorted_merge_sort; apply _. }
  assert (NoDup (merge_sort String.le (elements X))) as Hnd.
  { rewrite merge_sort_Permutation. apply NoDup_elements. }
  revert Hs Hnd. generalize (merge_sort String.le (elements X)). intros l Hs.
  induction Hs as [|x l Hs IH Hx]; intros Hnd; [constructor|].
  apply NoDup_cons in Hnd as [Hx' Hnd]. constructor; [by apply IH|].
  rewrite Forall_forall in Hx |- *. intros y Hy. split; [by apply Hx|].
  intros Hyx. assert (x = y) as -> by (apply (anti_symm String.le); [by apply Hx|done]).
  done.
Qed.

Lemma dom_member_results participants_df ps family_members :
  dom (FutureWinners.member_results participants_df ps family_members)
  = list_to_set (Name <$> family_members).
Proof.
  unfold FutureWinners.member_results.
  induction family_members as [|row rows IH] using rev_ind; [apply dom_empty_L|].
  rewrite foldl_app. simpl. rewrite dom_insert_L, IH, fmap_app, list_to_set_app_L. simpl.
  set_solver.
Qed.

Lemma future_headers_app o1 o2 :
  future_headers (o1 ++ o2) = future_headers o1 ++ future_headers o2.
Proof. apply omap_app. Qed.

Lemma print_members_run (m : gmap string FutureWinners.member_result) names w :
  (∀ name, name ∈ names → is_Some (m !! name)) →
  ∃ out, for_each names
           (λ member_name,
              match m !! member_name with
              | Some r => FutureWinners.print_member member_name r
              | None => raise KeyError
              end) w = (Ret (), set_stdout (stdout w ++ out) w) ∧
         future_headers out = names.
Proof.
  revert w. induction names as [|name names IH]; intros w Hin.
  - exists []. by rewrite set_stdout_nil.
  - simpl. unfold bind at 1.
    destruct (Hin name) as [r Hr]; [apply list_elem_of_here|]. rewrite Hr.
    assert (∃ o, FutureWinners.print_member name r w
                 = (Ret (), set_stdout (stdout w ++ o) w) ∧ future_headers o = [name])
      as (o1 & -> & H1).
    { unfold FutureWinners.print_member, bind, print, modify. simpl.
      destruct (nonempty _); simpl; eexists; rewrite <- !app_assoc; by split. }
    destruct (IH (set_stdout (stdout w ++ o1) w)) as (o2 & -> & H2).
    { intros n Hn. apply Hin. by apply list_elem_of_further. }
    exists (o1 ++ o2). rewrite set_stdout_app. split; [done|].
    by rewrite future_headers_app, H1, H2.
Qed.

Lemma list_ascii_of_string_of_list cs :
  String.list_ascii_of_string (String.string_of_list_ascii cs) = cs.
Proof. induction cs as [|c cs IH]; simpl; by rewrite ?IH. Qed.

Lemma digit_not_special c :
  Re.d c = true →
  Ascii.eqb c "_" = false ∧ Ascii.eqb c "+" = false ∧ Ascii.eqb c "-" = false ∧
  is_Some (Py.digit c).
Proof.
  unfold Re.d. intros H%bool_decide_eq_true. split_and!; [..|done];
    destruct (Ascii.eqb_spec c "_"), (Ascii.eqb_spec c "+"), (Ascii.eqb_spec c "-");
    try done; subst; by destruct H.
Qed.

Lemma int_digits_total cs acc after_digit :
  Forall (λ c, Re.d c = true) cs → cs ≠ [] ∨ after_digit = true →
  is_Some (Py.int_digits acc after_digit cs).
Proof.
  intros Hd. revert acc after_digit.
  induction Hd as [|c cs Hc _ IH]; intros acc after_digit Hne; simpl.
  - destruct Hne as [?| ->]; done.
  - destruct (digit_not_special c Hc) as (-> & _ & _ & [n ->]). apply IH. by right.
Qed.

Lemma int_total cs :
  Forall (λ c, Re.d c = true) cs → cs ≠ [] →
  is_Some (Py.int (String.string_of_list_ascii cs)).
Proof.
  intros Hd Hne. unfold Py.int. rewrite list_ascii_of_string_of_list.
  destruct cs as [|c cs]; [done|].
  destruct (digit_not_special c) as (_ & -> & -> & _); [by inversion Hd|].
  apply int_digits_total; [done|by left].
Qed.

Lemma findall_digits_chars_tokens cur cs :
  Forall (λ c, Re.d c = true) cur →
  Forall (λ tok, Forall (λ c, Re.d c = true) tok ∧ tok ≠ [])
         (Re.findall_digits_chars cur cs).
Proof.
  revert cur. induction cs as [|c cs IH]; intros cur Hcur; simpl.
  - destruct (decide (cur = [])) as [|Hne]; [constructor|].
    apply Forall_singleton. split; [by apply Forall_reverse|].
    intros Hr. apply Hne. by rewrite <- (reverse_involutive cur), Hr.
  - destruct (Re.d c) eqn:Hc; [apply IH; by constructor|].
    destruct (decide (cur = [])) as [|Hne]; [by apply IH|].
    constructor; [|by apply IH]. split; [by apply Forall_reverse|].
    intros Hr. apply Hne. by rewrite <- (reverse_involutive cur), Hr.
Qed.

Lemma int_findall_digits text n :
  ∃ numbers, mapM Py.int (take n (Re.findall_digits text)) = Some numbers ∧
             length numbers = length (take n (Re.findall_digits text)).
Proof.
  assert (is_Some (mapM Py.int (take n (Re.findall_digits text)))) as [numbers H].
  { apply mapM_is_Some. apply Forall_take. unfold Re.findall_digits.
    apply Forall_fmap. eapply Forall_impl; [by apply findall_digits_chars_tokens|].
    intros tok [Hd Hne]. by apply int_total. }
  exists numbers. split; [done|]. symmetry. by eapply length_mapM.
Qed.

Lemma import_line_importing n st line :
  importing n st → ∃ st', PdfParser.import_line st line = Some st' ∧ importing (S n) st'.
Proof.
  intros (Hten & Hlast & Hlen). unfold PdfParser.import_line.
  assert (importing (S n) st) as Hst by (split_and!; [done..|lia]).
  destruct (PdfParser.skipped line); [by exists st|].
  destruct (PdfParser.match_row line) as [[group1 group2]|].
  - destruct (Py.len _ =? 10) eqn:E; [|by exists st].
    destruct (int_findall_digits group2 10) as (numbers & -> & Hn). simpl.
    eexists. split; [done|]. split_and!; simpl.
    + apply Forall_app. split; [done|]. apply Forall_singleton. simpl.
      apply Z.eqb_eq in E. unfold Py.len in E. lia.
    + intros _. by destruct (PdfParser.participants st).
    + rewrite length_app. simpl. lia.
  - destruct (PdfParser.last_name st) as [last|] eqn:El; [|by exists st].
    destruct (decide (last = "")); [by exists st|].
    unfold PdfParser.rename_last.
    destruct (reverse (PdfParser.participants st)) as [|p before] eqn:Er.
    { exfalso. apply Hlast; [by eexists|].
      apply (f_equal reverse) in Er. by rewrite reverse_involutive in Er. }
    simpl. eexists. split; [done|].
    assert (PdfParser.participants st = reverse before ++ [p]) as Hp.
    { apply (f_equal reverse) in Er. by rewrite reverse_involutive, reverse_cons in Er. }
    rewrite Hp in Hten, Hlen. apply Forall_app in Hten as [Hb Hp']. split_and!; simpl.
    + apply Forall_app. split; [done|]. apply Forall_singleton. simpl.
      by inversion Hp'.
    + intros _. by destruct (reverse before).
    + rewrite length_app in *. simpl in *. lia.
Qed.

Lemma import_lines_importing lines n st :
  importing n st →
  ∃ st', PdfParser.import_lines st lines = Some st' ∧ importing (n + length lines) st'.
Proof.
  unfold PdfParser.import_lines. revert n st.
  induction lines as [|line lines IH]; intros n st Hst.
  - exists st. split; [done|]. by rewrite Nat.add_0_r.
  - simpl. destruct (import_line_importing n st line Hst) as (st1 & -> & H1).
    destruct (IH _ _ H1) as (st' & -> & H'). exists st'. split; [done|].
    by rewrite <- Nat.add_succ_comm.
Qed.

Lemma nonempty_sorted_names (X : gset string) :
  nonempty (sorted_names (elements X)) = bool_decide (X ≠ ∅).
Proof.
  destruct (sorted_names (elements X)) as [|n l] eqn:E; simpl.
  - symmetry. apply bool_decide_eq_false. intros HX. apply HX.
    apply leibniz_equiv, elements_empty_inv. apply Permutation_nil_r.
    by rewrite <- E; unfold sorted_names; rewrite merge_sort_Permutation.
  - symmetry. apply bool_decide_eq_true. intros ->.
    assert (n ∈ sorted_names (elements (∅ : gset string))) as Hn
      by (rewrite E; apply list_elem_of_here).
    apply elem_of_sorted_names in Hn. by rewrite elements_empty in Hn.
Qed.

Lemma parse_input_from_skips prompt pre lines out :
  Forall rejected pre →
  ∃ out', parse_input_from prompt (pre ++ lines) out = parse_input_from prompt lines out'.
Proof.
  intros H. revert out. induction H as [|line pre [complaint Hc] _ IH]; intros out.
  - by exists out.
  - simpl. rewrite Hc. apply IH.
Qed.

(** [parse_input] past the lines it complains about. *)
Lemma parse_input_with_answer prompt pre line rest w :
  stdin w = pre ++ line :: rest → Forall rejected pre →
  (∀ complaint, check_line line ≠ Reject complaint) →
  ∃ out, parse_input_with prompt w
         = (Ret (match check_line line with Accept numbers => Some numbers | _ => None end),
            set_stdout out (set_stdin rest w)).
Proof.
  intros Hin Hpre Hline. unfold parse_input_with. rewrite Hin.
  destruct (parse_input_from_skips prompt pre (line :: rest) (stdout w) Hpre) as (out' & ->).
  simpl. destruct (check_line line) as [|complaint|numbers]; [by eexists| |by eexists].
  by destruct (Hline complaint).
Qed.

(** The start of drawing.py's [main], where the progress loads and the
    participants file exists: the world at the prompt. *)
Lemma drawing_main_to_prompt roster w :
  participants_csv (env w) = Some roster → (Drawing.init w).1 = Ret () →
  ∃ w2, (Drawing.init ;;; Drawing.process_all_unprocessed_draws) w
        = (Ret (nonempty (unprocessed_draws (Drawing.init w).2)), w2) ∧
        env w2 = env w ∧ trekking_csv w2 = Some (ledger w) ∧ stdin w2 = stdin w ∧
        progress w2 = progress_after roster (unprocessed_draws (Drawing.init w).2)
                        (progress (Drawing.init w).2).
Proof.
  intros Hr Hinit. destruct (drawing_init_returns w Hinit) as [He Hi].
  pose proof (proj1 (untouched_drawing_init w)) as Hl.
  unfold bind at 1. destruct (Drawing.init w) as [[[]|e] w1]; [|done]. simpl in *.
  destruct (process_all_unprocessed_draws_run roster w1) as (w2 & -> & He2 & Ht2 & Hi2 & Hp2 & _);
    [by rewrite He|].
  exists w2. split; [done|]. by rewrite He2, Ht2, Hi2, He, Hl, Hi.
Qed.

Lemma emits_print_each {A} (l : list A) (line : A → output) :
  emits (for_each l (λ x, print (line x))) (λ _, True).
Proof. apply emits_for_each. intros x. by apply emits_print. Qed.

(** [show_current_standings], where the participants file exists. *)
Lemma show_current_standings_run roster w :
  participants_csv (env w) = Some roster →
  ∃ w', Lottery.show_current_standings w = (Ret (), w') ∧
        env w' = env w ∧ trekking_csv w' = Some (ledger w) ∧ stdin w' = stdin w ∧
        progress w' = match last (ledger w) with
                      | Some latest =>
                          fold_progress roster (Py.sorted (number latest)) (date latest)
                            (progress w)
                      | None => progress w
                      end.
Proof.
  intros Hr. unfold Lottery.show_current_standings, bind, read_trekking, ledger.
  destruct (trekking_csv w) as [rows|] eqn:Et; simpl.
  - destruct (last rows) as [latest|].
    + destruct (lottery_check_participants_folds roster (Py.sorted (number latest))
                  (date latest) true w Hr) as (w' & -> & F).
      exists w'. split; [done|].
      by rewrite (folded_env _ _ _ _ _ _ _ F), (folded_stdin _ _ _ _ _ _ _ F),
                 (folded_trekking _ _ _ _ _ _ _ F), (folded_progress _ _ _ _ _ _ _ F).
    + eexists. split; [done|]. by simpl.
  - eexists. split; [done|]. by simpl.
Qed.

(** [get_draw_date] on a line that is empty or a date pandas accepts. *)
Lemma get_draw_date_answer suggested date_line rest w :
  next_date (env w) (date <$> last (ledger w)) = Some suggested →
  stdin w = date_line :: rest →
  Py.strip date_line = "" ∨ valid_date (env w) (Py.strip date_line) = true →
  ∃ out, Lottery.get_draw_date w
         = (Ret (if decide (Py.strip date_line = "") then suggested else Py.strip date_line),
            set_stdout out (set_stdin rest (set_trekking_csv (Some (ledger w)) w))).
Proof.
  intros Hnext Hin Hline. unfold Lottery.get_draw_date, bind, read_trekking, get, ledger in *.
  destruct (trekking_csv w) as [rows|] eqn:Et; simpl in *; rewrite Hnext; simpl;
    rewrite Hin; simpl.
  - destruct (decide (Py.strip date_line = "")) as [|Hne].
    + eexists. f_equal. by rewrite (set_trekking_csv_same w rows).
    + destruct Hline as [?| ->]; [done|]. eexists. f_equal.
      by rewrite (set_trekking_csv_same w rows).
  - destruct (decide (Py.strip date_line = "")) as [|Hne]; [by eexists|].
    destruct Hline as [?| ->]; [done|]. by eexists.
Qed.


(** [get_missing_numbers_info] reads the two files only. *)
Lemma get_missing_numbers_info_frame player_name winning_numbers o w :
  (Lottery.get_missing_numbers_info player_name winning_numbers (set_stdout o w)).1
  = (Lottery.get_missing_numbers_info player_name winning_numbers w).1.
Proof.
  unfold Lottery.get_missing_numbers_info, bind, print, modify, ret. simpl.
  destruct (participants_csv (env w)) as [roster|]; [|done].
  destruct (progress_json w) as [| | | |[ps|] sd]; try done;
    by destruct (filter _ roster).
Qed.

Lemma get_missing_numbers_info_run player_name winning_numbers w :
  ∃ r out, Lottery.get_missing_numbers_info player_name winning_numbers w
           = (Ret r, set_stdout (stdout w ++ out) w) ∧
           (out = [] ∨ out = [Msg "Error analyzing missing numbers"]).
Proof.
  unfold Lottery.get_missing_numbers_info, bind, print, modify, ret.
  assert (∀ r : option (list Z * Z), ∃ r' out,
            (Ret r, w) = (Ret r', set_stdout (stdout w ++ out) w) ∧
            (out = [] ∨ out = [Msg "Error analyzing missing numbers"])) as Hq.
  { intros r. exists r, []. rewrite set_stdout_nil. split; [done|by left]. }
  destruct (participants_csv (env w)) as [roster|]; [|apply Hq].
  destruct (progress_json w) as [| | | |[ps|] sd]; simpl; try apply Hq;
    try (by eexists None, _; split; [|right]);
    destruct (filter _ roster); try apply Hq; by eexists None, _; split; [|right].
Qed.

Lemma get_missing_numbers_info_some player_name winning_numbers w info :
  (Lottery.get_missing_numbers_info player_name winning_numbers w).1 = Ret (Some info) →
  Lottery.get_missing_numbers_info player_name winning_numbers w = (Ret (Some info), w).
Proof.
  unfold Lottery.get_missing_numbers_info, bind, print, modify, ret.
  destruct (participants_csv (env w)) as [roster|]; [|by intros [= ]].
  destruct (progress_json w) as [| | | |[ps|] sd]; simpl; try (by intros [= ]);
    destruct (filter _ roster); try (by intros [= ]).
  by intros [= ->].
Qed.

(** The lines of the family block that tell the missing numbers are
    computed in the world the block starts in. *)
Lemma show_family_scores_missing_info winning_numbers rs w :
  ∃ out, Lottery.show_family_scores winning_numbers rs w
         = (Ret (), set_stdout (stdout w ++ out) w) ∧
         ∀ missing_nums winner_count, MissingInfo missing_nums winner_count ∈ out →
           ∃ r, r ∈ rs ∧
                (Lottery.get_missing_numbers_info (r_name r) winning_numbers w).1
                = Ret (Some (missing_nums, winner_count)).
Proof.
  unfold Lottery.show_family_scores. revert w.
  induction rs as [|r rs IH]; intros w.
  - exists []. rewrite set_stdout_nil. split; [done|]. by intros m k Ho%elem_of_nil.
  - cbn [for_each]. unfold bind at 1. unfold bind at 1.
    assert (∃ o1, print_score r w = (Ret (), set_stdout (stdout w ++ [o1]) w) ∧
                  score_line o1) as (o1 & -> & H1).
    { unfold print_score, print, modify. destruct (0 <? r_new r); by eexists. }
    set (w1 := set_stdout _ w). unfold bind at 1.
    destruct (get_missing_numbers_info_run (r_name r) winning_numbers w1)
      as (info & o2 & E2 & H2).
    pose proof (get_missing_numbers_info_frame (r_name r) winning_numbers
                  (stdout w ++ [o1]) w) as Hframe.
    fold w1 in Hframe. rewrite E2 in Hframe. simpl in Hframe. rewrite E2.
    set (w2 := set_stdout _ w1).
    assert (∀ w0, ∃ o3,
              (match info with
               | Some (missing_nums, winner_count) =>
                   print (MissingInfo missing_nums winner_count)
               | None => ret ()
               end ;;; print_winner r) w0 = (Ret (), set_stdout (stdout w0 ++ o3) w0) ∧
              ∀ m k, MissingInfo m k ∈ o3 → info = Some (m, k)) as Hstep.
    { intros w0. unfold bind, print_winner, print, modify, ret.
      destruct info as [[m k]|], (10 <=? r_total r); simpl.
      - exists [MissingInfo m k; Winner (r_name r)]. split.
        + f_equal. unfold set_stdout. simpl. f_equal. by rewrite <- app_assoc.
        + intros m' k'. rewrite !elem_of_cons, elem_of_nil. naive_solver.
      - exists [MissingInfo m k]. split; [done|].
        intros m' k'. rewrite !elem_of_cons, elem_of_nil. naive_solver.
      - exists [Winner (r_name r)]. split; [done|].
        intros m' k'. rewrite !elem_of_cons, elem_of_nil. naive_solver.
      - exists []. rewrite set_stdout_nil. split; [done|].
        intros m' k'. rewrite elem_of_nil. naive_solver. }
    destruct (Hstep w2) as (o3 & -> & H3).
    destruct (IH (set_stdout (stdout w2 ++ o3) w2)) as (o4 & -> & H4).
    exists ([o1] ++ o2 ++ o3 ++ o4). split.
    { unfold w2, w1. rewrite !set_stdout_app. by rewrite <- ?app_assoc. }
    intros m k. rewrite !elem_of_app, list_elem_of_singleton.
    intros [<-|[Ho|[Ho|Ho]]].
    + done.
    + destruct H2 as [-> | ->]; [by apply elem_of_nil in Ho|].
      by apply list_elem_of_singleton in Ho.
    + exists r. split; [apply list_elem_of_here|]. by rewrite <- Hframe, (H3 m k Ho).
    + destruct (H4 m k Ho) as (r' & Hr' & Hm).
      exists r'. split; [by apply list_elem_of_further|].
      rewrite <- Hm. unfold w2, w1. by rewrite !get_missing_numbers_info_frame.
Qed.

Lemma lottery_report_missing_info winning_numbers results w :
  ∃ out, Lottery.report winning_numbers results w
         = (Ret (), set_stdout (stdout w ++ out) w) ∧
         ∀ missing_nums winner_count, MissingInfo missing_nums winner_count ∈ out →
           is_Some (family (env w)) ∧
           ∃ r, r ∈ results ∧
                (Lottery.get_missing_numbers_info (r_name r) winning_numbers w).1
                = Ret (Some (missing_nums, winner_count)).
Proof.
  unfold Lottery.report. destruct results as [|top rest].
  { exists []. rewrite set_stdout_nil. split; [done|]. by intros m k Ho%elem_of_nil. }
  unfold bind at 1. unfold Lottery.get_filter_family. unfold bind at 1.
  unfold get at 1. unfold ret at 1. cbn beta iota.
  fold (family (env w)). set (results := top :: rest).
  set (high := filter _ results).
  assert (∃ o1, (if nonempty high
                 then print (Heading "Highest Scorers") ;;; print (rule "-") ;;;
                      show_scores high
                 else ret ()) w = (Ret (), set_stdout (stdout w ++ o1) w) ∧
                ∀ m k, MissingInfo m k ∉ o1) as (o1 & E1 & H1).
  { assert (emits (if nonempty high
                   then print (Heading "Highest Scorers") ;;; print (rule "-") ;;;
                        show_scores high
                   else ret ()) (λ o, ∀ m k, o ≠ MissingInfo m k)) as Hem.
    { destruct (nonempty high); [|apply emits_ret].
      apply emits_bind; [by apply emits_print|intros _].
      apply emits_bind; [by apply emits_print|intros _].
      apply emits_show_scores. by intros []. }
    destruct (Hem w) as ([] & o1 & E1 & Hall). exists o1. split; [done|].
    intros m k Hin. rewrite Forall_forall in Hall. by apply (Hall _ Hin m k). }
  unfold bind at 1. rewrite E1.
  destruct (family (env w)) as [f|] eqn:Ef; simpl.
  2: { exists o1. split; [done|]. intros m k Hin. by destruct (H1 m k). }
  set (fam := filter _ results).
  destruct (nonempty fam) eqn:Hne.
  2: { exists o1. split; [done|]. intros m k Hin. by destruct (H1 m k). }
  unfold bind at 1, bind at 1. unfold print at 1 2. unfold modify.
  match goal with |- context [Lottery.show_family_scores _ fam ?w0] =>
    destruct (show_family_scores_missing_info winning_numbers fam w0)
      as (o2 & -> & H2) end.
  eexists (o1 ++ [_; _] ++ o2). split.
  { f_equal. unfold set_stdout. simpl. f_equal. by rewrite <- !app_assoc. }
  intros m k. rewrite !elem_of_app, !elem_of_cons, elem_of_nil.
  intros [Hin|[[Hin|[Hin|[]]]|Hin]]; [by destruct (H1 m k)|done|done|].
  split; [by eexists|].
  destruct (H2 m k Hin) as (r & Hr & Hm). exists r. split.
  - by apply list_elem_of_filter in Hr as [_ ?].
  - by rewrite !get_missing_numbers_info_frame in Hm.
Qed.


Lemma show_scores_lines rs w :
  ∃ out, show_scores rs w = (Ret (), set_stdout (stdout w ++ out) w) ∧
         ∀ o, o ∈ out ↔ ∃ r, r ∈ rs ∧ (o = score_of r ∨
                                        (o = Winner (r_name r) ∧ 10 ≤ r_total r)).
Proof.
  unfold show_scores. revert w. induction rs as [|r rs IH]; intros w.
  - exists []. rewrite set_stdout_nil. split; [done|]. intros o.
    rewrite elem_of_nil. split; [done|]. by intros (r & Hr%elem_of_nil & _).
  - cbn [for_each]. unfold bind at 1.
    assert (∃ o1, (print_score r ;;; print_winner r) w
                  = (Ret (), set_stdout (stdout w ++ o1) w) ∧
                  ∀ o, o ∈ o1 ↔ o = score_of r ∨ (o = Winner (r_name r) ∧ 10 ≤ r_total r))
      as (o1 & -> & H1).
    { unfold bind, print_score, print_winner, print, modify, ret, score_of.
      destruct (10 <=? r_total r) eqn:E10; [apply Z.leb_le in E10|apply Z.leb_gt in E10];
        destruct (0 <? r_new r).
      - exists [ScoreNew (r_name r) (r_str r) (r_total r) (r_new r); Winner (r_name r)].
        split; [f_equal; unfold set_stdout; simpl; f_equal; by rewrite <- app_assoc|].
        intros o. rewrite !elem_of_cons, elem_of_nil. naive_solver.
      - exists [Score (r_name r) (r_str r) (r_total r); Winner (r_name r)].
        split; [f_equal; unfold set_stdout; simpl; f_equal; by rewrite <- app_assoc|].
        intros o. rewrite !elem_of_cons, elem_of_nil. naive_solver.
      - exists [ScoreNew (r_name r) (r_str r) (r_total r) (r_new r)].
        split; [done|]. intros o. rewrite !elem_of_cons, elem_of_nil.
        split; [naive_solver|]. intros [?|[_ ?]]; [by left|lia].
      - exists [Score (r_name r) (r_str r) (r_total r)].
        split; [done|]. intros o. rewrite !elem_of_cons, elem_of_nil.
        split; [naive_solver|]. intros [?|[_ ?]]; [by left|lia]. }
    destruct (IH (set_stdout (stdout w ++ o1) w)) as (o2 & -> & H2).
    exists (o1 ++ o2). rewrite set_stdout_app. split; [done|].
    intros o. rewrite elem_of_app, H1, H2. split.
    + intros [Ho|(r' & Hr' & Ho)].
      * exists r. split; [apply list_elem_of_here|done].
      * exists r'. split; [by apply list_elem_of_further|done].
    + intros (r' & [->|Hr']%elem_of_cons & Ho); [by left|right]. by exists r'.
Qed.

Lemma score_of_is_score r : score_line (score_of r) ∧ ∀ n, score_of r ≠ Winner n.
Proof. unfold score_of. by destruct (0 <? r_new r). Qed.

Lemma score_of_eq r r' :
  score_of r = score_of r' → r_name r = r_name r' ∧ r_total r = r_total r'.
Proof. unfold score_of. destruct (0 <? r_new r), (0 <? r_new r'); by intros [= ]. Qed.

Lemma drawing_report_lines top rest w :
  ∃ out, Drawing.report (top :: rest) w = (Ret (), set_stdout (stdout w ++ out) w) ∧
         ∀ r, score_of r ∈ out ↔
              ∃ r', r' ∈ shown_drawing (top :: rest) ∧ score_of r = score_of r'.
Proof.
  unfold Drawing.report, shown_drawing.
  set (hs := filter (λ r, r_total r = r_total top) (top :: rest)).
  set (bs := filter (λ r, Py.startswith (r_name r) "Brink" = true) (top :: rest)).
  assert (Hsec : ∀ title rs w0, ∃ out,
    (if nonempty rs then print (Heading title) ;;; print (rule "-") ;;; show_scores rs
     else ret ()) w0 = (Ret (), set_stdout (stdout w0 ++ out) w0) ∧
    ∀ r, score_of r ∈ out ↔ ∃ r', r' ∈ rs ∧ score_of r = score_of r').
  { intros title rs w0. destruct rs as [|r0 rs]; cbn [nonempty].
    - exists []. rewrite set_stdout_nil. split; [done|]. intros r.
      rewrite elem_of_nil. split; [done|]. by intros (? & ?%elem_of_nil & _).
    - unfold bind at 1. unfold print at 1. unfold modify at 1.
      unfold bind at 1. unfold print at 1. unfold modify at 1.
      match goal with |- context [show_scores ?l ?w1] =>
        destruct (show_scores_lines l w1) as (o & -> & Ho) end.
      exists ([Heading title; rule "-"] ++ o). split.
      { f_equal. unfold set_stdout. simpl. f_equal. by rewrite <- !app_assoc. }
      intros r. destruct (score_of_is_score r) as [_ Hw].
      rewrite elem_of_app, !elem_of_cons, elem_of_nil, Ho. split.
      + intros [[H|[H|[]]]|(r' & Hr' & [H|[H _]])].
        * unfold score_of in H. by destruct (0 <? r_new r).
        * unfold score_of, rule in H. by destruct (0 <? r_new r).
        * by exists r'.
        * by destruct (Hw _ H).
      + intros (r' & Hr' & H). right. exists r'. split; [done|by left]. }
  unfold bind at 1. destruct (Hsec "Highest Scorers" hs w) as (o1 & -> & H1).
  unfold bind at 1.
  destruct (Hsec "Brink Family Results" bs (set_stdout (stdout w ++ o1) w))
    as (o2 & -> & H2).
  assert (nonempty hs = true) as ->.
  { assert (top ∈ hs) as Hin by (apply list_elem_of_filter; split; [done|apply list_elem_of_here]).
    by destruct hs; [apply elem_of_nil in Hin|]. }
  cbn [negb andb]. unfold ret. exists (o1 ++ o2). rewrite set_stdout_app. split; [done|].
  intros r. rewrite elem_of_app, H1, H2. setoid_rewrite elem_of_app. naive_solver.
Qed.

Lemma highest_iff_head top rest r :
  StronglySorted (flip tuple_le) (top :: rest) → r ∈ top :: rest →
  r_total r = r_total top ↔ ∀ r', r' ∈ top :: rest → r_total r' ≤ r_total r.
Proof.
  intros Hs Hr. split.
  - intros -> r' Hr'. by apply (head_is_highest top rest).
  - intros Hmax. pose proof (head_is_highest top rest r Hs Hr).
    pose proof (Hmax top (list_elem_of_here _ _)). lia.
Qed.

Lemma elem_of_shown_drawing results r : r ∈ shown_drawing results → r ∈ results.
Proof.
  unfold shown_drawing. destruct results as [|top rest]; [done|].
  by intros [[_ ?]%list_elem_of_filter|[_ ?]%list_elem_of_filter]%elem_of_app.
Qed.

Lemma elem_of_shown_lottery filter_family results r :
  r ∈ shown_lottery filter_family results → r ∈ results.
Proof.
  unfold shown_lottery. destruct results as [|top rest]; [done|].
  intros [[_ ?]%list_elem_of_filter|H]%elem_of_app; [done|].
  destruct filter_family; [by apply list_elem_of_filter in H as [_ ?]|].
  by apply elem_of_nil in H.
Qed.

(** Over uniquely named rows a name has one tuple in the standings. *)
Lemma standings_unique_name colour roster winning_numbers is_latest_draw p r r' :
  NoDup (Name <$> roster) →
  r ∈ standings colour roster winning_numbers is_latest_draw p →
  r' ∈ standings colour roster winning_numbers is_latest_draw p →
  r_name r = r_name r' → r = r'.
Proof.
  intros Hnd (row & Hrow & ->)%elem_of_standings (row' & Hrow' & ->)%elem_of_standings Hn.
  by rewrite (unique_name roster row row' Hnd Hrow Hrow' Hn).
Qed.

(** Over a well-formed roster the winner lines tell who has 10 or more. *)
Lemma winner_line_iff_ten colour roster winning_numbers is_latest_draw p
    (shown : list result → list result) (out : list output) r :
  let results := standings colour roster winning_numbers is_latest_draw p in
  well_formed roster → kept roster (players p) →
  (∀ r, r ∈ shown results → r ∈ results) →
  (∀ r, r ∈ results → 10 ≤ r_total r → r ∈ shown results) →
  (∀ n, Winner n ∈ out ↔ wins (shown results) n) →
  r ∈ results → Winner (r_name r) ∈ out ↔ 10 ≤ r_total r.
Proof.
  intros results Hwf Hk Hsub Hten Hw Hr. rewrite Hw. split.
  - intros (r' & Hr' & Hn & H10).
    by rewrite (standings_unique_name colour roster winning_numbers is_latest_draw p
                  r r' (proj1 Hwf) Hr (Hsub r' Hr') (eq_sym Hn)).
  - intros H10. exists r. split; [by apply Hten|done].
Qed.

Lemma lottery_init_files w :
  trekking_csv (Lottery.init w).2 = trekking_csv w.
Proof.
  unfold Lottery.init, Lottery.load_progress, bind, modify, print.
  destruct w as [e p j t i o f]. simpl. by destruct j.
Qed.

Lemma start_new_lottery_run pdf_path pdf w :
  ∃ started w', Lottery.start_new_lottery pdf_path pdf w = (Ret started, w') ∧
    if started then trekking_csv w' = None ∧ progress w' = empty_progress
    else trekking_csv w' = trekking_csv w ∧ progress w' = progress w.
Proof.
  destruct pdf as [| |pages].
  - by exists false; eexists.
  - by exists false; eexists.
  - unfold Lottery.start_new_lottery, Lottery.parse_pdf_lottery_data.
    destruct (PdfParser.parse_pdf_lottery_data pages) as [participants|];
      [|by exists false; eexists].
    set (first := for_each _ _).
    unfold Lottery.save_participants_to_csv, bind, modify, print, modify, save_progress, ret.
    cbn [env set_participants_csv set_progress writable].
    exists true.
    destruct (writable (env w)); simpl;
      match goal with |- context [first ?w0] =>
        destruct (emits_print_each (take 10 participants)
                    (λ p, Msg ("  " +:+ Name p +:+ ": " +:+ Py.str_list (Number p))) w0)
          as ([] & o1 & E1 & _) end;
      unfold first; rewrite E1; eexists; by split.
Qed.

(** What a run with a PDF argument does to the ledger and to the
    progress: reset when it ends with status 0, as [LotteryManager()] left
    them otherwise. *)
Lemma main_pdf_run pdf_path pdf w :
  let run := Lottery.main_pdf pdf_path pdf w in
  match run.1 with
  | Ret 0 => trekking_csv run.2 = None ∧ progress run.2 = empty_progress
  | _ => trekking_csv run.2 = trekking_csv w ∧
         progress run.2 = progress (Lottery.init w).2
  end.
Proof.
  intros run. pose proof (lottery_init_files w) as Hinit.
  assert (run = match Lottery.init w with
                | (Ret _, w1) =>
                    match Lottery.start_new_lottery pdf_path pdf w1 with
                    | (Ret true, w2) =>
                        (Ret 0, set_stdout
                                  (stdout w2 ++ [Msg "New lottery run started successfully!"])
                                  w2)
                    | (Ret false, w2) => (Ret 1, w2)
                    | (Raise e, w2) => (Raise e, w2)
                    end
                | (Raise e, w1) => (Raise e, w1)
                end) as ->.
  { unfold run, Lottery.main_pdf, bind. destruct (Lottery.init w) as [[[]|e] w1]; [|done].
    by destruct (Lottery.start_new_lottery pdf_path pdf w1) as [[[]|e] w2]. }
  destruct (Lottery.init w) as [[[]|e] w1]; simpl in *; [|done].
  destruct (start_new_lottery_run pdf_path pdf w1) as ([] & w2 & -> & H1 & H2); simpl.
  - done.
  - by rewrite H1.
Qed.

(** * The claims *)

(** C1. Folding a draw a second time changes neither the players map nor
    the log of processed draws: where the participants file exists, a fold
    of [draw_date] by drawing.py's [check_participants] returns and leaves
    the date in [processed_draws], so that [get_unprocessed_draws] no longer
    lists a draw of that date, and a further fold of the same draw returns
    with the same [players] and the same [processed_draws]. *)
Theorem fold_twice_same_progress roster winning_numbers draw_date latest1 latest2 w :
  participants_csv (env w) = Some roster →
  ∃ w1 w2,
    Drawing.check_participants winning_numbers draw_date latest1 w = (Ret (), w1) ∧
    Drawing.check_participants winning_numbers draw_date latest2 w1 = (Ret (), w2) ∧
    players (progress w2) = players (progress w1) ∧
    processed_draws (progress w2) = processed_draws (progress w1) ∧
    draw_date ∈ processed_draws (progress w1) ∧
    ∀ nd, nd ∈ unprocessed_draws w1 → nd.2 ≠ draw_date.
Proof.
  intros Hr.
  destruct (drawing_check_participants_folds roster winning_numbers draw_date latest1 w Hr)
    as (w1 & E1 & F1).
  assert (Hr1 : participants_csv (env w1) = Some roster)
    by by rewrite (folded_env _ _ _ _ _ _ _ F1).
  destruct (drawing_check_participants_folds roster winning_numbers draw_date latest2 w1 Hr1)
    as (w2 & E2 & F2).
  exists w1, w2. split; [done|]. split; [done|].
  rewrite (folded_progress _ _ _ _ _ _ _ F2), (folded_progress _ _ _ _ _ _ _ F1).
  rewrite fold_progress_twice. split_and!; [done..| |].
  - apply update_draws_elem.
  - intros nd (row & -> & Hrow)%list_elem_of_fmap.
    apply list_elem_of_filter in Hrow as [Hnew _]. simpl. intros Heq. apply Hnew.
    rewrite (folded_progress _ _ _ _ _ _ _ F1), Heq. apply update_draws_elem.
Qed.

Lemma fold_twice_same_progress_witness :
  ∃ w1 w2,
    Drawing.check_participants [1; 2; 3; 11; 12; 45] "08-Jan-25" false sample_world
    = (Ret (), w1) ∧
    Drawing.check_participants [1; 2; 3; 11; 12; 45] "08-Jan-25" true w1 = (Ret (), w2) ∧
    players (progress w2) = players (progress w1) ∧
    processed_draws (progress w2) = processed_draws (progress w1) ∧
    "08-Jan-25" ∈ processed_draws (progress w1) ∧
    ∀ nd, nd ∈ unprocessed_draws w1 → nd.2 ≠ "08-Jan-25".
Proof.
  apply (fold_twice_same_progress sample_roster [1; 2; 3; 11; 12; 45] "08-Jan-25"
           false true sample_world).
  reflexivity.
Defined.

(** The same holds of lottery.py's [check_participants], which always
    returns. *)
Lemma lottery_fold_twice_same_progress winning_numbers draw_date latest1 latest2 w :
  ∃ w1 w2,
    Lottery.check_participants winning_numbers draw_date latest1 w = (Ret (), w1) ∧
    Lottery.check_participants winning_numbers draw_date latest2 w1 = (Ret (), w2) ∧
    progress w2 = progress w1.
Proof.
  destruct (participants_csv (env w)) as [roster|] eqn:Hr.
  - destruct (lottery_check_participants_folds roster winning_numbers draw_date latest1 w Hr)
      as (w1 & E1 & F1).
    assert (Hr1 : participants_csv (env w1) = Some roster)
      by by rewrite (folded_env _ _ _ _ _ _ _ F1).
    destruct (lottery_check_participants_folds roster winning_numbers draw_date latest2 w1 Hr1)
      as (w2 & E2 & F2).
    exists w1, w2. split_and!; [done..|].
    rewrite (folded_progress _ _ _ _ _ _ _ F2), (folded_progress _ _ _ _ _ _ _ F1).
    apply fold_progress_twice.
  - eexists _, _. split_and!.
    + by apply lottery_check_participants_absent.
    + by apply lottery_check_participants_absent.
    + done.
Qed.

(** C2. No fold removes a number: whatever the progress, a fold by
    lottery.py's [check_participants] returns, the numbers stored for a name
    before it are all stored after it, and so the size of the set does not
    decrease; the same holds across any sequence of folds. *)
Theorem accumulated_numbers_only_grow (name : string) (w : World) :
  (∀ winning_numbers draw_date is_latest_draw,
     ∃ w', Lottery.check_participants winning_numbers draw_date is_latest_draw w
           = (Ret (), w') ∧
           let before := get_correct_numbers (players (progress w)) name in
           let after := get_correct_numbers (players (progress w')) name in
           (∀ n, n ∈ before → n ∈ after) ∧
           Py.len_set (Py.set before) ≤ Py.len_set (Py.set after)) ∧
  (∀ draws,
     ∃ w', fold_all Lottery.check_participants draws w = (Ret (), w') ∧
           let before := get_correct_numbers (players (progress w)) name in
           let after := get_correct_numbers (players (progress w')) name in
           (∀ n, n ∈ before → n ∈ after) ∧
           Py.len_set (Py.set before) ≤ Py.len_set (Py.set after)).
Proof.
  assert (Hstep : ∀ winning_numbers draw_date is_latest_draw w0,
    ∃ w', Lottery.check_participants winning_numbers draw_date is_latest_draw w0
          = (Ret (), w') ∧
          ∀ n, n ∈ get_correct_numbers (players (progress w0)) name →
               n ∈ get_correct_numbers (players (progress w')) name).
  { intros wn d l w0.
    destruct (lottery_check_participants_progress wn d l w0) as (w' & E & _ & P).
    exists w'. split; [done|]. intros n Hn. rewrite P.
    destruct (participants_csv (env w0)); [|done]. by apply fold_progress_grows. }
  split.
  - intros wn d l. destruct (Hstep wn d l w) as (w' & E & Hall).
    exists w'. split; [done|]. simpl. split; [done|]. by apply set_size_mono.
  - intros draws. unfold fold_all.
    destruct (for_each_invariant
                (λ w', ∀ n, n ∈ get_correct_numbers (players (progress w)) name →
                            n ∈ get_correct_numbers (players (progress w')) name)
                (λ d, Lottery.check_participants d.1.1 d.1.2 d.2) draws w)
      as (w' & E & Hall); [|done|].
    + intros d w0 Hw0. destruct (Hstep d.1.1 d.1.2 d.2 w0) as (w1 & E & H1).
      exists w1. split; [done|]. intros n Hn. by apply H1, Hw0.
    + exists w'. split; [done|]. simpl. split; [done|]. by apply set_size_mono.
Qed.

Lemma accumulated_numbers_only_grow_witness :
  ∃ w', Lottery.check_participants [7; 8; 9; 10; 15; 16] "22-Jan-25" true
          sample_world_after_two = (Ret (), w') ∧
        4 ∈ get_correct_numbers (players (progress w')) "Alice".
Proof.
  destruct (proj1 (accumulated_numbers_only_grow "Alice" sample_world_after_two)
              [7; 8; 9; 10; 15; 16] "22-Jan-25" true) as (w' & E & Hall & _).
  exists w'. split; [exact E|]. apply Hall.
  assert (get_correct_numbers (players (progress sample_world_after_two)) "Alice"
          = [1; 2; 3; 4; 5; 6]) as -> by (vm_compute; reflexivity).
  do 3 apply list_elem_of_further. apply list_elem_of_here.
Defined.

(** C3, as the code has it.  [process_all_unprocessed_draws] folds the
    unprocessed draws of the ledger in ledger order; the standings of each
    fold, and with them the counts of new numbers, are computed from the
    progress the earlier folds of the pass have left; the last fold of the
    pass and no other is flagged latest, and every tuple of a fold that is
    not flagged reports 0 new numbers.  (The pass is not the whole
    invocation: [main] then folds a draw typed at the prompt, flagged
    latest as well.) *)
Theorem backlog_folded_in_order roster w :
  participants_csv (env w) = Some roster →
  let unprocessed := unprocessed_draws w in
  let before (i : nat) := progress_after roster (take i unprocessed) (progress w) in
  ∃ w' new,
    Drawing.process_all_unprocessed_draws w = (Ret (nonempty unprocessed), w') ∧
    folds w' = folds w ++ new ∧
    length new = length unprocessed ∧
    only_last_latest new ∧
    progress w' = progress_after roster unprocessed (progress w) ∧
    ∀ i nd, unprocessed !! i = Some nd →
      ∃ f, new !! i = Some f ∧
           fold_numbers f = nd.1 ∧ fold_date f = nd.2 ∧
           fold_latest f = bool_decide (S i = length unprocessed) ∧
           fold_results f
           = standings (colour (env w)) roster nd.1 (fold_latest f) (before i) ∧
           ∀ r, r ∈ fold_results f →
             ∃ row, row ∈ roster ∧ r_name r = Name row ∧
                    r_new r =
                      if fold_latest f
                      then Py.len_set
                             (Py.set (player_result nd.1 row).2 ∖
                              Py.set (get_correct_numbers (players (before i)) (Name row)))
                      else 0.
Proof.
  intros Hr unprocessed before.
  set (new := backlog_folds (colour (env w)) roster (length unprocessed) 0
                unprocessed (progress w)).
  assert (Hlookup : ∀ i nd, unprocessed !! i = Some nd →
    new !! i = Some {| fold_numbers := nd.1; fold_date := nd.2;
                       fold_latest := bool_decide (S i = length unprocessed);
                       fold_results :=
                         standings (colour (env w)) roster nd.1
                           (bool_decide (S i = length unprocessed)) (before i) |}).
  { intros i nd Hi. subst new. by rewrite (backlog_folds_lookup _ _ _ _ _ _ i nd Hi). }
  assert (Hlen : length new = length unprocessed) by apply backlog_folds_length.
  assert (Hrun : ∃ w', Drawing.process_all_unprocessed_draws w
                       = (Ret (nonempty unprocessed), w') ∧
                       folds w' = folds w ++ new ∧
                       progress w' = progress_after roster unprocessed (progress w)).
  { unfold Drawing.process_all_unprocessed_draws. unfold bind at 1.
    destruct (get_unprocessed_draws_run w) as (w1 & -> & He & Hp & Hf & _).
    fold unprocessed. unfold bind at 1.
    destruct unprocessed as [|nd ds] eqn:Eu; cbn [nonempty].
    - exists w1. by rewrite app_nil_r.
    - unfold bind at 1. unfold print at 1. unfold modify at 1.
      unfold enumerate.
      match goal with |- context [for_each _ _ ?w0] =>
        destruct (backlog_run (colour (env w)) roster (length (nd :: ds)) 0
                    (nd :: ds) w0) as (w' & E & _ & Hp' & Hf') end;
        [simpl; by rewrite He..|done|].
      unfold Py.len in *. rewrite E. exists w'. split; [done|]. simpl in Hp', Hf'.
      by rewrite Hp', Hf', Hp, Hf. }
  destruct Hrun as (w' & Hrun & Hf & Hp).
  exists w', new. split_and!; [done..| | done |].
  - intros i f Hi. rewrite Hlen.
    destruct (unprocessed !! i) as [nd|] eqn:E.
    + rewrite (Hlookup i nd E) in Hi. by injection Hi as <-.
    + apply lookup_ge_None in E. apply lookup_lt_Some in Hi. lia.
  - intros i nd Hi. eexists. split; [by apply Hlookup|]. simpl.
    split_and!; [done..|]. intros r Hin. by apply standings_new_count in Hin.
Qed.

Lemma backlog_folded_in_order_witness :
  ∃ w' new,
    Drawing.process_all_unprocessed_draws sample_world
    = (Ret (nonempty (unprocessed_draws sample_world)), w') ∧
    folds w' = folds sample_world ++ new ∧
    length new = length (unprocessed_draws sample_world) ∧
    only_last_latest new ∧
    progress w'
    = progress_after sample_roster (unprocessed_draws sample_world)
        (progress sample_world).
Proof.
  destruct (backlog_folded_in_order sample_roster sample_world eq_refl)
    as (w' & new & H1 & H2 & H3 & H4 & H5 & _).
  exists w', new. split_and!; [exact H1 | exact H2 | exact H3 | exact H4 | exact H5].
Defined.

(** The backlog of the sample world. *)
Example sample_backlog :
  unprocessed_draws sample_world
  = [([1; 2; 3; 11; 12; 45], "08-Jan-25"); ([4; 5; 6; 13; 14; 44], "15-Jan-25")].
Proof. vm_compute. reflexivity. Qed.

(** Against C3 as the specification words it: with two draws unprocessed
    and a valid draw typed at the prompt, an invocation of [main] performs
    three folds, and the last two are both flagged latest. *)
Lemma two_folds_flagged_latest :
  (Drawing.main sample_world).1 = Ret () ∧
  (λ f, (fold_date f, fold_latest f)) <$> folds (Drawing.main sample_world).2
  = [("08-Jan-25", false); ("15-Jan-25", true); ("22-Jan-25", true)] ∧
  ¬ only_last_latest (folds (Drawing.main sample_world).2).
Proof.
  assert (E : (λ f, (fold_date f, fold_latest f)) <$> folds (Drawing.main sample_world).2
              = [("08-Jan-25", false); ("15-Jan-25", true); ("22-Jan-25", true)])
    by (vm_compute; reflexivity).
  split; [vm_compute; reflexivity|]. split; [exact E|].
  revert E. generalize (folds (Drawing.main sample_world).2). intros fs E H.
  destruct fs as [|f0 [|f1 [|f2 [|f3 fs]]]]; try discriminate E.
  injection E as _ _ _ E1 _ _. specialize (H 1%nat f1 eq_refl).
  rewrite E1 in H. discriminate H.
Qed.

(** C4, as the code has it.  The report lists the tuples of the
    participants in descending order of the whole tuple: by
    [total_correct], then by [new_correct], and participants equal on both
    by name, the greater name first (and by the rendered numbers when even
    the names agree).  The order thus depends on the participants only, not
    on the order in which the roster enumerates them. *)
Theorem standings_order colour roster winning_numbers is_latest_draw p :
  let rows := (check_rows colour (players p) winning_numbers is_latest_draw roster).*1 in
  let results := standings colour roster winning_numbers is_latest_draw p in
  results ≡ₚ rows ∧
  (∀ i j a b, (i < j)%nat → results !! i = Some a → results !! j = Some b →
     r_total b < r_total a ∨
     (r_total a = r_total b ∧
      (r_new b < r_new a ∨
       (r_new a = r_new b ∧ String.le (r_name b) (r_name a))))) ∧
  (∀ roster', roster' ≡ₚ roster →
     standings colour roster' winning_numbers is_latest_draw p = results).
Proof.
  intros rows results. split_and!.
  - apply sort_reverse_perm.
  - intros i j a b Hij Ha Hb.
    pose proof (strongly_sorted_lookup _ _ i j a b
                  (sort_reverse_descending rows) Hij Ha Hb) as H.
    unfold flip, tuple_le in H.
    destruct H as [?|[Ht [?|[Hn [H|[H _]]]]]].
    + by left.
    + right. split; [done|]. by left.
    + right. split; [done|]. right. split; [done|]. by apply string_lt_le.
    + right. split; [done|]. right. split; [done|]. by rewrite H.
  - intros roster' Hperm. apply sort_reverse_unique.
    + unfold standings. rewrite sort_reverse_perm. subst rows.
      unfold check_rows. by rewrite Hperm.
    + apply sort_reverse_descending.
Qed.

Lemma standings_order_witness :
  String.le "Alice" "Brink A" ∧
  standings false (reverse sample_roster) [1; 2; 3; 11; 12; 45] false empty_progress
  = standings false sample_roster [1; 2; 3; 11; 12; 45] false empty_progress.
Proof.
  pose proof (standings_order false sample_roster [1; 2; 3; 11; 12; 45] false
                empty_progress) as (_ & Horder & Hsame).
  split.
  - destruct (Horder 0%nat 1%nat (3, 0, "Brink A", "[ 1  6  7  8  9 10 12 23 34 45]")
                (3, 0, "Alice", "[ 1  2  3  4  5  6  7  8  9 10]"))
      as [Hlt|[_ [Hlt|[_ Hle]]]].
    + lia.
    + vm_compute. reflexivity.
    + vm_compute. reflexivity.
    + vm_compute in Hlt. discriminate Hlt.
    + vm_compute in Hlt. discriminate Hlt.
    + exact Hle.
  - apply Hsame. apply reverse_Permutation.
Defined.

(** Against C4 as the specification words it: in the first fold over the
    sample roster Alice and Brink A both have 3 numbers and no new one, the
    roster enumerates Alice first, and the report lists Brink A first. *)
Lemma ties_not_in_roster_order :
  ∃ f, folds (Drawing.check_participants [1; 2; 3; 11; 12; 45] "08-Jan-25" false
                sample_world).2 = [f] ∧
       (λ r, (r_total r, r_new r, r_name r)) <$> fold_results f
         = [(3, 0, "Brink A"); (3, 0, "Alice"); (2, 0, "Bob")] ∧
       Name <$> sample_roster = ["Alice"; "Bob"; "Brink A"] ∧
       ¬ roster_order_on_ties sample_roster (fold_results f).
Proof.
  eexists. split; [vm_compute; reflexivity|]. split; [vm_compute; reflexivity|].
  split; [reflexivity|]. intros H.
  destruct (H 0%nat 1%nat _ _ ltac:(lia) eq_refl eq_refl eq_refl eq_refl)
    as (i' & j' & Hlt & Hi & Hj).
  destruct j' as [|[|[|j']]]; try discriminate Hj. lia.
Qed.

(** C5. For the participant P of a projection, the missing numbers are
    the chosen numbers of P that P's entry does not hold, listed in
    ascending order; another name q is among the potential winners exactly
    when q is not P's name and a row of q has, counting the numbers q's
    entry holds plus the missing numbers that are in that row, at least
    10; P is never among them.  This is what future_winners.py records for
    a family member of unique name, and [get_missing_numbers_info] returns
    the same missing numbers and the number of such rows. *)
Theorem projection_of_missing_numbers participants_df ps (P : participant) :
  let r := FutureWinners.analyze_member participants_df ps P in
  let missing := missing_of ps (Name P) (Number P) in
  let reaches_10 (row : participant) :=
    (10 ≤ Py.len_set (Py.set (get_correct_numbers ps (Name row))) +
          Py.len_set (missing ∩ Py.set (Number row))) in
  (∀ n, n ∈ missing ↔ n ∈ Number P ∧ n ∉ get_correct_numbers ps (Name P)) ∧
  FutureWinners.missing_numbers r = Py.sorted_set missing ∧
  (∀ n, n ∈ FutureWinners.missing_numbers r ↔
        n ∈ Number P ∧ n ∉ get_correct_numbers ps (Name P)) ∧
  (∀ q, q ∈ FutureWinners.potential_winners r ↔
        q ≠ Name P ∧ ∃ row, row ∈ participants_df ∧ Name row = q ∧ reaches_10 row) ∧
  (Name P ∉ FutureWinners.potential_winners r) ∧
  (∀ family_members, NoDup (Name <$> family_members) → P ∈ family_members →
     FutureWinners.member_results participants_df ps family_members !! Name P = Some r) ∧
  (∀ w saved_draws winning_numbers,
     participants_csv (env w) = Some participants_df →
     progress_json w = JSONObject (Some ps) saved_draws →
     head (filter (λ row, Name row = Name P) participants_df) = Some P →
     Lottery.get_missing_numbers_info (Name P) winning_numbers w
     = (Ret (Some (Py.sorted_set missing,
                   Py.len (filter (λ row, Name row ≠ Name P ∧ reaches_10 row)
                                  participants_df))), w)).
Proof.
  intros r missing reaches_10.
  assert (Hm : ∀ n, n ∈ missing ↔ n ∈ Number P ∧ n ∉ get_correct_numbers ps (Name P))
    by (intros n; apply elem_of_missing_of).
  assert (Hq : ∀ q, q ∈ FutureWinners.potential_winners r ↔
             q ≠ Name P ∧ ∃ row, row ∈ participants_df ∧ Name row = q ∧ reaches_10 row).
  { intros q. subst r. unfold FutureWinners.analyze_member. simpl.
    rewrite elem_of_sorted_names, elem_of_elements, elem_of_list_to_set, list_elem_of_fmap.
    unfold winners_if_drawn. setoid_rewrite list_elem_of_filter.
    setoid_rewrite would_win_spec. fold missing. split.
    - intros (row & -> & [Hne Hw] & Hin). split; [done|]. by exists row.
    - intros (Hne & row & Hin & <- & Hw). by exists row. }
  split_and!; [done|done| | done | | |].
  - intros n. subst r. simpl. fold missing. by rewrite elem_of_sorted_set.
  - rewrite Hq. by intros [? _].
  - intros family_members Hnd Hin. by apply member_results_lookup.
  - intros w sd wn Hcsv Hjson Hhead. unfold Lottery.get_missing_numbers_info.
    rewrite Hcsv, Hjson.
    destruct (filter (λ row, Name row = Name P) participants_df) as [|row rest];
      [done|]. simpl in Hhead. injection Hhead as ->.
    fold missing. unfold winners_if_drawn.
    assert (filter (λ p, Name p ≠ Name P ∧ would_win ps missing p) participants_df
            = filter (λ row, Name row ≠ Name P ∧ reaches_10 row) participants_df) as ->;
      [|done].
    apply list_filter_iff. intros row. by rewrite would_win_spec.
Qed.

Lemma projection_of_missing_numbers_witness :
  Lottery.get_missing_numbers_info "P" [] example_world
  = (Ret (Some ([4; 5; 6; 7; 8; 9; 10], 1)), example_world).
Proof.
  etrans.
  - apply (proj2 (proj2 (proj2 (proj2 (proj2 (proj2
             (projection_of_missing_numbers [example_P; example_Q] example_players
                example_P)))))) example_world None []); reflexivity.
  - vm_compute. reflexivity.
Defined.

(** The example of the spec: projecting P's missing numbers 4..10 on Q,
    who holds five of them and has matched seven numbers, makes Q a
    potential winner, and P is not listed. *)
Example projection_example :
  FutureWinners.analyze_member [example_P; example_Q] example_players example_P
  = {| FutureWinners.current_correct := 3;
       FutureWinners.missing_numbers := [4; 5; 6; 7; 8; 9; 10];
       FutureWinners.potential_winners := ["Q"] |}.
Proof. vm_compute. reflexivity. Qed.

(** Against C6 as the specification words it: the import of a list on
    which a name wraps gives two rows one name, whose matches are stored in
    one entry.  After two draws that entry counts 12, so the row shown as
    highest scorer has 12; Carol, whose ten numbers have all been drawn and
    whose stored [total_correct] is 10, is not among those shown and gets no
    winner line, in drawing.py and in lottery.py. *)
Lemma ten_without_winner_line :
  let after_first :=
    (Drawing.check_participants [1; 2; 3; 4; 5; 6] "08-Jan-25" false namesake_world).2 in
  let results :=
    standings false namesake_roster [7; 8; 9; 10; 11; 12] true (progress after_first) in
  let drawing := fold_all Drawing.check_participants namesake_draws namesake_world in
  let lottery := fold_all Lottery.check_participants namesake_draws namesake_world in
  PdfParser.parse_pdf_lottery_data namesake_pdf = Some namesake_roster ∧
  drawing.1 = Ret () ∧ lottery.1 = Ret () ∧
  (λ r, (r_name r, r_total r)) <$> results
  = [("Bob van Dam", 12); ("Carol", 10); ("Bob van Dam", 10)] ∧
  players (progress drawing.2) !! "Carol"
  = Some {| total_correct := 10; correct_numbers := [1; 2; 3; 4; 5; 6; 7; 8; 9; 12] |} ∧
  winner_lines (stdout drawing.2) = ["Bob van Dam"] ∧
  winner_lines (stdout lottery.2) = ["Bob van Dam"] ∧
  ¬ (∀ r, r ∈ results → 10 ≤ r_total r → Winner (r_name r) ∈ stdout drawing.2) ∧
  ¬ (∀ r, r ∈ results → 10 ≤ r_total r → Winner (r_name r) ∈ stdout lottery.2).
Proof.
  intros after_first results drawing lottery.
  assert (Hres : ∃ r, r ∈ results ∧ r_name r = "Carol" ∧ r_total r = 10).
  { exists (check_row false (players (progress after_first)) [7; 8; 9; 10; 11; 12] true
              {| Name := "Carol"; Number := [1; 2; 3; 4; 5; 6; 7; 8; 9; 12] |}).1.
    split; [|split; [reflexivity|vm_compute; reflexivity]].
    apply elem_of_standings.
    exists {| Name := "Carol"; Number := [1; 2; 3; 4; 5; 6; 7; 8; 9; 12] |}.
    split; [|reflexivity].
    unfold namesake_roster. rewrite !elem_of_cons. tauto. }
  assert (Hd : winner_lines (stdout drawing.2) = ["Bob van Dam"])
    by (vm_compute; reflexivity).
  assert (Hl : winner_lines (stdout lottery.2) = ["Bob van Dam"])
    by (vm_compute; reflexivity).
  assert (Hno : ∀ out, winner_lines out = ["Bob van Dam"] → Winner "Carol" ∉ out).
  { intros out Hout Hin.
    assert ("Carol" ∈ winner_lines out) as Hc.
    { unfold winner_lines. apply list_elem_of_omap.
      exists (Winner "Carol"). split; [exact Hin|reflexivity]. }
    rewrite Hout in Hc. apply list_elem_of_singleton in Hc. discriminate Hc. }
  split; [vm_compute; reflexivity|].
  split; [vm_compute; reflexivity|].
  split; [vm_compute; reflexivity|].
  split; [vm_compute; reflexivity|].
  split; [vm_compute; reflexivity|].
  split; [exact Hd|]. split; [exact Hl|].
  destruct Hres as (r & Hr & Hn & Ht).
  split; intros H.
  - apply (Hno _ Hd). rewrite <- Hn. apply H; [exact Hr|]. rewrite Ht. lia.
  - apply (Hno _ Hl). rewrite <- Hn. apply H; [exact Hr|]. rewrite Ht. lia.
Qed.

(** C6, as the code has it.  In the report of a fold, a winner line is
    printed for a name exactly when one of the tuples shown (among the
    highest scorers, or in the family view) carries that name and a
    [total_correct] of at least 10: a participant shown with 10 is flagged,
    one shown with 9 only is not.  Over a roster of uniquely named rows of
    ten numbers, and a progress within it, this tells every participant:
    the winner line of a participant is printed exactly when the
    participant's [total_correct] is at least 10.  This holds for
    drawing.py and for lottery.py. *)
Theorem threshold_winners_flagged roster winning_numbers draw_date is_latest_draw w :
  participants_csv (env w) = Some roster →
  let results :=
    standings (colour (env w)) roster winning_numbers is_latest_draw (progress w) in
  (∃ w' out,
     Drawing.check_participants winning_numbers draw_date is_latest_draw w = (Ret (), w') ∧
     stdout w' = stdout w ++ out ∧
     (∀ r, r ∈ shown_drawing results → 10 ≤ r_total r → Winner (r_name r) ∈ out) ∧
     (∀ n, Winner n ∈ out →
           ∃ r, r ∈ shown_drawing results ∧ r_name r = n ∧ 10 ≤ r_total r) ∧
     (well_formed roster → kept roster (players (progress w)) →
      ∀ r, r ∈ results → Winner (r_name r) ∈ out ↔ 10 ≤ r_total r)) ∧
  (∃ w' out,
     Lottery.check_participants winning_numbers draw_date is_latest_draw w = (Ret (), w') ∧
     stdout w' = stdout w ++ out ∧
     (∀ r, r ∈ shown_lottery (family (env w)) results → 10 ≤ r_total r →
           Winner (r_name r) ∈ out) ∧
     (∀ n, Winner n ∈ out →
           ∃ r, r ∈ shown_lottery (family (env w)) results ∧ r_name r = n ∧
                10 ≤ r_total r) ∧
     (well_formed roster → kept roster (players (progress w)) →
      ∀ r, r ∈ results → Winner (r_name r) ∈ out ↔ 10 ≤ r_total r)) ∧
  (well_formed roster → kept roster (players (progress w)) →
   ∀ r, r ∈ results → 10 ≤ r_total r →
        r ∈ shown_drawing results ∧ r ∈ shown_lottery (family (env w)) results).
Proof.
  intros Hr results.
  assert (Hten : well_formed roster → kept roster (players (progress w)) →
                 ∀ r, r ∈ results → 10 ≤ r_total r →
                      r ∈ shown_drawing results ∧
                      r ∈ shown_lottery (family (env w)) results).
  { intros Hwf Hk r Hin H10. by apply ten_is_shown. }
  split_and!; [| |done].
  - destruct (drawing_check_participants_folds roster winning_numbers draw_date
                is_latest_draw w Hr) as (w' & E & F).
    destruct (folded_stdout _ _ _ _ _ _ _ F) as (out & Hout & Hw).
    exists w', out. split_and!; [done..| | |].
    + intros r Hin H10. apply Hw. by exists r.
    + intros n Hn. by apply Hw.
    + intros Hwf Hk r Hin.
      apply (winner_line_iff_ten (colour (env w)) roster winning_numbers is_latest_draw
               (progress w) shown_drawing out r Hwf Hk); [| |exact Hw|exact Hin].
      * apply elem_of_shown_drawing.
      * intros r0 H0 H10. by apply (Hten Hwf Hk).
  - destruct (lottery_check_participants_folds roster winning_numbers draw_date
                is_latest_draw w Hr) as (w' & E & F).
    destruct (folded_stdout _ _ _ _ _ _ _ F) as (out & Hout & Hw).
    exists w', out. split_and!; [done..| | |].
    + intros r Hin H10. apply Hw. by exists r.
    + intros n Hn. by apply Hw.
    + intros Hwf Hk r Hin.
      apply (winner_line_iff_ten (colour (env w)) roster winning_numbers is_latest_draw
               (progress w) (shown_lottery (family (env w))) out r Hwf Hk);
        [| |exact Hw|exact Hin].
      * apply elem_of_shown_lottery.
      * intros r0 H0 H10. by apply (Hten Hwf Hk).
Qed.

Lemma threshold_winners_flagged_witness :
  let w := sample_world_after_two in
  (∃ w' out,
     Drawing.check_participants [7; 8; 9; 10; 16; 23] "22-Jan-25" true w = (Ret (), w') ∧
     stdout w' = stdout w ++ out ∧
     Winner "Alice" ∈ out ∧ (Winner "Brink A" ∉ out) ∧ (Winner "Bob" ∉ out)) ∧
  (∃ w' out,
     Lottery.check_participants [7; 8; 9; 10; 16; 23] "22-Jan-25" true w = (Ret (), w') ∧
     stdout w' = stdout w ++ out ∧
     Winner "Alice" ∈ out ∧ (Winner "Brink A" ∉ out) ∧ (Winner "Bob" ∉ out)) ∧
  (λ r, (r_name r, r_total r))
    <$> standings false sample_roster [7; 8; 9; 10; 16; 23] true (progress w)
  = [("Alice", 10); ("Brink A", 9); ("Bob", 5)].
Proof.
  intros w.
  assert (Hwf : well_formed sample_roster).
  { split; [|repeat constructor].
    apply NoDup_ListNoDup. vm_compute.
    repeat constructor; simpl; intuition discriminate. }
  assert (Hk : kept sample_roster (players (progress w))).
  { assert (progress w
            = fold_progress sample_roster [4; 5; 6; 13; 14; 44] "15-Jan-25"
                (fold_progress sample_roster [1; 2; 3; 11; 12; 45] "08-Jan-25"
                   empty_progress)) as -> by (vm_compute; reflexivity).
    apply fold_progress_kept; [done|]. apply fold_progress_kept; [done|].
    apply kept_empty. }
  assert (Hin : ∀ row, row ∈ sample_roster →
            (check_row false (players (progress w)) [7; 8; 9; 10; 16; 23] true row).1
            ∈ standings false sample_roster [7; 8; 9; 10; 16; 23] true (progress w)).
  { intros row Hrow. apply elem_of_standings. by exists row. }
  destruct (threshold_winners_flagged sample_roster [7; 8; 9; 10; 16; 23] "22-Jan-25"
              true w eq_refl) as (HD & HL & _).
  split_and!; [| |vm_compute; reflexivity].
  - destruct HD as (w' & out & E & Ho & _ & _ & Hiff). exists w', out.
    split; [exact E|]. split; [exact Ho|]. specialize (Hiff Hwf Hk). split_and!.
    + apply (Hiff _ (Hin {| Name := "Alice"; Number := [1; 2; 3; 4; 5; 6; 7; 8; 9; 10] |}
                       ltac:(unfold sample_roster; rewrite !elem_of_cons; tauto))).
      vm_compute. discriminate.
    + intros H.
      apply (Hiff _ (Hin {| Name := "Brink A";
                            Number := [1; 12; 23; 34; 45; 6; 7; 8; 9; 10] |}
                       ltac:(unfold sample_roster; rewrite !elem_of_cons; tauto))) in H.
      vm_compute in H. by apply H.
    + intros H.
      apply (Hiff _ (Hin {| Name := "Bob";
                            Number := [11; 12; 13; 14; 15; 16; 17; 18; 19; 20] |}
                       ltac:(unfold sample_roster; rewrite !elem_of_cons; tauto))) in H.
      vm_compute in H. by apply H.
  - destruct HL as (w' & out & E & Ho & _ & _ & Hiff). exists w', out.
    split; [exact E|]. split; [exact Ho|]. specialize (Hiff Hwf Hk). split_and!.
    + apply (Hiff _ (Hin {| Name := "Alice"; Number := [1; 2; 3; 4; 5; 6; 7; 8; 9; 10] |}
                       ltac:(unfold sample_roster; rewrite !elem_of_cons; tauto))).
      vm_compute. discriminate.
    + intros H.
      apply (Hiff _ (Hin {| Name := "Brink A";
                            Number := [1; 12; 23; 34; 45; 6; 7; 8; 9; 10] |}
                       ltac:(unfold sample_roster; rewrite !elem_of_cons; tauto))) in H.
      vm_compute in H. by apply H.
    + intros H.
      apply (Hiff _ (Hin {| Name := "Bob";
                            Number := [11; 12; 13; 14; 15; 16; 17; 18; 19; 20] |}
                       ltac:(unfold sample_roster; rewrite !elem_of_cons; tauto))) in H.
      vm_compute in H. by apply H.
Defined.

(** With a third draw of 7, 8, 9, 10, 15, 16 the winner line names Alice
    and nobody else. *)
Example sample_winner_line :
  winner_lines
    (stdout (Drawing.check_participants [7; 8; 9; 10; 15; 16] "22-Jan-25" true
               sample_world_after_two).2)
  = ["Alice"].
Proof. vm_compute. reflexivity. Qed.

(** C7. The stored [total_correct] is the length of the stored
    [correct_numbers]: this holds of the empty progress, [update_progress]
    keeps it for every entry and establishes it for every name it is given,
    and so every fold by either [check_participants] keeps it. *)
Theorem total_correct_is_length :
  consistent (players empty_progress) ∧
  (∀ player_results draw_date w,
     let w' := (update_progress player_results draw_date w).2 in
     (consistent (players (progress w)) → consistent (players (progress w'))) ∧
     (∀ name, name ∈ player_results.*1 →
        ∃ e, players (progress w') !! name = Some e ∧
             total_correct e = Py.len (correct_numbers e))) ∧
  (∀ winning_numbers draw_date is_latest_draw w,
     consistent (players (progress w)) →
     consistent (players (progress (Lottery.check_participants winning_numbers
                                      draw_date is_latest_draw w).2)) ∧
     consistent (players (progress (Drawing.check_participants winning_numbers
                                      draw_date is_latest_draw w).2))).
Proof.
  split_and!.
  - apply consistent_empty.
  - intros prs d w w'. subst w'.
    destruct (update_progress_run prs d w) as (out & -> & _). simpl. split.
    + apply update_players_consistent.
    + intros name Hn. by apply update_players_written.
  - intros wn d l w Hw. split.
    + destruct (lottery_check_participants_progress wn d l w) as (w' & E & _ & P).
      rewrite E. simpl. rewrite P. destruct (participants_csv (env w)); [|done].
      by apply fold_progress_consistent.
    + destruct (drawing_check_participants_progress wn d l w) as [_ ->].
      destruct (participants_csv (env w)); [|done].
      by apply fold_progress_consistent.
Qed.

Lemma total_correct_is_length_witness :
  consistent (players (progress (Lottery.check_participants [1; 2; 3; 11; 12; 45]
                                   "08-Jan-25" true sample_world).2)) ∧
  consistent (players (progress (Drawing.check_participants [1; 2; 3; 11; 12; 45]
                                   "08-Jan-25" true sample_world).2)).
Proof.
  apply (proj2 (proj2 total_correct_is_length)).
  intros name e. vm_compute. discriminate.
Defined.

(** C8, as the code has it.  When the progress file cannot be read
    (IOError) or is not JSON (JSONDecodeError), [load_progress] prints its
    two-line warning, returns and leaves the progress alone, so the tracker
    the constructor builds starts from the empty progress.  This holds for
    lottery.py and for drawing.py. *)
Theorem load_progress_survives_unreadable_file w :
  progress_json w = Unreadable ∨ progress_json w = NotJSON →
  Lottery.load_progress w = (Ret (), set_stdout (stdout w ++ load_warning) w) ∧
  Drawing.load_progress w = (Ret (), set_stdout (stdout w ++ load_warning) w) ∧
  (∃ w', Lottery.init w = (Ret (), w') ∧ progress w' = empty_progress ∧
         stdout w' = stdout w ++ load_warning) ∧
  (∃ w', Drawing.init w = (Ret (), w') ∧ progress w' = empty_progress ∧
         stdout w' = stdout w ++ load_warning).
Proof.
  intros H.
  assert (HL : ∀ w0, progress_json w0 = Unreadable ∨ progress_json w0 = NotJSON →
            Lottery.load_progress w0 = (Ret (), set_stdout (stdout w0 ++ load_warning) w0)).
  { intros w0 [E|E]; unfold Lottery.load_progress; rewrite E;
      unfold bind, print, modify, set_stdout; simpl; by rewrite <- app_assoc. }
  assert (HD : ∀ w0, progress_json w0 = Unreadable ∨ progress_json w0 = NotJSON →
            Drawing.load_progress w0 = (Ret (), set_stdout (stdout w0 ++ load_warning) w0)).
  { intros w0 [E|E]; unfold Drawing.load_progress; rewrite E;
      unfold bind, print, modify, set_stdout; simpl; by rewrite <- app_assoc. }
  split_and!; [by apply HL | by apply HD | |].
  - eexists. unfold Lottery.init, bind, modify. rewrite HL by done. done.
  - eexists. unfold Drawing.init, bind, modify. rewrite HD by done. done.
Qed.

Lemma load_progress_survives_unreadable_file_witness :
  Lottery.load_progress not_json_world
    = (Ret (), set_stdout (stdout not_json_world ++ load_warning) not_json_world) ∧
  Drawing.load_progress not_json_world
    = (Ret (), set_stdout (stdout not_json_world ++ load_warning) not_json_world) ∧
  (∃ w', Lottery.init not_json_world = (Ret (), w') ∧ progress w' = empty_progress ∧
         stdout w' = stdout not_json_world ++ load_warning) ∧
  (∃ w', Drawing.init not_json_world = (Ret (), w') ∧ progress w' = empty_progress ∧
         stdout w' = stdout not_json_world ++ load_warning).
Proof.
  apply (load_progress_survives_unreadable_file not_json_world).
  right. reflexivity.
Defined.

(** Against C8 as the specification words it: on a progress file that is
    valid JSON of another shape than an object, [saved_progress.get] raises
    AttributeError, which no handler catches; the constructor raises and
    with it both [main]s, before anything is printed. *)
Lemma load_progress_raises_on_wrong_shape :
  Lottery.init wrong_shape_world = (Raise AttributeError,
                                    set_progress empty_progress wrong_shape_world) ∧
  Drawing.init wrong_shape_world = (Raise AttributeError,
                                    set_progress empty_progress wrong_shape_world) ∧
  (Lottery.main wrong_shape_world).1 = Raise AttributeError ∧
  (Drawing.main wrong_shape_world).1 = Raise AttributeError ∧
  stdout (Lottery.main wrong_shape_world).2 = [] ∧
  stdout (Drawing.main wrong_shape_world).2 = [].
Proof. vm_compute. repeat split; reflexivity. Qed.

(** C9. A typed line whose numbers are not a valid draw (not six of
    them, one outside 1..45, or a repetition) is answered by a complaint and
    [parse_input] goes on with the next line; a line with a valid draw makes
    it return exactly those six numbers, in ascending order.  Whatever
    [parse_input] returns is a valid draw, and in an invocation of either
    [main] every row the ledger gains holds a valid draw and every fold is
    of the numbers of a row the ledger had or of a valid draw. *)
Theorem invalid_draw_rejected :
  (∀ prompt line rest out numbers,
     Py.strip line ≠ "" → parse_numbers (Py.strip line) = Some numbers →
     (length numbers ≠ 6%nat ∨ ¬ Forall (λ n, 1 ≤ n ≤ 45) numbers ∨ ¬ NoDup numbers →
      ∃ complaint,
        parse_input_from prompt (line :: rest) out
        = parse_input_from prompt rest (out ++ prompt ++ [Msg complaint])) ∧
     (valid_draw numbers →
      parse_input_from prompt (line :: rest) out
      = (Ret (Some (Py.sorted numbers)), rest, out ++ prompt) ∧
      Py.sorted numbers ≡ₚ numbers)) ∧
  (∀ prompt lines out accepted rest out',
     parse_input_from prompt lines out = (Ret (Some accepted), rest, out') →
     valid_draw accepted) ∧
  (∀ w w', w' = (Drawing.main w).2 ∨ w' = (Lottery.main w).2 →
     (∀ row, row ∈ ledger w' → row ∈ ledger w ∨ valid_draw (number row)) ∧
     (∀ f, f ∈ folds w' →
           f ∈ folds w ∨
           (∃ row, row ∈ ledger w ∧ fold_numbers f = Py.sorted (number row)) ∨
           valid_draw (fold_numbers f))).
Proof.
  split_and!.
  - intros prompt line rest out numbers Hne Hparse. split.
    + intros Hbad. destruct (check_numbers_invalid numbers) as [complaint Hc].
      { intros (? & ? & ?). tauto. }
      exists complaint. simpl. unfold check_line.
      rewrite decide_False by done. by rewrite Hparse, Hc.
    + intros Hv. split; [|apply sorted_perm]. simpl. unfold check_line.
      rewrite decide_False by done. by rewrite Hparse, check_numbers_valid.
  - intros prompt lines out accepted rest out' H.
    by apply parse_input_from_accepts in H as [? _].
  - intros w w' Hw'.
    assert (Hs : sound w w').
    { destruct Hw' as [-> | ->].
      - apply (keeps_drawing_main w w), sound_refl.
      - apply (keeps_lottery_main w w), sound_refl. }
    destruct Hs as [Hl Hf]. split; [done|]. intros f Hin.
    destruct (Hf f Hin) as [?|[(row & ? & ?)|?]]; [tauto| |tauto].
    right; left. by exists row.
Qed.

Lemma invalid_draw_rejected_witness :
  (∃ complaint,
     parse_input_from [] ["1 2 3 4 5 5"; "6,5,4,3,2,1"] []
     = parse_input_from [] ["6,5,4,3,2,1"] ([] ++ [] ++ [Msg complaint])) ∧
  parse_input_from [] ["6,5,4,3,2,1"] []
  = (Ret (Some (Py.sorted [6; 5; 4; 3; 2; 1])), [], [] ++ []).
Proof.
  split.
  - apply (proj1 (proj1 invalid_draw_rejected [] "1 2 3 4 5 5" ["6,5,4,3,2,1"] []
                    [1; 2; 3; 4; 5; 5] ltac:(vm_compute; discriminate) eq_refl)).
    right; right. by apply (bool_decide_unpack _).
  - apply (proj2 (proj1 invalid_draw_rejected [] "6,5,4,3,2,1" [] []
                    [6; 5; 4; 3; 2; 1] ltac:(vm_compute; discriminate) eq_refl)).
    split_and!; [reflexivity | repeat constructor; lia | by apply (bool_decide_unpack _)].
Defined.

(** What [parse_input] answers to some lines. *)
Example check_line_examples :
  check_line "3 1 2 45 44 43" = Accept [1; 2; 3; 43; 44; 45] ∧
  check_line "3,1,2,45,44,46" = Reject "Numbers must be between 1 and 45" ∧
  check_line "3 1 2 45 44 44" = Reject "Numbers must be unique" ∧
  check_line "3 1 2 45 44" = Reject "Please enter exactly 6 numbers" ∧
  check_line "3 1 2 45 44 x" = Reject "Please enter valid numbers" ∧
  check_line "   " = Quit.
Proof. vm_compute. repeat split. Qed.

(** Against C10 as the specification words it: over the table in which
    two rows are called Bob van Dam, two folds leave under that name
    twelve numbers, more than either row chose. *)
Lemma namesake_entry_outgrows_its_rows :
  let run := fold_all Lottery.check_participants namesake_draws namesake_world in
  PdfParser.parse_pdf_lottery_data namesake_pdf = Some namesake_roster ∧
  run.1 = Ret () ∧
  players (progress run.2) !! "Bob van Dam"
  = Some {| total_correct := 12;
            correct_numbers := [1; 2; 3; 4; 5; 6; 7; 8; 9; 10; 11; 12] |} ∧
  ¬ kept namesake_roster (players (progress run.2)).
Proof.
  intros run.
  assert (E : players (progress run.2) !! "Bob van Dam"
              = Some {| total_correct := 12;
                        correct_numbers := [1; 2; 3; 4; 5; 6; 7; 8; 9; 10; 11; 12] |})
    by (vm_compute; reflexivity).
  split_and!; [vm_compute; reflexivity..|exact E|].
  intros Hk.
  destruct (Hk {| Name := "Bob van Dam"; Number := [1; 2; 3; 4; 5; 6; 7; 8; 9; 10] |} _
              ltac:(unfold namesake_roster; rewrite !elem_of_cons; tauto) E)
    as (_ & _ & _ & Hle).
  simpl in Hle. lia.
Qed.

(** C10, as the code has it.  The progress is keyed by name, so the
    property needs the names of the roster to be unique.  Over a roster of
    uniquely named rows of ten numbers, a sequence of folds by lottery.py's
    [check_participants] returns and keeps, for every participant with an
    entry: the stored numbers are among the ten chosen ones and are listed
    in strictly ascending order (sorted, no duplicates), and
    [total_correct], their count, is at most 10.  The empty progress
    satisfies the premise ([kept_empty]). *)
Theorem entries_within_chosen_numbers roster draws w :
  participants_csv (env w) = Some roster →
  well_formed roster →
  kept roster (players (progress w)) →
  ∃ w', fold_all Lottery.check_participants draws w = (Ret (), w') ∧
        ∀ row e, row ∈ roster → players (progress w') !! Name row = Some e →
          (∀ n, n ∈ correct_numbers e → n ∈ Number row) ∧
          StronglySorted Z.lt (correct_numbers e) ∧
          total_correct e = Py.len (correct_numbers e) ∧
          total_correct e ≤ 10.
Proof.
  intros Hr Hwf Hk. unfold fold_all.
  destruct (for_each_invariant
              (λ w', env w' = env w ∧ kept roster (players (progress w')))
              (λ d, Lottery.check_participants d.1.1 d.1.2 d.2) draws w)
    as (w' & E & _ & Hw'); [|done|].
  - intros d w0 [He Hk0].
    destruct (lottery_check_participants_progress d.1.1 d.1.2 d.2 w0)
      as (w1 & E1 & He1 & Hp1).
    exists w1. split; [done|]. split; [congruence|].
    rewrite Hp1, He, Hr. by apply fold_progress_kept.
  - exists w'. split; [done|]. intros row e Hrow He. by apply (Hw' row e).
Qed.

Lemma entries_within_chosen_numbers_witness :
  ∃ w', fold_all Lottery.check_participants
          [([1; 2; 3; 11; 12; 45], "08-Jan-25", false);
           ([4; 5; 6; 13; 14; 44], "15-Jan-25", true)] sample_world = (Ret (), w') ∧
        ∀ row e, row ∈ sample_roster → players (progress w') !! Name row = Some e →
          (∀ n, n ∈ correct_numbers e → n ∈ Number row) ∧
          StronglySorted Z.lt (correct_numbers e) ∧
          total_correct e = Py.len (correct_numbers e) ∧
          total_correct e ≤ 10.
Proof.
  apply (entries_within_chosen_numbers sample_roster _ sample_world).
  - reflexivity.
  - split; [|repeat constructor].
    apply NoDup_ListNoDup. vm_compute.
    repeat constructor; simpl; intuition discriminate.
  - apply kept_empty.
Defined.

(** * Further properties of the code *)

(** X1. Saving and loading are a round trip: where the progress file can be
    written, a start of either program on the file [save_progress] leaves
    returns with exactly the progress that was saved. *)
Theorem saved_progress_loads_back w w' :
  writable (env w) = true →
  progress_json w' = progress_json (save_progress w).2 →
  (Lottery.init w').1 = Ret () ∧ progress (Lottery.init w').2 = progress w ∧
  (Drawing.init w').1 = Ret () ∧ progress (Drawing.init w').2 = progress w.
Proof.
  intros Hw Hf.
  assert (stored (progress_json w') = Some (progress w)) as Hs.
  { rewrite Hf. unfold save_progress. rewrite Hw. simpl. by rewrite progress_eta. }
  destruct (lottery_init_stored _ _ Hs), (drawing_init_stored _ _ Hs). done.
Qed.

Lemma saved_progress_loads_back_witness :
  let w' := (save_progress sample_world_after_two).2 in
  (Lottery.init w').1 = Ret () ∧
  progress (Lottery.init w').2 = progress sample_world_after_two ∧
  (Drawing.init w').1 = Ret () ∧
  progress (Drawing.init w').2 = progress sample_world_after_two.
Proof.
  apply (saved_progress_loads_back sample_world_after_two); vm_compute; reflexivity.
Defined.

(** X2. A run leaves the progress file in step with the progress in
    memory: where the file can be written and the progress loads, a start
    of the same program in the world a run of [main] ends in (for
    lottery.py: a run without a PDF argument), however the run ends, loads
    exactly the progress the run ended with. *)
Theorem restart_loads_what_the_run_left w :
  writable (env w) = true →
  ((Lottery.init w).1 = Ret () →
   let w' := (Lottery.main w).2 in
   (Lottery.init w').1 = Ret () ∧ progress (Lottery.init w').2 = progress w') ∧
  ((Drawing.init w).1 = Ret () →
   let w' := (Drawing.main w).2 in
   (Drawing.init w').1 = Ret () ∧ progress (Drawing.init w').2 = progress w').
Proof.
  intros Hw. split; intros Hinit w'.
  - apply lottery_init_stored.
    apply (lottery_main_invariant _ invariant_in_sync).
    destruct (lottery_init_in_sync w Hinit) as [-> ?]. done.
  - apply drawing_init_stored.
    apply (drawing_main_invariant _ invariant_in_sync).
    destruct (drawing_init_in_sync w Hw Hinit) as [-> ?]. done.
Qed.

Lemma restart_loads_what_the_run_left_witness :
  ((Lottery.init sample_world).1 = Ret () →
   let w' := (Lottery.main sample_world).2 in
   (Lottery.init w').1 = Ret () ∧ progress (Lottery.init w').2 = progress w') ∧
  ((Drawing.init sample_world).1 = Ret () →
   let w' := (Drawing.main sample_world).2 in
   (Drawing.init w').1 = Ret () ∧ progress (Drawing.init w').2 = progress w').
Proof. apply (restart_loads_what_the_run_left sample_world). reflexivity. Defined.

(** X3. Where the progress file cannot be written, a fold still updates
    the progress in memory, prints the complaint of [save_progress] as its
    last line and leaves the file alone, so that the next start loads what
    it would have loaded before the fold. *)
Theorem unsaved_fold_is_lost_at_restart roster winning_numbers draw_date is_latest_draw w :
  participants_csv (env w) = Some roster → writable (env w) = false →
  ∃ w' out,
    Lottery.check_participants winning_numbers draw_date is_latest_draw w = (Ret (), w') ∧
    stdout w' = stdout w ++ out ++ [Msg "Error saving progress file"] ∧
    progress w' = fold_progress roster winning_numbers draw_date (progress w) ∧
    progress_json w' = progress_json w ∧
    progress (Lottery.init w').2 = progress (Lottery.init w).2.
Proof.
  intros Hr Hw. unfold Lottery.check_participants. unfold bind at 1. unfold get at 1.
  rewrite Hr. unfold bind at 1. unfold print_banner, bind at 1 2 3, print, modify. simpl.
  unfold bind at 1. unfold get at 1. rewrite check_rows_snd. simpl.
  set (w1 := set_stdout _ _). set (results := sort_reverse _).
  destruct (prints_lottery_report winning_numbers results w1) as ([] & o2 & E2 & _).
  unfold bind at 1. rewrite E2. unfold bind at 1. unfold log_fold, modify.
  rewrite update_progress_saves. unfold w1. cbn [env set_folds set_stdout]. rewrite Hw.
  eexists _, ([ResultsFor draw_date; rule "="; WinningNumbers (Py.sorted winning_numbers);
                rule "-"] ++ o2).
  split; [reflexivity|]. cbn [stdout progress progress_json set_stdout set_progress set_folds]. 
  split_and!.
  - by rewrite <- !app_assoc.
  - done.
  - done.
  - by apply lottery_init_reads_the_file.
Qed.

Lemma unsaved_fold_is_lost_at_restart_witness :
  ∃ w' out,
    Lottery.check_participants [1; 2; 3; 11; 12; 45] "08-Jan-25" true unwritable_world
    = (Ret (), w') ∧
    stdout w' = stdout unwritable_world ++ out ++ [Msg "Error saving progress file"] ∧
    progress w' = fold_progress sample_roster [1; 2; 3; 11; 12; 45] "08-Jan-25"
                    (progress unwritable_world) ∧
    progress_json w' = progress_json unwritable_world ∧
    progress (Lottery.init w').2 = progress (Lottery.init unwritable_world).2.
Proof. apply (unsaved_fold_is_lost_at_restart sample_roster); reflexivity. Defined.

(** X4. What the folds store is the chosen numbers that were drawn: with
    unique names in the table, after any sequence of folds a number is
    stored for a participant exactly when it was stored before, or the
    participant chose it and one of the folded draws holds it. *)
Theorem stored_numbers_are_chosen_and_drawn roster draws row w :
  participants_csv (env w) = Some roster → NoDup (Name <$> roster) → row ∈ roster →
  ∃ w', fold_all Lottery.check_participants draws w = (Ret (), w') ∧
        ∀ n, n ∈ get_correct_numbers (players (progress w')) (Name row) ↔
             n ∈ get_correct_numbers (players (progress w)) (Name row) ∨
             (n ∈ Number row ∧ ∃ d, d ∈ draws ∧ n ∈ d.1.1).
Proof.
  intros Hr Hnd Hrow. revert w Hr.
  induction draws as [|[[wn d] l] draws IH]; intros w Hr.
  - exists w. split; [done|]. intros n. split; [by left|].
    intros [?|(_ & d & Hd%elem_of_nil & _)]; done.
  - unfold fold_all. simpl. unfold bind.
    destruct (lottery_check_participants_progress wn d l w) as (w1 & -> & He & Hp).
    rewrite Hr in Hp.
    destruct (IH w1) as (w' & E & H); [by rewrite He|].
    exists w'. split; [done|]. intros n. rewrite H, Hp, fold_progress_stored by done.
    split.
    + intros [[?|[? ?]]|(? & d' & ? & ?)]; [by left|right..].
      * split; [done|]. exists (wn, d, l). split; [apply list_elem_of_here|done].
      * split; [done|]. exists d'. split; [by apply list_elem_of_further|done].
    + intros [?|(? & d' & [->|?]%elem_of_cons & ?)]; [by left; left| |].
      * left. by right.
      * right. split; [done|]. by exists d'.
Qed.

Lemma stored_numbers_are_chosen_and_drawn_witness :
  ∃ w', fold_all Lottery.check_participants
          [([1; 2; 3; 11; 12; 45], "08-Jan-25", false);
           ([4; 5; 6; 13; 14; 44], "15-Jan-25", true)] sample_world = (Ret (), w') ∧
        ∀ n, n ∈ get_correct_numbers (players (progress w')) "Bob" ↔
             n ∈ get_correct_numbers (players (progress sample_world)) "Bob" ∨
             (n ∈ [11; 12; 13; 14; 15; 16; 17; 18; 19; 20] ∧
              ∃ d, d ∈ [([1; 2; 3; 11; 12; 45], "08-Jan-25", false);
                        ([4; 5; 6; 13; 14; 44], "15-Jan-25", true)] ∧ n ∈ d.1.1).
Proof.
  apply (stored_numbers_are_chosen_and_drawn sample_roster _
           {| Name := "Bob"; Number := [11; 12; 13; 14; 15; 16; 17; 18; 19; 20] |}).
  - reflexivity.
  - apply NoDup_ListNoDup. vm_compute. repeat constructor; simpl; intuition discriminate.
  - vm_compute. apply list_elem_of_further, list_elem_of_here.
Defined.

(** X5. The order of two folds does not matter for the players: folding
    the draws [a] then [b] and folding [b] then [a] both return and leave
    the same [players] map. *)
Theorem fold_order_irrelevant (a b : list Z * string * bool) w :
  ∃ w1 w2,
    fold_all Lottery.check_participants [a; b] w = (Ret (), w1) ∧
    fold_all Lottery.check_participants [b; a] w = (Ret (), w2) ∧
    players (progress w1) = players (progress w2).
Proof.
  unfold fold_all. simpl. unfold bind.
  destruct (lottery_check_participants_progress a.1.1 a.1.2 a.2 w) as (wa & -> & Hea & Hpa).
  destruct (lottery_check_participants_progress b.1.1 b.1.2 b.2 wa) as (wab & -> & Heab & Hpab).
  destruct (lottery_check_participants_progress b.1.1 b.1.2 b.2 w) as (wb & -> & Heb & Hpb).
  destruct (lottery_check_participants_progress a.1.1 a.1.2 a.2 wb) as (wba & -> & Heba & Hpba).
  exists wab, wba. split; [done|]. split; [done|].
  rewrite Hpab, Hpba, Hea, Heb, Hpa, Hpb.
  destruct (participants_csv (env w)) as [roster|]; [|done].
  by apply fold_progress_commute.
Qed.

(** X6. A fold leaves an entry for every name of the table and creates no
    other: the keys after it are those before it and the names of the
    table; hence a name with an entry when [main] of lottery.py, run
    without a PDF argument, is over had one when the progress was loaded or
    is a name of the table. *)
Theorem entries_only_for_known_names :
  (∀ roster winning_numbers draw_date is_latest_draw w,
     participants_csv (env w) = Some roster →
     dom (players (progress (Lottery.check_participants winning_numbers draw_date
                               is_latest_draw w).2))
     = dom (players (progress w)) ∪ names_of roster) ∧
  (∀ w name,
     name ∈ dom (players (progress (Lottery.main w).2)) →
     name ∈ dom (players (progress (Lottery.init w).2)) ∨
     ∃ roster, participants_csv (env w) = Some roster ∧ name ∈ Name <$> roster).
Proof.
  split.
  - intros roster winning_numbers draw_date is_latest_draw w Hr.
    destruct (lottery_check_participants_progress winning_numbers draw_date
                is_latest_draw w) as (w' & E & _ & Hp).
    rewrite E. simpl. rewrite Hp, Hr. simpl.
    by rewrite dom_update_players, player_results_names.
  - intros w name Hin.
    pose proof (lottery_main_invariant _
                  (invariant_names (dom (players (progress (Lottery.init w).2)))) w) as H.
    simpl in H.
    rewrite (lottery_main_env w) in H. simpl in H.
    apply H in Hin; [|set_solver].
    apply elem_of_union in Hin as [?|Hin]; [by left|right].
    destruct (participants_csv (env w)) as [roster|]; simpl in Hin.
    + exists roster. split; [done|]. by apply elem_of_list_to_set in Hin.
    + by apply elem_of_empty in Hin.
Qed.

(** X7. The count of new numbers in a result tuple is never negative and,
    added to the size of what was stored for the name, never exceeds the
    total; for the latest draw the total is exactly what was stored plus the
    new numbers, and for any other draw the count is 0. *)
Theorem new_count_is_growth colour roster winning_numbers is_latest_draw p r :
  r ∈ standings colour roster winning_numbers is_latest_draw p →
  let previous := Py.len_set (Py.set (get_correct_numbers (players p) (r_name r))) in
  0 ≤ r_new r ∧ previous + r_new r ≤ r_total r ∧
  (is_latest_draw = true → r_total r = previous + r_new r) ∧
  (is_latest_draw = false → r_new r = 0).
Proof.
  intros (row & Hrow & ->)%elem_of_standings. unfold r_new, r_total, r_name. simpl.
  set (prev := Py.set (get_correct_numbers _ _)). set (drawn := Py.set (filter _ _)).
  assert (size (prev ∪ drawn) = size prev + size (drawn ∖ prev))%nat as Hsize
    by apply size_union_alt.
  unfold Py.len_set. destruct is_latest_draw; split_and!; try done; lia.
Qed.

Lemma new_count_is_growth_witness :
  let r := (check_row false (players (progress sample_world_after_two))
              [3; 4; 7; 20; 21; 22] true
              {| Name := "Alice"; Number := [1; 2; 3; 4; 5; 6; 7; 8; 9; 10] |}).1 in
  (r_total r, r_new r) = (7, 1) ∧
  r_total r
  = Py.len_set (Py.set (get_correct_numbers
                          (players (progress sample_world_after_two)) (r_name r)))
    + r_new r.
Proof.
  intros r. split; [vm_compute; reflexivity|].
  apply (new_count_is_growth false sample_roster [3; 4; 7; 20; 21; 22] true
           (progress sample_world_after_two) r); [|reflexivity].
  apply elem_of_standings. eexists. split; [|reflexivity].
  apply list_elem_of_here.
Defined.

(** X8. The total a fold reports is the total it stores: with unique names
    in the table, the fold logs a tuple for every row, and for every tuple
    the entry of its name after the fold has the tuple's total as
    [total_correct]. *)
Theorem reported_total_is_stored roster winning_numbers draw_date is_latest_draw w :
  participants_csv (env w) = Some roster → NoDup (Name <$> roster) →
  ∃ w' f,
    Lottery.check_participants winning_numbers draw_date is_latest_draw w = (Ret (), w') ∧
    folds w' = folds w ++ [f] ∧
    (∀ row, row ∈ roster → ∃ r, r ∈ fold_results f ∧ r_name r = Name row) ∧
    ∀ r, r ∈ fold_results f →
      ∃ e, players (progress w') !! r_name r = Some e ∧ total_correct e = r_total r.
Proof.
  intros Hr Hnd.
  destruct (lottery_check_participants_folds roster winning_numbers draw_date
              is_latest_draw w Hr) as (w' & E & F).
  exists w'. eexists. split; [done|]. split; [apply (folded_folds _ _ _ _ _ _ _ F)|].
  simpl. split.
  - intros row Hrow. eexists. split; [apply elem_of_standings; by exists row|done].
  - intros r (row & Hrow & ->)%elem_of_standings.
    rewrite (folded_progress _ _ _ _ _ _ _ F). simpl.
    rewrite update_players_lookup, player_results_names.
    rewrite decide_True by (apply list_elem_of_fmap; by exists row).
    eexists. split; [done|]. simpl. unfold r_name, r_total. simpl.
    by rewrite gathered_unique.
Qed.

Lemma reported_total_is_stored_witness :
  ∃ w' f,
    Lottery.check_participants [1; 2; 3; 11; 12; 45] "08-Jan-25" true sample_world
    = (Ret (), w') ∧
    folds w' = folds sample_world ++ [f] ∧
    (∀ row, row ∈ sample_roster → ∃ r, r ∈ fold_results f ∧ r_name r = Name row) ∧
    ∀ r, r ∈ fold_results f →
      ∃ e, players (progress w') !! r_name r = Some e ∧ total_correct e = r_total r.
Proof.
  apply (reported_total_is_stored sample_roster); [reflexivity|].
  apply NoDup_ListNoDup. vm_compute. repeat constructor; simpl; intuition discriminate.
Defined.

(** X9. After a fold that is saved, no number of the folded draw is
    reported missing: for every name of the table
    [get_missing_numbers_info] returns a list that holds none of the winning
    numbers, and a count of other winners below the number of rows. *)
Theorem drawn_numbers_not_missing_after_fold
    roster winning_numbers draw_date is_latest_draw name later_numbers w :
  participants_csv (env w) = Some roster → writable (env w) = true →
  name ∈ Name <$> roster →
  ∃ w' missing count,
    Lottery.check_participants winning_numbers draw_date is_latest_draw w = (Ret (), w') ∧
    Lottery.get_missing_numbers_info name later_numbers w'
    = (Ret (Some (missing, count)), w') ∧
    (∀ n, n ∈ missing → n ∉ winning_numbers) ∧
    0 ≤ count < Py.len roster.
Proof.
  intros Hr Hw Hname.
  destruct (lottery_check_participants_folds roster winning_numbers draw_date
              is_latest_draw w Hr) as (w' & E & F).
  exists w'.
  pose proof (folded_json _ _ _ _ _ _ _ F) as Hj. rewrite Hw in Hj.
  pose proof (folded_env _ _ _ _ _ _ _ F) as He.
  pose proof (folded_progress _ _ _ _ _ _ _ F) as Hp.
  unfold Lottery.get_missing_numbers_info. rewrite He, Hr, Hj.
  apply list_elem_of_fmap in Hname as (row & -> & Hrow).
  destruct (filter (λ row0, Name row0 = Name row) roster) as [|player_row rest] eqn:Ef.
  { exfalso. eapply (filter_nil_not_elem_of _ _ row); [exact Ef|done..]. }
  assert (player_row ∈ roster ∧ Name player_row = Name row) as [Hpr Hn].
  { assert (player_row ∈ filter (λ row0, Name row0 = Name row) roster) as Hin
      by (rewrite Ef; apply list_elem_of_here).
    by apply list_elem_of_filter in Hin as [? ?]. }
  eexists _, _. split; [done|]. split; [done|]. split.
  - intros n [Hchosen Hnot]%elem_of_sorted_set%elem_of_missing_of Hdrawn.
    apply Hnot. rewrite Hp. simpl.
    apply (elem_of_list_to_set (C := gset Z)).
    change (list_to_set ?l) with (Py.set l).
    rewrite update_players_correct_numbers. apply elem_of_union_r, elem_of_gathered.
    exists (player_result winning_numbers player_row).
    split_and!; [apply list_elem_of_fmap; by exists player_row|done|].
    by apply elem_of_player_result.
  - unfold Py.len, winners_if_drawn. split; [lia|]. apply inj_lt.
    apply (length_filter_lt _ _ player_row); [done|]. by intros [Hne _].
Qed.

Lemma drawn_numbers_not_missing_after_fold_witness :
  ∃ w' missing count,
    Lottery.check_participants [1; 2; 3; 11; 12; 45] "08-Jan-25" true sample_world
    = (Ret (), w') ∧
    Lottery.get_missing_numbers_info "Alice" [] w' = (Ret (Some (missing, count)), w') ∧
    (∀ n, n ∈ missing → n ∉ [1; 2; 3; 11; 12; 45]) ∧
    0 ≤ count < Py.len sample_roster.
Proof.
  apply (drawn_numbers_not_missing_after_fold sample_roster); [reflexivity..|].
  vm_compute. apply list_elem_of_here.
Defined.

(** X10. A run of drawing.py, and a run of lottery.py without a PDF
    argument, never removes or rewrites a row of the ledger: the rows at
    the start are a prefix of the rows when [main] is over, however the run
    ends.  A run of lottery.py with a PDF argument removes the ledger when
    it ends with status 0, and leaves the file as it was otherwise. *)
Theorem ledger_only_appended w :
  ledger w `prefix_of` ledger (Lottery.main w).2 ∧
  ledger w `prefix_of` ledger (Drawing.main w).2 ∧
  ∀ pdf_path pdf,
    trekking_csv (Lottery.main_pdf pdf_path pdf w).2
    = match (Lottery.main_pdf pdf_path pdf w).1 with
      | Ret 0 => None
      | _ => trekking_csv w
      end.
Proof.
  split_and!.
  - apply lottery_main_invariant; [apply invariant_ledger_prefix|].
    by rewrite (proj1 (untouched_lottery_init w)).
  - apply drawing_main_invariant; [apply invariant_ledger_prefix|].
    by rewrite (proj1 (untouched_drawing_init w)).
  - intros pdf_path pdf. pose proof (main_pdf_run pdf_path pdf w) as H. simpl in H.
    destruct (Lottery.main_pdf pdf_path pdf w).1 as [[|p|p]|e]; apply H.
Qed.

(** X11. In a run of drawing.py, and in a run of lottery.py without a PDF
    argument, the log of processed draws is only appended to and gains no
    duplicate: if the log loaded at the start has none, it is a prefix of
    the log when [main] is over, which has none either.  A run of lottery.py
    with a PDF argument empties the log when it ends with status 0, and
    leaves it as loaded otherwise. *)
Theorem processed_log_only_appended w :
  (let loaded := processed_draws (progress (Lottery.init w).2) in
   let final := processed_draws (progress (Lottery.main w).2) in
   NoDup loaded → loaded `prefix_of` final ∧ NoDup final) ∧
  (let loaded := processed_draws (progress (Drawing.init w).2) in
   let final := processed_draws (progress (Drawing.main w).2) in
   NoDup loaded → loaded `prefix_of` final ∧ NoDup final) ∧
  ∀ pdf_path pdf,
    processed_draws (progress (Lottery.main_pdf pdf_path pdf w).2)
    = match (Lottery.main_pdf pdf_path pdf w).1 with
      | Ret 0 => []
      | _ => processed_draws (progress (Lottery.init w).2)
      end.
Proof.
  split_and!.
  - intros loaded final Hnd. by apply (lottery_main_invariant _ (invariant_log loaded)).
  - intros loaded final Hnd. by apply (drawing_main_invariant _ (invariant_log loaded)).
  - intros pdf_path pdf. pose proof (main_pdf_run pdf_path pdf w) as H. simpl in H.
    destruct (Lottery.main_pdf pdf_path pdf w).1 as [[|p|p]|e];
      destruct H as [_ ->]; done.
Qed.

Lemma processed_log_only_appended_witness :
  let w := set_stdin ["1 2 3 4 5 6"; ""] sample_world_after_two in
  processed_draws (progress (Lottery.init w).2) = ["08-Jan-25"; "15-Jan-25"] ∧
  processed_draws (progress (Lottery.init w).2)
    `prefix_of` processed_draws (progress (Lottery.main w).2) ∧
  NoDup (processed_draws (progress (Lottery.main w).2)) ∧
  processed_draws (progress (Lottery.main_pdf "list.pdf" (Pdf sample_pdf) w).2) = [].
Proof.
  intros w.
  assert (E : processed_draws (progress (Lottery.init w).2) = ["08-Jan-25"; "15-Jan-25"])
    by (vm_compute; reflexivity).
  destruct (processed_log_only_appended w) as (HL & _ & Hpdf).
  split; [exact E|].
  assert (Hnd : NoDup (processed_draws (progress (Lottery.init w).2))).
  { rewrite E. apply NoDup_ListNoDup. repeat constructor; simpl; intuition discriminate. }
  split; [exact (proj1 (HL Hnd))|]. split; [exact (proj2 (HL Hnd))|].
  rewrite (Hpdf "list.pdf" (Pdf sample_pdf)).
  assert ((Lottery.main_pdf "list.pdf" (Pdf sample_pdf) w).1 = Ret 0) as ->
    by (vm_compute; reflexivity).
  reflexivity.
Defined.

(** X12. Where the participants file exists, the pass of
    [process_all_unprocessed_draws] returns, leaves the rows of the ledger
    as they are and no draw unprocessed; a second pass right after it
    returns [False] and changes nothing at all. *)
Theorem backlog_pass_leaves_nothing_unprocessed roster w :
  participants_csv (env w) = Some roster →
  ∃ w', Drawing.process_all_unprocessed_draws w
        = (Ret (nonempty (unprocessed_draws w)), w') ∧
        ledger w' = ledger w ∧
        unprocessed_draws w' = [] ∧
        Drawing.process_all_unprocessed_draws w' = (Ret false, w').
Proof.
  intros Hr.
  destruct (process_all_unprocessed_draws_run roster w Hr) as (w' & E & He & Ht & Hi & Hp & _).
  exists w'. split; [done|].
  assert (ledger w' = ledger w) as Hl by (unfold ledger at 1; by rewrite Ht).
  assert (unprocessed_draws w' = []) as Hu.
  { unfold unprocessed_draws at 1. rewrite Hl, Hp.
    destruct (progress_after_log roster (unprocessed_draws w) (progress w)) as [H1 H2].
    match goal with |- _ <$> ?l = [] => assert (l = []) as -> end; [|done].
    apply elem_of_nil_inv. intros row [Hnew Hrow]%list_elem_of_filter.
    apply Hnew. destruct (decide (date row ∈ processed_draws (progress w))) as [Hin|Hin].
    - by apply H1.
    - apply (H2 (Py.sorted (number row), date row)). unfold unprocessed_draws.
      apply list_elem_of_fmap. exists row. split; [done|]. by apply list_elem_of_filter. }
  split; [done|]. split; [done|].
  destruct (process_all_unprocessed_draws_run roster w') as (w'' & E' & _ & _ & _ & _ & Hw'');
    [by rewrite He|].
  rewrite E', Hu. simpl. f_equal. rewrite (Hw'' Hu), Hl. by apply set_trekking_csv_same.
Qed.

Lemma backlog_pass_leaves_nothing_unprocessed_witness :
  ∃ w', Drawing.process_all_unprocessed_draws sample_world = (Ret true, w') ∧
        ledger w' = ledger sample_world ∧
        unprocessed_draws w' = [] ∧
        Drawing.process_all_unprocessed_draws w' = (Ret false, w').
Proof. apply (backlog_pass_leaves_nothing_unprocessed sample_roster). reflexivity. Defined.

(** X13. [add_to_trekking] appends one row after the rows there are: the
    six numbers with the date given in lottery.py, with the date pandas
    computes in drawing.py, where a date that does not parse raises
    ValueError and leaves the rows; [get_latest_results] then returns the
    appended draw and [show_current_standings] folds it. *)
Theorem appended_draw_is_latest numbers draw_date w :
  length numbers = 6%nat →
  ∃ w', Lottery.add_to_trekking numbers draw_date w = (Ret draw_date, w') ∧
        ledger w' = ledger w ++ [{| date := draw_date; number := numbers |}] ∧
        Drawing.get_latest_results w' = (Ret (Some (Py.sorted numbers, draw_date)), w') ∧
        Lottery.show_current_standings w'
        = Lottery.check_participants (Py.sorted numbers) draw_date true w' ∧
        (∀ next, next_date (env w) (date <$> last (ledger w)) = Some next →
           ∃ w'', Drawing.add_to_trekking numbers w = (Ret next, w'') ∧
                  ledger w'' = ledger w ++ [{| date := next; number := numbers |}]) ∧
        (next_date (env w) (date <$> last (ledger w)) = None →
           ∃ w'', Drawing.add_to_trekking numbers w = (Raise ValueError, w'') ∧
                  ledger w'' = ledger w).
Proof.
  intros Hlen. assert (take 6 numbers = numbers) as Ht by (apply take_ge; lia).
  unfold Lottery.add_to_trekking, Drawing.add_to_trekking, Drawing.get_latest_results,
    Lottery.show_current_standings, bind, read_trekking, get, modify, ret, ledger.
  rewrite Ht.
  destruct (trekking_csv w) as [rows|] eqn:E; simpl.
  - eexists. split; [done|]. simpl. rewrite last_snoc. simpl.
    split_and!; try done.
    + intros next ->. eexists. by split.
    + intros ->. eexists. split; [done|]. simpl. by rewrite E.
  - eexists. split; [done|]. simpl.
    split_and!; try done.
    + intros next ->. eexists. by split.
    + intros ->. eexists. by split.
Qed.

Lemma appended_draw_is_latest_witness :
  ∃ w', Lottery.add_to_trekking [7; 8; 9; 10; 15; 16] "22-Jan-25" sample_world
        = (Ret "22-Jan-25", w') ∧
        ledger w' = ledger sample_world ++
                    [{| date := "22-Jan-25"; number := [7; 8; 9; 10; 15; 16] |}].
Proof.
  destruct (appended_draw_is_latest [7; 8; 9; 10; 15; 16] "22-Jan-25" sample_world)
    as (w' & E & Hl & _); [reflexivity|].
  by exists w'.
Defined.

(** X14. The effect of a run of drawing.py in which a draw is accepted:
    where the progress loads and the participants file exists, once the
    lines complained about are read the draw is appended to the ledger
    under the next date, the input after it is left unread, and the
    progress is that of the backlog with the new draw folded last, flagged
    latest. *)
Theorem accepted_draw_is_appended_and_folded roster pre line rest numbers next w :
  participants_csv (env w) = Some roster → (Drawing.init w).1 = Ret () →
  stdin w = pre ++ line :: rest → Forall rejected pre →
  check_line line = Accept numbers →
  next_date (env w) (date <$> last (ledger w)) = Some next →
  ∃ w' f,
    Drawing.main w = (Ret (), w') ∧
    ledger w' = ledger w ++ [{| date := next; number := numbers |}] ∧
    stdin w' = rest ∧
    progress w'
    = fold_progress roster numbers next
        (progress_after roster (unprocessed_draws (Drawing.init w).2)
           (progress (Drawing.init w).2)) ∧
    last (folds w') = Some f ∧
    fold_numbers f = numbers ∧ fold_date f = next ∧ fold_latest f = true.
Proof.
  intros Hr Hinit Hin Hpre Hline Hnext.
  destruct (drawing_main_to_prompt roster w Hr Hinit) as (w2 & E2 & He2 & Ht2 & Hi2 & Hp2).
  unfold Drawing.main. unfold bind at 1 in E2. unfold bind at 1.
  destruct (Drawing.init w) as [[[]|e] w1]; [|done]. simpl in E2, Hp2.
  unfold bind at 1. rewrite E2. unfold bind at 1. unfold Drawing.parse_input.
  match goal with |- context [parse_input_with ?pr w2] =>
    destruct (parse_input_with_answer pr pre line rest w2) as (out & ->) end;
    [by rewrite Hi2|done|by rewrite Hline|].
  rewrite Hline.
  assert (take 6 numbers = numbers) as Htake.
  { apply check_line_accepts in Hline as (ns & _ & Hv & ->).
    apply take_valid_draw. by apply valid_draw_sorted. }
  unfold bind at 1. unfold Drawing.add_to_trekking.
  unfold bind at 1. unfold read_trekking. simpl. rewrite Ht2.
  unfold bind at 1. unfold get. simpl. rewrite He2, Hnext.
  unfold bind, modify, ret. rewrite Htake.
  match goal with |- context [Drawing.check_participants numbers next true ?w0] =>
    destruct (drawing_check_participants_folds roster numbers next true w0)
      as (w' & -> & F) end; [by simpl; rewrite He2|].
  exists w'. eexists. split; [done|].
  rewrite (folded_progress _ _ _ _ _ _ _ F), (folded_stdin _ _ _ _ _ _ _ F),
          (folded_folds _ _ _ _ _ _ _ F), last_snoc. simpl.
  unfold ledger at 1. rewrite (folded_trekking _ _ _ _ _ _ _ F). simpl.
  by rewrite Hp2.
Qed.

Lemma accepted_draw_is_appended_and_folded_witness :
  ∃ w' f,
    Drawing.main sample_world = (Ret (), w') ∧
    ledger w' = ledger sample_world ++
                [{| date := "22-Jan-25"; number := [7; 8; 9; 10; 15; 16] |}] ∧
    stdin w' = [] ∧
    progress w'
    = fold_progress sample_roster [7; 8; 9; 10; 15; 16] "22-Jan-25"
        (progress_after sample_roster (unprocessed_draws (Drawing.init sample_world).2)
           (progress (Drawing.init sample_world).2)) ∧
    last (folds w') = Some f ∧
    fold_numbers f = [7; 8; 9; 10; 15; 16] ∧ fold_date f = "22-Jan-25" ∧
    fold_latest f = true.
Proof.
  apply (accepted_draw_is_appended_and_folded sample_roster [] "7 8 9 10 15 16" []);
    [reflexivity | vm_compute; reflexivity | reflexivity | constructor
    | vm_compute; reflexivity | reflexivity].
Defined.

(** X15. Where the progress loads and the participants file exists, a
    run of drawing.py in which Enter is pressed returns with the rows of
    the ledger as they were and the input after that line unread.
    If there was a backlog the progress is that of the backlog pass;
    otherwise the last row of the ledger, if it has numbers and a date, is
    folded once more, and without a row nothing is folded. *)
Theorem enter_adds_no_draw roster pre line rest w :
  participants_csv (env w) = Some roster → (Drawing.init w).1 = Ret () →
  stdin w = pre ++ line :: rest → Forall rejected pre →
  check_line line = Quit →
  let loaded := progress (Drawing.init w).2 in
  ∃ w', Drawing.main w = (Ret (), w') ∧ ledger w' = ledger w ∧ stdin w' = rest ∧
        progress w' =
          match unprocessed_draws (Drawing.init w).2, last (ledger w) with
          | [], Some latest =>
              if nonempty (Py.sorted (number latest)) && negb (String.eqb (date latest) "")
              then fold_progress roster (Py.sorted (number latest)) (date latest) loaded
              else loaded
          | [], None => loaded
          | unprocessed, _ => progress_after roster unprocessed loaded
          end.
Proof.
  intros Hr Hinit Hin Hpre Hline loaded. subst loaded.
  destruct (drawing_main_to_prompt roster w Hr Hinit) as (w2 & E2 & He2 & Ht2 & Hi2 & Hp2).
  unfold Drawing.main. unfold bind at 1 in E2. unfold bind at 1.
  destruct (Drawing.init w) as [[[]|e] w1]; [|done]. simpl in E2, Hp2. simpl.
  unfold bind at 1. rewrite E2. unfold bind at 1. unfold Drawing.parse_input.
  match goal with |- context [parse_input_with ?pr w2] =>
    destruct (parse_input_with_answer pr pre line rest w2) as (out & ->) end;
    [by rewrite Hi2|done|by rewrite Hline|].
  rewrite Hline.
  destruct (unprocessed_draws w1) as [|nd ds] eqn:Eu; simpl.
  2: { eexists. split; [done|]. simpl. unfold ledger at 1. simpl. by rewrite Ht2. }
  simpl in Hp2.
  unfold bind at 1. unfold Drawing.get_latest_results, bind, read_trekking, ret. simpl.
  rewrite Ht2.
  destruct (last (ledger w)) as [latest|]; simpl.
  2: { eexists. split; [done|]. simpl. unfold ledger at 1. simpl. by rewrite Ht2. }
  destruct (nonempty _ && _).
  2: { eexists. split; [done|]. simpl. unfold ledger at 1. simpl. by rewrite Ht2. }
  match goal with |- context [Drawing.check_participants ?n ?d true ?w0] =>
    destruct (drawing_check_participants_folds roster n d true w0)
      as (w' & -> & F) end; [by simpl; rewrite He2|].
  exists w'. split; [done|].
  rewrite (folded_stdin _ _ _ _ _ _ _ F), (folded_progress _ _ _ _ _ _ _ F).
  unfold ledger at 1. rewrite (folded_trekking _ _ _ _ _ _ _ F). simpl.
  by rewrite Ht2, Hp2.
Qed.

Lemma enter_adds_no_draw_witness :
  let loaded := progress (Drawing.init typed_world).2 in
  ∃ w', Drawing.main typed_world = (Ret (), w') ∧ ledger w' = ledger typed_world ∧
        stdin w' = ["29-Jan-25"] ∧
        progress w' =
          match unprocessed_draws (Drawing.init typed_world).2,
                last (ledger typed_world) with
          | [], Some latest =>
              if nonempty (Py.sorted (number latest)) && negb (String.eqb (date latest) "")
              then fold_progress sample_roster (Py.sorted (number latest)) (date latest)
                     loaded
              else loaded
          | [], None => loaded
          | unprocessed, _ => progress_after sample_roster unprocessed loaded
          end.
Proof.
  apply (enter_adds_no_draw sample_roster ["1 2 3 4 5"] "" ["29-Jan-25"]);
    [reflexivity | vm_compute; reflexivity | reflexivity
    | repeat constructor; eexists; vm_compute; reflexivity
    | vm_compute; reflexivity].
Defined.

(** X16. The order in which the numbers are typed does not matter: two
    lists of numbers that are permutations of each other are both rejected
    with the same complaint or both accepted as the same sorted draw. *)
Theorem typing_order_is_irrelevant (numbers numbers' : list Z) :
  numbers ≡ₚ numbers' → check_numbers numbers = check_numbers numbers'.
Proof.
  intros Hp. unfold check_numbers, Py.len, Py.len_set, Py.set.
  rewrite (Permutation_length Hp), (list_to_set_perm_L _ _ Hp), (sorted_permutation _ _ Hp).
  assert (forallb in_range numbers = forallb in_range numbers') as ->; [|done].
  apply eq_true_iff_eq. rewrite !forallb_in_range. by rewrite Hp.
Qed.

Lemma typing_order_is_irrelevant_witness :
  check_numbers [6; 5; 4; 3; 2; 1] = check_numbers [1; 2; 3; 4; 5; 6].
Proof.
  apply typing_order_is_irrelevant.
  exact (reverse_Permutation [1; 2; 3; 4; 5; 6]).
Defined.

(** X17. A date [get_draw_date] returns is the suggested date, seven days
    after the last row's, or a typed line, stripped, that pandas accepts;
    the rows of the ledger are left as they are. *)
Theorem draw_date_is_suggested_or_valid w d w' :
  Lottery.get_draw_date w = (Ret d, w') →
  ledger w' = ledger w ∧
  ∃ suggested, next_date (env w) (date <$> last (ledger w)) = Some suggested ∧
     (d = suggested ∨
      (valid_date (env w) d = true ∧ ∃ line, line ∈ stdin w ∧ d = Py.strip line)).
Proof.
  unfold Lottery.get_draw_date. unfold bind at 1. unfold read_trekking, ledger.
  assert (∀ valid suggested lines out r rest out',
            Lottery.get_draw_date_from valid suggested lines out = (Ret r, rest, out') →
            r = suggested ∨ (valid r = true ∧ ∃ line, line ∈ lines ∧ r = Py.strip line))
    as Hfrom.
  { intros valid suggested lines. induction lines as [|line lines IH]; intros out r rest out'.
    - simpl. by intros [= ].
    - simpl. destruct (decide (Py.strip line = "")); [intros [= <- _ _]; by left|].
      destruct (valid (Py.strip line)) eqn:Ev.
      + intros [= <- _ _]. right. split; [done|]. exists line. split; [apply list_elem_of_here|done].
      + intros [?|(? & line' & ? & ?)]%IH; [by left|right]. split; [done|].
        exists line'. split; [by apply list_elem_of_further|done]. }
  destruct (trekking_csv w) as [rows|] eqn:E; simpl;
    unfold bind, get; simpl;
    destruct (next_date _ _) as [suggested|]; try done;
    destruct (Lottery.get_draw_date_from _ _ _ _) as [[r rest] out] eqn:Eg;
    intros [= -> <-]; simpl; rewrite ?E; (split; [done|]); exists suggested;
    (split; [done|]); by eapply Hfrom.
Qed.

Lemma draw_date_is_suggested_or_valid_witness :
  ledger (Lottery.get_draw_date sample_world).2 = ledger sample_world ∧
  ∃ suggested,
    next_date (env sample_world) (date <$> last (ledger sample_world)) = Some suggested ∧
    ("7 8 9 10 15 16" = suggested ∨
     (valid_date (env sample_world) "7 8 9 10 15 16" = true ∧
      ∃ line, line ∈ stdin sample_world ∧ "7 8 9 10 15 16" = Py.strip line)).
Proof.
  apply (draw_date_is_suggested_or_valid sample_world "7 8 9 10 15 16").
  vm_compute. reflexivity.
Defined.

(** X18. When every line typed is one [parse_input] complains about, the
    run ends with the EOFError of [input()]: where the progress loads and
    the participants file exists, [main] raises it in drawing.py and in
    lottery.py. *)
Theorem exhausted_input_ends_the_run roster w :
  participants_csv (env w) = Some roster →
  Forall rejected (stdin w) →
  ((Drawing.init w).1 = Ret () → (Drawing.main w).1 = Raise EOFError) ∧
  ((Lottery.init w).1 = Ret () → (Lottery.main w).1 = Raise EOFError).
Proof.
  intros Hr Hin. split; intros Hinit.
  - destruct (drawing_init_returns w Hinit) as [He Hi].
    unfold Drawing.main. unfold bind at 1.
    destruct (Drawing.init w) as [[[]|e] w1]; [|done]. simpl in He, Hi.
    unfold bind at 1.
    destruct (process_all_unprocessed_draws_run roster w1) as (w2 & -> & He2 & _ & Hi2 & _);
      [by rewrite He|].
    unfold bind at 1. unfold Drawing.parse_input.
    match goal with |- context [parse_input_with ?pr ?w0] =>
      pose proof (parse_input_with_exhausted pr w0) as Hp;
      destruct (parse_input_with pr w0) as [[r|e] w3] end;
      rewrite Hi2, Hi in Hp; specialize (Hp Hin); simpl in Hp; [done|].
    by injection Hp as ->.
  - destruct (lottery_init_returns w Hinit) as [He Hi].
    unfold Lottery.main. unfold bind at 1.
    destruct (Lottery.init w) as [[[]|e] w1]; [|done]. simpl in He, Hi.
    unfold Lottery.run_interactive_mode. unfold bind at 1. unfold get at 1.
    rewrite He, Hr.
    unfold bind at 1, bind at 1. unfold print at 1 2. unfold modify.
    unfold bind at 1.
    match goal with |- context [Lottery.show_current_standings ?w0] =>
      destruct (show_current_standings_returns roster w0) as (w2 & -> & He2 & Hi2);
        [by rewrite <- Hr, <- He|] end.
    do 3 (unfold bind at 1; unfold print at 1; unfold modify at 1).
    unfold bind at 1. unfold Lottery.parse_input.
    match goal with |- context [parse_input_with ?pr ?w0] =>
      pose proof (parse_input_with_exhausted pr w0) as Hp;
      destruct (parse_input_with pr w0) as [[r|e] w3] end;
      simpl in Hp; rewrite Hi2 in Hp; simpl in Hp; rewrite Hi in Hp;
      specialize (Hp Hin); [done|].
    by injection Hp as ->.
Qed.

Lemma exhausted_input_ends_the_run_witness :
  ((Drawing.init rejecting_world).1 = Ret () →
   (Drawing.main rejecting_world).1 = Raise EOFError) ∧
  ((Lottery.init rejecting_world).1 = Ret () →
   (Lottery.main rejecting_world).1 = Raise EOFError).
Proof.
  apply (exhausted_input_ends_the_run sample_roster); [reflexivity|].
  repeat constructor; eexists; vm_compute; reflexivity.
Defined.

(** X19. Without a participants file drawing.py's [check_participants]
    raises FileNotFoundError and changes nothing, and a backlog pass with
    draws to fold raises it after the line that announces the pass, while
    lottery.py's [check_participants] and [run_interactive_mode] return
    after a notice, having read no input. *)
Theorem missing_participants_file winning_numbers draw_date is_latest_draw w :
  participants_csv (env w) = None →
  Drawing.check_participants winning_numbers draw_date is_latest_draw w
    = (Raise FileNotFoundError, w) ∧
  Lottery.check_participants winning_numbers draw_date is_latest_draw w
    = (Ret (), set_stdout
                 (stdout w ++
                  [Msg "No participants file found. Please start a new lottery run first."])
                 w) ∧
  (unprocessed_draws w ≠ [] →
   Drawing.process_all_unprocessed_draws w
   = (Raise FileNotFoundError,
      set_stdout (stdout w ++ [Processing (Py.len (unprocessed_draws w))])
        (set_trekking_csv (Some (ledger w)) w))) ∧
  Lottery.run_interactive_mode w
    = (Ret (), set_stdout
                 (stdout w ++
                  [Msg "No participants file found. Please start a new lottery run first.";
                   Msg "Usage: python lottery.py <pdf_file>"]) w).
Proof.
  intros Hr. split_and!.
  - unfold Drawing.check_participants, bind, read_participants. by rewrite Hr.
  - by apply lottery_check_participants_absent.
  - intros Hne. unfold Drawing.process_all_unprocessed_draws. unfold bind at 1.
    rewrite get_unprocessed_draws_world.
    destruct (unprocessed_draws w) as [|[numbers d] ds]; [done|].
    cbn [nonempty]. unfold bind at 1, bind at 1. unfold print, modify.
    unfold enumerate. simpl. unfold bind at 1.
    unfold Drawing.check_participants, bind, read_participants. simpl. by rewrite Hr.
  - unfold Lottery.run_interactive_mode, bind, get, print, modify. rewrite Hr. simpl.
    by rewrite <- app_assoc.
Qed.

Lemma missing_participants_file_witness :
  Drawing.check_participants [1; 2; 3; 11; 12; 45] "08-Jan-25" true no_roster_world
  = (Raise FileNotFoundError, no_roster_world).
Proof.
  apply (missing_participants_file [1; 2; 3; 11; 12; 45] "08-Jan-25" true no_roster_world).
  reflexivity.
Defined.

(** X20. drawing.py prints 'No results to display' exactly when the
    participants table has no row, so that the test at the end of the
    report never fires; the fold of such a table leaves the players as they
    are and still logs the date. *)
Theorem no_results_only_for_an_empty_table roster winning_numbers draw_date is_latest_draw w :
  participants_csv (env w) = Some roster →
  ∃ w' out,
    Drawing.check_participants winning_numbers draw_date is_latest_draw w = (Ret (), w') ∧
    stdout w' = stdout w ++ out ∧
    (Msg "No results to display" ∈ out ↔ roster = []) ∧
    draw_date ∈ processed_draws (progress w') ∧
    (roster = [] → players (progress w') = players (progress w)).
Proof.
  intros Hr. unfold Drawing.check_participants. unfold bind at 1. unfold read_participants.
  rewrite Hr. unfold bind at 1. unfold print_banner, bind at 1 2 3, print, modify. simpl.
  unfold bind at 1. unfold get at 1. rewrite check_rows_snd. simpl.
  fold (standings (colour (env w)) roster winning_numbers is_latest_draw (progress w)).
  set (P := λ o, o ≠ Msg "No results to display").
  set (w1 := set_stdout _ _).
  assert (∃ out, Drawing.report (standings (colour (env w)) roster winning_numbers
                                   is_latest_draw (progress w)) w1
                 = (Ret (), set_stdout (stdout w1 ++ out) w1) ∧
                 (Msg "No results to display" ∈ out ↔ roster = [])) as (o2 & E2 & H2).
  { destruct roster as [|row roster].
    - exists [Msg "No results to display"]. split; [done|].
      split; [done|]. intros _. apply list_elem_of_here.
    - destruct (standings_cons (colour (env w)) row roster winning_numbers is_latest_draw
                  (progress w)) as (top & rest & ->).
      destruct (emits_drawing_report top rest P) with (w := w1) as ([] & out & -> & Hall);
        [by intros []|done..|].
      exists out. split; [done|]. split; [|done].
      intros Hin. rewrite Forall_forall in Hall. by destruct (Hall _ Hin). }
  unfold bind at 1. rewrite E2. unfold bind at 1. unfold log_fold, modify.
  rewrite update_progress_saves. simpl.
  destruct (writable (env w)); eexists _, _; (split; [done|]); simpl;
    rewrite <- ?app_assoc; (split; [done|]);
    (split; [|split; [apply update_draws_elem|by intros ->]]);
    rewrite <- H2; simpl; rewrite !elem_of_cons, ?elem_of_app, ?list_elem_of_singleton;
    assert (rule "=" ≠ Msg "No results to display") by (intros [= ]);
    assert (rule "-" ≠ Msg "No results to display") by (intros [= ]);
    naive_solver.
Qed.

Lemma no_results_only_for_an_empty_table_witness :
  ∃ w' out,
    Drawing.check_participants [1; 2; 3; 11; 12; 45] "08-Jan-25" true empty_table_world
    = (Ret (), w') ∧
    stdout w' = stdout empty_table_world ++ out ∧
    (Msg "No results to display" ∈ out ↔ @nil participant = []) ∧
    "08-Jan-25" ∈ processed_draws (progress w') ∧
    (@nil participant = [] →
     players (progress w') = players (progress empty_table_world)).
Proof. apply (no_results_only_for_an_empty_table []). reflexivity. Defined.

(** X21. The lists future_winners.py shows for a member are ascending
    without repetition: the missing numbers, at most as many as the numbers
    chosen, and the names of the potential winners, at most as many as the
    rows that [get_missing_numbers_info] counts and exactly as many when the
    names of the table are unique. *)
Theorem analysis_lists_are_ascending participants_df ps (P : participant) :
  let r := FutureWinners.analyze_member participants_df ps P in
  StronglySorted Z.lt (FutureWinners.missing_numbers r) ∧
  (length (FutureWinners.missing_numbers r) ≤ length (Number P))%nat ∧
  StronglySorted (strict String.le) (FutureWinners.potential_winners r) ∧
  (length (FutureWinners.potential_winners r)
   ≤ length (winners_if_drawn ps (Name P) (missing_of ps (Name P) (Number P))
               participants_df))%nat ∧
  (NoDup (Name <$> participants_df) →
   length (FutureWinners.potential_winners r)
   = length (winners_if_drawn ps (Name P) (missing_of ps (Name P) (Number P))
               participants_df)).
Proof.
  simpl. split_and!.
  - apply sorted_set_increasing.
  - rewrite length_sorted_set. apply size_set_le. intros n Hn.
    by apply elem_of_missing_of in Hn as [? _].
  - apply sorted_names_increasing.
  - unfold sorted_names. rewrite merge_sort_Permutation.
    set (l := winners_if_drawn _ _ _ _).
    rewrite <- (length_fmap Name l). generalize (Name <$> l). intros names.
    induction names as [|n names IH]; [done|]. simpl.
    destruct (decide (n ∈ (list_to_set names : gset string))) as [Hin|Hin].
    + assert ({[n]} ∪ list_to_set names = (list_to_set names : gset string)) as ->
        by set_solver.
      lia.
    + rewrite elements_union_singleton by done. simpl. lia.
  - intros Hnd. unfold sorted_names. rewrite merge_sort_Permutation.
    set (l := winners_if_drawn _ _ _ _).
    assert (NoDup (Name <$> l)) as Hl.
    { unfold l, winners_if_drawn.
      apply (sublist_NoDup _ (Name <$> participants_df)); [done|].
      apply fmap_sublist, sublist_filter. }
    rewrite <- (length_fmap Name l). by rewrite elements_list_to_set.
Qed.

(** X22. Where the participants file exists and the progress file holds
    an object with players, future_winners.py's analysis returns, changes
    nothing but the terminal, and prints one block per name of a family
    member, in ascending order of the names. *)
Theorem analysis_only_prints participants_df ps saved_draws family_name language w :
  participants_csv (env w) = Some participants_df →
  progress_json w = JSONObject (Some ps) saved_draws →
  ∃ out,
    FutureWinners.analyze_future_winners family_name language w
    = (Ret (), set_stdout (stdout w ++ out) w) ∧
    StronglySorted (strict String.le) (future_headers out) ∧
    ∀ name, name ∈ future_headers out ↔
            ∃ row, row ∈ participants_df ∧ Name row = name ∧
                   Py.startswith name family_name = true.
Proof.
  intros Hr Hj. unfold FutureWinners.analyze_future_winners.
  unfold bind at 1. unfold read_participants. rewrite Hr.
  unfold bind at 1. unfold get. rewrite Hj.
  set (family_members := filter _ participants_df).
  set (m := FutureWinners.member_results participants_df ps family_members).
  unfold bind at 1. unfold print at 1. unfold modify.
  unfold bind at 1. unfold print at 1. unfold modify.
  match goal with |- context [for_each ?names ?body ?w0] =>
    destruct (print_members_run m names w0) as (out & -> & Hout) end.
  { intros name. rewrite elem_of_sorted_names, elem_of_elements. apply elem_of_dom. }
  exists ([Msg (FutureWinners.title language); rule "="] ++ out). split.
  { simpl. f_equal. destruct w; simpl. unfold set_stdout; simpl. f_equal.
    by rewrite <- !app_assoc. }
  rewrite future_headers_app. simpl. rewrite Hout. split.
  - apply sorted_names_increasing.
  - intros name. rewrite elem_of_sorted_names, elem_of_elements.
    unfold m. rewrite dom_member_results, elem_of_list_to_set, list_elem_of_fmap.
    unfold family_members. split.
    + intros (row & -> & [Hs Hrow]%list_elem_of_filter). by exists row.
    + intros (row & Hrow & <- & Hs). exists row. split; [done|]. by apply list_elem_of_filter.
Qed.

Lemma analysis_only_prints_witness :
  ∃ out,
    FutureWinners.analyze_future_winners "P" "en" example_world
    = (Ret (), set_stdout (stdout example_world ++ out) example_world) ∧
    StronglySorted (strict String.le) (future_headers out) ∧
    ∀ name, name ∈ future_headers out ↔
            ∃ row, row ∈ [example_P; example_Q] ∧ Name row = name ∧
                   Py.startswith name "P" = true.
Proof.
  apply (analysis_only_prints [example_P; example_Q] example_players None); reflexivity.
Defined.

(** X23. [LotteryManager.analyze_future_winners] returns, changes nothing
    but the terminal and prints, after the title, one block for every row
    of the family in the order of the table, with the values
    future_winners.py computes for that row; without a row of the family it
    prints a notice only. *)
Theorem manager_analysis_follows_the_table participants_df ps saved_draws family_name w :
  participants_csv (env w) = Some participants_df →
  progress_json w = JSONObject (Some ps) saved_draws →
  let family_members :=
    filter (λ row, Py.startswith (Name row) family_name = true) participants_df in
  ∃ out,
    Lottery.analyze_future_winners family_name w
    = (Ret (), set_stdout (stdout w ++ out) w) ∧
    out = if nonempty family_members
          then [Msg ("Future Winners Analysis for " +:+ family_name +:+ " Family");
                rule "="] ++ mjoin (member_block participants_df ps <$> family_members)
          else [Msg ("No family members found starting with '" +:+ family_name +:+ "'")].
Proof.
  intros Hr Hj family_members. unfold Lottery.analyze_future_winners. rewrite Hr, Hj.
  fold family_members. destruct (nonempty family_members) eqn:Hne; simpl.
  2: { by eexists. }
  unfold bind at 1. unfold print at 1. unfold modify.
  unfold bind at 1. unfold print at 1. unfold modify.
  match goal with |- context [for_each _ ?body ?w0] =>
    assert (∀ row w1, body row w1
              = (Ret (), set_stdout (stdout w1 ++ member_block participants_df ps row) w1))
      as Hbody;
    [|assert (∀ l w1, for_each l body w1
                = (Ret (), set_stdout
                             (stdout w1 ++ mjoin (member_block participants_df ps <$> l))
                             w1)) as Hloop]
  end.
  { intros row w1. unfold bind, print, modify, member_block. simpl.
    rewrite <- nonempty_sorted_names.
    destruct (nonempty (sorted_names _)); simpl; f_equal;
      unfold set_stdout; simpl; f_equal; by rewrite <- !app_assoc. }
  { induction l as [|row l IH]; intros w1.
    - simpl. by rewrite app_nil_r, <- (set_stdout_nil w1), app_nil_r.
    - cbn [for_each]. unfold bind at 1. rewrite Hbody, IH. simpl. f_equal.
      unfold set_stdout; simpl; f_equal. by rewrite <- !app_assoc. }
  rewrite Hloop. eexists. split; [|done]. simpl. f_equal.
  unfold set_stdout; simpl; f_equal. by rewrite <- !app_assoc.
Qed.

Lemma manager_analysis_follows_the_table_witness :
  ∃ out,
    Lottery.analyze_future_winners "P" example_world
    = (Ret (), set_stdout (stdout example_world ++ out) example_world) ∧
    out = [Msg "Future Winners Analysis for P Family"; rule "=";
           FutureHeader "P" 3 [4; 5; 6; 7; 8; 9; 10]; rule "-"; FutureWinners ["Q"]].
Proof.
  destruct (manager_analysis_follows_the_table [example_P; example_Q] example_players None
              "P" example_world) as (out & E & Hout); [reflexivity..|].
  exists out. split; [exact E|]. rewrite Hout. vm_compute. reflexivity.
Defined.

(** X24. [parse_pdf_lottery_data] returns on every text, never indexing an
    empty list of participants, every participant it returns has exactly
    ten numbers, and there are at most as many participants as lines. *)
Theorem imported_rows_hold_ten_numbers pages :
  ∃ participants,
    PdfParser.parse_pdf_lottery_data pages = Some participants ∧
    Forall (λ p, length (Number p) = 10%nat) participants ∧
    (length participants ≤ length (mjoin (Py.split_lines <$> pages)))%nat.
Proof.
  unfold PdfParser.parse_pdf_lottery_data.
  destruct (import_lines_importing (mjoin (Py.split_lines <$> pages)) 0
              {| PdfParser.participants := []; PdfParser.last_name := None;
                   PdfParser.name_count := ∅ |})
    as (st & -> & Hten & _ & Hlen).
  { split_and!; simpl; [constructor|by intros []|lia]. }
  exists (PdfParser.participants st). by split_and!.
Qed.

(** X25. [start_new_lottery] on a PDF with text returns [True] with the
    imported table written, the progress empty in memory and, where the
    file can be written, on file, and the ledger removed, so that no draw
    is unprocessed and [show_current_standings] finds no draw; pdf_parser.py's
    [process_lottery_pdf] writes the same table and leaves progress and
    ledger as they were. *)
Theorem new_lottery_starts_from_scratch pdf_path pages w :
  ∃ participants w' out,
    PdfParser.parse_pdf_lottery_data pages = Some participants ∧
    Lottery.start_new_lottery pdf_path (Pdf pages) w = (Ret true, w') ∧
    participants_csv (env w') = Some participants ∧
    progress w' = empty_progress ∧
    progress_json w' = (if writable (env w) then JSONObject (Some ∅) (Some [])
                        else progress_json w) ∧
    trekking_csv w' = None ∧
    unprocessed_draws w' = [] ∧
    Lottery.show_current_standings w'
    = (Ret (), set_trekking_csv (Some [])
                 (set_stdout (stdout w' ++ [Msg "No draws found. Please add a draw first."])
                    w')) ∧
    PdfParser.process_lottery_pdf (Pdf pages) w
    = (Ret true, set_stdout (stdout w ++ out) (set_participants_csv (Some participants) w)).
Proof.
  assert (∃ participants, PdfParser.parse_pdf_lottery_data pages = Some participants)
    as (participants & Hparse).
  { unfold PdfParser.parse_pdf_lottery_data.
    destruct (import_lines_importing (mjoin (Py.split_lines <$> pages)) 0
                {| PdfParser.participants := []; PdfParser.last_name := None;
                   PdfParser.name_count := ∅ |})
      as (st & -> & _); [|by eexists].
    split_and!; simpl; [constructor|by intros []|lia]. }
  exists participants.
  unfold Lottery.start_new_lottery, PdfParser.process_lottery_pdf,
    Lottery.parse_pdf_lottery_data.
  rewrite Hparse.
  set (first := for_each _ _). set (first' := for_each _ _).
  unfold Lottery.save_participants_to_csv, PdfParser.save_to_csv, bind, modify, print,
    modify, save_progress, ret.
  cbn [env set_participants_csv set_progress writable].
  destruct (writable (env w)) eqn:Hw; simpl.
  - match goal with |- context [first ?w0] =>
      destruct (emits_print_each (take 10 participants)
                  (λ p, Msg ("  " +:+ Name p +:+ ": " +:+ Py.str_list (Number p))) w0)
        as ([] & o1 & E1 & _) end.
    match goal with |- context [first' ?w0] =>
      destruct (emits_print_each (take 10 participants)
                  (λ p, Msg (Name p +:+ ": " +:+ Py.str_list (Number p))) w0)
        as ([] & o2 & E2 & _) end.
    unfold first, first'. rewrite E1, E2.
    eexists _, _. split; [done|]. split; [done|]. simpl.
    split_and!; try done. f_equal.
    unfold set_stdout, set_participants_csv. simpl. f_equal. by rewrite <- !app_assoc.
  - match goal with |- context [first ?w0] =>
      destruct (emits_print_each (take 10 participants)
                  (λ p, Msg ("  " +:+ Name p +:+ ": " +:+ Py.str_list (Number p))) w0)
        as ([] & o1 & E1 & _) end.
    match goal with |- context [first' ?w0] =>
      destruct (emits_print_each (take 10 participants)
                  (λ p, Msg (Name p +:+ ": " +:+ Py.str_list (Number p))) w0)
        as ([] & o2 & E2 & _) end.
    unfold first, first'. rewrite E1, E2.
    eexists _, _. split; [done|]. split; [done|]. simpl.
    split_and!; try done. f_equal.
    unfold set_stdout, set_participants_csv. simpl. f_equal. by rewrite <- !app_assoc.
Qed.

(** The import on the two sample pages: the row of a name met before
    is numbered, a line that is no row continues the name before it, and
    only the first ten numbers of a row are kept. *)
Example sample_import :
  PdfParser.parse_pdf_lottery_data sample_pdf
  = Some [ {| Name := "Alice"; Number := [1; 2; 3; 4; 5; 6; 7; 8; 9; 10] |};
           {| Name := "Bob van Dam"; Number := [11; 12; 13; 14; 15; 16; 17; 18; 19; 20] |};
           {| Name := "Bob (2)"; Number := [21; 22; 23; 24; 25; 26; 27; 28; 29; 30] |};
           {| Name := "Brink A 5 Carol 1 2 3";
              Number := [1; 12; 23; 34; 45; 6; 7; 8; 9; 10] |} ].
Proof. vm_compute. reflexivity. Qed.

(** X26. A run of lottery.py with a PDF argument exits with status 0
    exactly when the PDF has text: where the progress loads, [main] returns
    0 for such a file and 1 when there is no file or pdfplumber cannot read
    it, and in the latter cases the participants file, the progress and the
    ledger are as [LotteryManager()] left them. *)
Theorem pdf_run_exit_status pdf_path pdf w :
  (Lottery.init w).1 = Ret () →
  ∃ w', Lottery.main_pdf pdf_path pdf w
        = (Ret (match pdf with Pdf _ => 0 | _ => 1 end), w') ∧
        match pdf with
        | Pdf pages =>
            participants_csv (env w') = PdfParser.parse_pdf_lottery_data pages ∧
            progress w' = empty_progress ∧ trekking_csv w' = None
        | _ =>
            ∃ out, w' = set_stdout (stdout (Lottery.init w).2 ++ out) (Lottery.init w).2
        end.
Proof.
  intros Hinit. unfold Lottery.main_pdf. unfold bind at 1.
  destruct (Lottery.init w) as [[[]|e] w1]; [|done]. simpl.
  destruct pdf as [| |pages].
  - eexists. split; [done|]. by eexists.
  - eexists. split; [done|]. by eexists.
  - unfold bind at 1. unfold Lottery.start_new_lottery, Lottery.parse_pdf_lottery_data.
    destruct (import_lines_importing (mjoin (Py.split_lines <$> pages)) 0
                {| PdfParser.participants := []; PdfParser.last_name := None;
                   PdfParser.name_count := ∅ |})
      as (st & Hst & _); [split_and!; simpl; [constructor|by intros []|lia]|].
    unfold PdfParser.parse_pdf_lottery_data. rewrite Hst. simpl.
    set (first := for_each _ _).
    unfold Lottery.save_participants_to_csv, bind, modify, print, modify, save_progress, ret.
    cbn [env set_participants_csv set_progress writable].
    destruct (writable (env w1)); simpl.
    + match goal with |- context [first ?w0] =>
        destruct (emits_print_each (take 10 (PdfParser.participants st))
                    (λ p, Msg ("  " +:+ Name p +:+ ": " +:+ Py.str_list (Number p))) w0)
          as ([] & o1 & E1 & _) end.
      unfold first. rewrite E1. eexists. by split.
    + match goal with |- context [first ?w0] =>
        destruct (emits_print_each (take 10 (PdfParser.participants st))
                    (λ p, Msg ("  " +:+ Name p +:+ ": " +:+ Py.str_list (Number p))) w0)
          as ([] & o1 & E1 & _) end.
      unfold first. rewrite E1. eexists. by split.
Qed.

Lemma pdf_run_exit_status_witness :
  ∃ w', Lottery.main_pdf "list.pdf" (Pdf sample_pdf) sample_world = (Ret 0, w') ∧
        participants_csv (env w') = PdfParser.parse_pdf_lottery_data sample_pdf ∧
        progress w' = empty_progress ∧ trekking_csv w' = None.
Proof. apply (pdf_run_exit_status "list.pdf" (Pdf sample_pdf) sample_world). reflexivity. Defined.

(** X27. The effect of a run of lottery.py in which a draw is accepted:
    where the progress loads and the participants file exists, the last row
    of the ledger is folded for the standings, then the accepted draw is
    appended under the date typed, or under the suggested date when the
    line for the date is empty, the input after that line is left unread,
    and the new draw is folded last. *)
Theorem lottery_run_appends_and_folds
    roster pre line date_line rest numbers suggested w :
  participants_csv (env w) = Some roster → (Lottery.init w).1 = Ret () →
  stdin w = pre ++ line :: date_line :: rest → Forall rejected pre →
  check_line line = Accept numbers →
  next_date (env w) (date <$> last (ledger w)) = Some suggested →
  Py.strip date_line = "" ∨ valid_date (env w) (Py.strip date_line) = true →
  let draw_date :=
    if decide (Py.strip date_line = "") then suggested else Py.strip date_line in
  let shown :=
    match last (ledger w) with
    | Some latest =>
        fold_progress roster (Py.sorted (number latest)) (date latest)
          (progress (Lottery.init w).2)
    | None => progress (Lottery.init w).2
    end in
  ∃ w', Lottery.main w = (Ret (), w') ∧
        ledger w' = ledger w ++ [{| date := draw_date; number := numbers |}] ∧
        stdin w' = rest ∧
        progress w' = fold_progress roster numbers draw_date shown.
Proof.
  intros Hr Hinit Hin Hpre Hline Hnext Hdate draw_date shown.
  destruct (lottery_init_returns w Hinit) as [He Hi].
  pose proof (proj1 (untouched_lottery_init w)) as Hl.
  unfold Lottery.main. unfold bind at 1. subst shown.
  destruct (Lottery.init w) as [[[]|e] w1]; [|done]. simpl in He, Hi, Hl. simpl.
  unfold Lottery.run_interactive_mode. unfold bind at 1. unfold get at 1.
  rewrite He, Hr.
  unfold bind at 1, bind at 1. unfold print at 1 2. unfold modify.
  unfold bind at 1.
  match goal with |- context [Lottery.show_current_standings ?w0] =>
    destruct (show_current_standings_run roster w0)
      as (w2 & -> & He2 & Ht2 & Hi2 & Hp2); [by simpl; rewrite He|] end.
  unfold ledger in Ht2, Hp2. simpl in He2, Ht2, Hi2, Hp2.
  fold (ledger w1) in Ht2, Hp2. rewrite Hl in Ht2, Hp2.
  do 3 (unfold bind at 1; unfold print at 1; unfold modify at 1).
  unfold bind at 1. unfold Lottery.parse_input.
  match goal with |- context [parse_input_with ?pr ?w0] =>
    destruct (parse_input_with_answer pr pre line (date_line :: rest) w0) as (out & ->) end;
    [by simpl; rewrite Hi2, Hi|done|by rewrite Hline|].
  rewrite Hline. unfold bind at 1.
  match goal with |- context [Lottery.get_draw_date ?w0] =>
    destruct (get_draw_date_answer suggested date_line rest w0) as (out' & ->) end;
    [unfold ledger; simpl; by rewrite Ht2, He2, He|done|by simpl; rewrite He2, He|].
  fold draw_date.
  assert (take 6 numbers = numbers) as Htake.
  { apply check_line_accepts in Hline as (ns & _ & Hv & ->).
    apply take_valid_draw. by apply valid_draw_sorted. }
  unfold bind at 1. unfold Lottery.add_to_trekking, bind, read_trekking, modify, ret.
  unfold ledger at 1 2. simpl. rewrite Ht2, Htake. simpl.
  match goal with |- context [Lottery.check_participants numbers draw_date true ?w0] =>
    destruct (lottery_check_participants_folds roster numbers draw_date true w0)
      as (w' & -> & F) end; [by simpl; rewrite He2, He|].
  exists w'. split; [done|].
  rewrite (folded_progress _ _ _ _ _ _ _ F), (folded_stdin _ _ _ _ _ _ _ F).
  unfold ledger at 1. rewrite (folded_trekking _ _ _ _ _ _ _ F). simpl.
  by rewrite Hp2.
Qed.

Lemma lottery_run_appends_and_folds_witness :
  ∃ w', Lottery.main (set_stdin ["1 2 3 4 5"; "7 8 9 10 15 16"; ""; "x"] sample_world)
        = (Ret (), w') ∧
        ledger w' = ledger sample_world ++
                    [{| date := "22-Jan-25"; number := [7; 8; 9; 10; 15; 16] |}] ∧
        stdin w' = ["x"].
Proof.
  destruct (lottery_run_appends_and_folds sample_roster ["1 2 3 4 5"] "7 8 9 10 15 16" ""
              ["x"] [7; 8; 9; 10; 15; 16] "22-Jan-25"
              (set_stdin ["1 2 3 4 5"; "7 8 9 10 15 16"; ""; "x"] sample_world))
    as (w' & E & Hl & Hi & _);
    [reflexivity | vm_compute; reflexivity | reflexivity
    | repeat constructor; eexists; vm_compute; reflexivity
    | vm_compute; reflexivity | reflexivity | left; vm_compute; reflexivity |].
  exists w'. by split_and!.
Defined.

(** X28. [get_missing_numbers_info] never raises and prints at most its
    complaint; it returns a result other than [None] exactly when the
    participants file exists, the name is in the table and the progress
    file holds an object with players. *)
Theorem missing_numbers_info_found player_name winning_numbers w :
  (∃ r out, Lottery.get_missing_numbers_info player_name winning_numbers w
            = (Ret r, set_stdout (stdout w ++ out) w) ∧
            (out = [] ∨ out = [Msg "Error analyzing missing numbers"])) ∧
  ((∃ info w', Lottery.get_missing_numbers_info player_name winning_numbers w
               = (Ret (Some info), w')) ↔
   (∃ roster ps saved_draws,
      participants_csv (env w) = Some roster ∧ player_name ∈ Name <$> roster ∧
      progress_json w = JSONObject (Some ps) saved_draws)).
Proof.
  unfold Lottery.get_missing_numbers_info, bind, print, modify, ret.
  assert (∀ roster, (∃ row rest, filter (λ row, Name row = player_name) roster = row :: rest)
                    ↔ player_name ∈ Name <$> roster) as Hfound.
  { intros roster. rewrite list_elem_of_fmap. split.
    - intros (row & rest & E). exists row.
      assert (row ∈ filter (λ row, Name row = player_name) roster) as Hin
        by (rewrite E; apply list_elem_of_here).
      by apply list_elem_of_filter in Hin as [-> ?].
    - intros (row & -> & Hrow).
      destruct (filter (λ row0, Name row0 = Name row) roster) as [|r rest] eqn:E;
        [|by eexists _, _].
      exfalso. by eapply (filter_nil_not_elem_of _ _ row). }
  destruct (participants_csv (env w)) as [roster|] eqn:Hr.
  2: { split; [exists None, []; rewrite set_stdout_nil; by split; [|left]|].
       split; [by intros (? & ? & [= ])|by intros (? & ? & ? & [= ] & _)]. }
  specialize (Hfound roster).
  destruct (progress_json w) as [| | | |[ps|] sd] eqn:Hj; simpl.
  - split; [exists None, []; rewrite set_stdout_nil; by split; [|left]|].
    split; [by intros (? & ? & [= ])|by intros (? & ? & ? & _ & _ & [= ])].
  - split; [eexists None, _; by split; [|right]|].
    split; [by intros (? & ? & [= ])|by intros (? & ? & ? & _ & _ & [= ])].
  - split; [eexists None, _; by split; [|right]|].
    split; [by intros (? & ? & [= ])|by intros (? & ? & ? & _ & _ & [= ])].
  - destruct (filter _ roster) as [|row rest].
    + split; [exists None, []; rewrite set_stdout_nil; by split; [|left]|].
      split; [by intros (? & ? & [= ])|by intros (? & ? & ? & _ & _ & [= ])].
    + split; [eexists None, _; by split; [|right]|].
      split; [by intros (? & ? & [= ])|by intros (? & ? & ? & _ & _ & [= ])].
  - destruct (filter _ roster) as [|row rest] eqn:Ef.
    + split; [exists None, []; rewrite set_stdout_nil; by split; [|left]|].
      split; [by intros (? & ? & [= ])|].
      intros (? & ? & ? & [= <-] & Hin & _). apply Hfound in Hin as (? & ? & [= ]).
    + split; [eexists _, []; rewrite set_stdout_nil; by split; [|left]|].
      split; [|by eexists _, _].
      intros _. exists roster, ps, sd. split_and!; [done| |done].
      apply Hfound. by eexists _, _.
  - destruct (filter _ roster) as [|row rest].
    + split; [exists None, []; rewrite set_stdout_nil; by split; [|left]|].
      split; [by intros (? & ? & [= ])|by intros (? & ? & ? & _ & _ & [= ])].
    + split; [eexists None, _; by split; [|right]|].
      split; [by intros (? & ? & [= ])|by intros (? & ? & ? & _ & _ & [= ])].
Qed.

(** X29. The lines of a fold that tell a family member's missing numbers
    are computed from the progress file as it is before the fold saves: each
    is what [get_missing_numbers_info] returns for a name of the table in
    the world the fold starts in, and such lines appear only if a family is
    set; in particular a fold that finds no progress file prints none. *)
Theorem missing_info_is_read_before_the_fold
    roster winning_numbers draw_date is_latest_draw w :
  participants_csv (env w) = Some roster →
  ∃ w' out,
    Lottery.check_participants winning_numbers draw_date is_latest_draw w = (Ret (), w') ∧
    stdout w' = stdout w ++ out ∧
    (∀ missing_nums winner_count, MissingInfo missing_nums winner_count ∈ out →
       is_Some (family (env w)) ∧
       ∃ name, name ∈ Name <$> roster ∧
               Lottery.get_missing_numbers_info name winning_numbers w
               = (Ret (Some (missing_nums, winner_count)), w)) ∧
    (progress_json w = Absent →
     ∀ missing_nums winner_count, MissingInfo missing_nums winner_count ∉ out).
Proof.
  intros Hr. unfold Lottery.check_participants. unfold bind at 1. unfold get at 1.
  rewrite Hr. unfold bind at 1. unfold print_banner, bind at 1 2 3, print, modify. simpl.
  unfold bind at 1. unfold get at 1. rewrite check_rows_snd. simpl.
  fold (standings (colour (env w)) roster winning_numbers is_latest_draw (progress w)).
  set (w1 := set_stdout _ _). set (results := standings _ _ _ _ _).
  destruct (lottery_report_missing_info winning_numbers results w1) as (o2 & E2 & H2).
  unfold bind at 1. rewrite E2. unfold bind at 1. unfold log_fold, modify.
  rewrite update_progress_saves.
  assert (∀ m k, MissingInfo m k ∈ o2 →
            is_Some (family (env w)) ∧
            ∃ name, name ∈ Name <$> roster ∧
                    Lottery.get_missing_numbers_info name winning_numbers w
                    = (Ret (Some (m, k)), w)) as H2'.
  { intros m k Hin. destruct (H2 m k Hin) as (Hf & r & Hres & Hm). split; [exact Hf|].
    apply elem_of_standings in Hres as (row & Hrow & ->).
    exists (Name row). split; [apply list_elem_of_fmap; by exists row|].
    unfold w1 in Hm. rewrite !get_missing_numbers_info_frame in Hm.
    change (r_name _) with (Name row) in Hm.
    by apply get_missing_numbers_info_some. }
  assert (progress_json w = Absent → ∀ m k, MissingInfo m k ∉ o2) as Habs.
  { intros Hj m k Hin. destruct (H2' m k Hin) as (_ & name & _ & E). revert E.
    unfold Lottery.get_missing_numbers_info. rewrite Hr, Hj. by intros [= ]. }
  cbn [env set_folds set_stdout]. unfold w1 at 1. cbn [env set_stdout].
  set (banner := [ResultsFor draw_date; rule "=";
                  WinningNumbers (Py.sorted winning_numbers); rule "-"]).
  assert (∀ m k tail, MissingInfo m k ∈ banner ++ o2 ++ tail →
            tail = [] ∨ tail = [Msg "Error saving progress file"] →
            MissingInfo m k ∈ o2) as Hin.
  { intros m k tail. unfold banner. rewrite !elem_of_app, !elem_of_cons, elem_of_nil.
    intros [[?|[Hx|[?|[Hx|[]]]]]|[?|Ht]] Htail; try done; try discriminate Hx.
    destruct Htail as [-> | ->]; [by apply elem_of_nil in Ht|].
    by apply list_elem_of_singleton in Ht. }
  destruct (writable (env w)).
  - eexists _, (banner ++ o2 ++ []).
    split; [reflexivity|].
    cbn [stdout progress progress_json set_stdout set_progress set_folds
         set_progress_json].
    split; [unfold w1, banner; cbn [stdout set_stdout]; by rewrite <- !app_assoc, app_nil_r|].
    split.
    + intros m k Hm. apply H2', (Hin m k []); [done|by left].
    + intros Hj m k Hm. apply (Habs Hj m k), (Hin m k []); [done|by left].
  - eexists _, (banner ++ o2 ++ [Msg "Error saving progress file"]).
    split; [reflexivity|].
    cbn [stdout progress progress_json set_stdout set_progress set_folds
         set_progress_json].
    split; [unfold w1, banner; cbn [stdout set_stdout]; by rewrite <- !app_assoc|].
    split.
    + intros m k Hm. apply H2', (Hin m k [Msg "Error saving progress file"]); [done|by right].
    + intros Hj m k Hm.
      apply (Habs Hj m k), (Hin m k [Msg "Error saving progress file"]); [done|by right].
Qed.

Lemma missing_info_is_read_before_the_fold_witness :
  ∃ w' out,
    Lottery.check_participants [1; 2; 3; 11; 12; 45] "08-Jan-25" true sample_world
    = (Ret (), w') ∧
    stdout w' = stdout sample_world ++ out ∧
    (progress_json sample_world = Absent →
     ∀ missing_nums winner_count, MissingInfo missing_nums winner_count ∉ out).
Proof.
  destruct (missing_info_is_read_before_the_fold sample_roster [1; 2; 3; 11; 12; 45]
              "08-Jan-25" true sample_world) as (w' & out & E & Ho & _ & Habs);
    [reflexivity|].
  by exists w', out.
Defined.

(** X30. drawing.py prints the score line of a participant of the table
    exactly when no participant has a higher total, or when the name starts
    with 'Brink': the highest scorers are those with the greatest total
    after the fold, and the family of drawing.py is fixed in the code. *)
Theorem listed_when_highest_or_brink roster winning_numbers draw_date is_latest_draw w :
  participants_csv (env w) = Some roster →
  let results := standings (colour (env w)) roster winning_numbers is_latest_draw
                   (progress w) in
  ∃ w' out,
    Drawing.check_participants winning_numbers draw_date is_latest_draw w = (Ret (), w') ∧
    stdout w' = stdout w ++ out ∧
    ∀ r, r ∈ results →
         score_of r ∈ out ↔
           (∀ r', r' ∈ results → r_total r' ≤ r_total r) ∨
           Py.startswith (r_name r) "Brink" = true.
Proof.
  intros Hr results. unfold Drawing.check_participants. unfold bind at 1.
  unfold read_participants. rewrite Hr. unfold bind at 1.
  unfold print_banner, bind at 1 2 3, print, modify. simpl.
  unfold bind at 1. unfold get at 1. rewrite check_rows_snd. simpl.
  fold (standings (colour (env w)) roster winning_numbers is_latest_draw (progress w)).
  fold results.
  assert (Hs : StronglySorted (flip tuple_le) results) by apply sort_reverse_descending.
  set (w1 := set_stdout _ _).
  assert (∃ out, Drawing.report results w1 = (Ret (), set_stdout (stdout w1 ++ out) w1) ∧
                 ∀ r, r ∈ results →
                      score_of r ∈ out ↔
                        (∀ r', r' ∈ results → r_total r' ≤ r_total r) ∨
                        Py.startswith (r_name r) "Brink" = true) as (o2 & E2 & H2).
  { destruct results as [|top rest] eqn:E.
    - exists [Msg "No results to display"]. split; [done|]. by intros r ?%elem_of_nil.
    - destruct (drawing_report_lines top rest w1) as (out & -> & Hout).
      exists out. split; [done|]. intros r Hin. rewrite Hout. unfold shown_drawing.
      rewrite <- (highest_iff_head top rest r Hs Hin). split.
      + intros (r' & Hr' & [Hn Ht]%score_of_eq).
        apply elem_of_app in Hr' as [Hr'|Hr']; apply list_elem_of_filter in Hr' as [Hp _].
        * left. by rewrite Ht.
        * right. by rewrite Hn.
      + intros [H|H]; exists r; (split; [|done]); apply elem_of_app; [left|right];
          by apply list_elem_of_filter. }
  unfold bind at 1. rewrite E2. unfold bind at 1. unfold log_fold, modify.
  rewrite update_progress_saves. simpl.
  destruct (writable (env w)); eexists _, _; (split; [done|]); simpl;
    rewrite <- ?app_assoc; (split; [done|]);
    intros r Hin; rewrite <- (H2 r Hin); destruct (score_of_is_score r) as [_ Hw];
    simpl; rewrite !elem_of_cons, ?elem_of_app, ?list_elem_of_singleton;
    (split; [|tauto]);
    unfold score_of, rule; destruct (0 <? r_new r); naive_solver.
Qed.

Lemma listed_when_highest_or_brink_witness :
  let results := standings false sample_roster [1; 2; 3; 11; 12; 45] true empty_progress in
  ∃ w' out,
    Drawing.check_participants [1; 2; 3; 11; 12; 45] "08-Jan-25" true sample_world
    = (Ret (), w') ∧
    stdout w' = stdout sample_world ++ out ∧
    ∀ r, r ∈ results →
         score_of r ∈ out ↔
           (∀ r', r' ∈ results → r_total r' ≤ r_total r) ∨
           Py.startswith (r_name r) "Brink" = true.
Proof.
  apply (listed_when_highest_or_brink sample_roster [1; 2; 3; 11; 12; 45] "08-Jan-25" true
           sample_world).
  reflexivity.
Defined.
